(** * Conversation-state workflow engine of the airline complaint assistant

    A shallow embedding of the Python sources
    - [src/src/database.py]            (module [Database]),
    - [src/src/graph_processor.py]     (module [GraphProcessor]),
    - [src/src/trustcall_processor.py] (module [TrustCall]),
    - [src/api_enhanced.py]            (module [Api]),
    followed by the properties of the specification proved about them.

    Conventions.  A Python [str] is a [string] whose characters stand for
    code points below 256.  [Optional[str]] is [option string].  A call that
    may raise returns in [Exc]; [try ... except Exception] is [try_except].
    Everything the code reads from outside (the clock, [uuid4], the database
    server, the language model) is an explicit environment argument. *)

From Stdlib Require Import ZArith String Ascii List Lia Bool.
From stdpp Require Import gmap strings list.
From Stdlib Require Import Sorted.
Import ListNotations.
Local Open Scope string_scope.

(** ** Python built-ins used by the sources *)

Module Py.

Definition in_range (lo hi n : N) : bool := ((lo <=? n) && (n <=? hi))%N.

(** [str.lower] on one code point below 256: the ASCII capitals and the
    Latin-1 capitals (all of 192..222 but the multiplication sign). *)
Definition lower_char (c : ascii) : ascii :=
  let n := N_of_ascii c in
  if in_range 65 90 n || (in_range 192 222 n && negb (n =? 215)%N)
  then ascii_of_N (n + 32) else c.

Fixpoint lower (s : string) : string :=
  match s with
  | EmptyString => EmptyString
  | String c r => String (lower_char c) (lower r)
  end.

(** [str.upper] on the ASCII letters; the sources apply it to hexadecimal
    digits only. *)
Definition upper_char (c : ascii) : ascii :=
  let n := N_of_ascii c in
  if in_range 97 122 n then ascii_of_N (n - 32) else c.

Fixpoint upper (s : string) : string :=
  match s with
  | EmptyString => EmptyString
  | String c r => String (upper_char c) (upper r)
  end.

(** [str.isspace] on one code point below 256. *)
Definition isspace (c : ascii) : bool :=
  let n := N_of_ascii c in
  in_range 9 13 n || in_range 28 32 n || (n =? 133)%N || (n =? 160)%N.

Fixpoint lstrip (s : string) : string :=
  match s with
  | EmptyString => EmptyString
  | String c r => if isspace c then lstrip r else s
  end.

Fixpoint rstrip (s : string) : string :=
  match s with
  | EmptyString => EmptyString
  | String c r =>
      match rstrip r with
      | EmptyString => if isspace c then EmptyString else String c EmptyString
      | r' => String c r'
      end
  end.

Definition strip (s : string) : string := rstrip (lstrip s).

(** Truth value of a [str]: non-empty. *)
Definition bool_of_str (s : string) : bool :=
  match s with EmptyString => false | _ => true end.

(** Truth value of an [Optional[str]]: neither [None] nor empty. *)
Definition truthy (o : option string) : bool :=
  match o with Some s => bool_of_str s | None => false end.

(** Formatting an [Optional[str]] inside an f-string. *)
Definition str (o : option string) : string := default "None" o.

(** [sep.join(parts)]. *)
Fixpoint join (sep : string) (parts : list string) : string :=
  match parts with
  | [] => ""
  | [p] => p
  | p :: rest => p +:+ sep +:+ join sep rest
  end.

(** [l[-n:]] for a positive [n]. *)
Definition slice_last {A} (n : nat) (l : list A) : list A :=
  drop (length l - n) l.

(** [x or y] on optional strings. *)
Definition or_else (o : option string) (d : string) : string :=
  match o with
  | Some s => if bool_of_str s then s else d
  | None => d
  end.

(** A Python dict with string keys, as built by successive [d[k] = v]:
    an existing key keeps its position, a new key goes last. *)
Fixpoint dict_set {V} (k : string) (v : V) (d : list (string * V)) : list (string * V) :=
  match d with
  | [] => [(k, v)]
  | (k', v') :: r => if String.eqb k k' then (k, v) :: r else (k', v') :: dict_set k v r
  end.

(** Exceptions: a computation either raises (with the exception's class
    name) or returns. *)
Inductive Exc (A : Type) : Type :=
| Raise (e : string)
| Ret (a : A).
Arguments Raise {A} e.
Arguments Ret {A} a.

Definition bind {A B} (m : Exc A) (k : A -> Exc B) : Exc B :=
  match m with
  | Raise e => Raise e
  | Ret a => k a
  end.

(** [try: m  except Exception as e: h]. *)
Definition try_except {A} (m : Exc A) (h : string -> A) : A :=
  match m with
  | Raise e => h e
  | Ret a => a
  end.

End Py.

Notation "x <- m ;; k" := (Py.bind m (fun x => k))
  (at level 100, m at next level, right associativity).

(** ** [src/src/models.py] *)

Module Models.

Inductive Priority := LOW | MEDIUM | HIGH | CRITICAL.

Inductive Category := DELAY | CANCELLATION | BAGGAGE | SERVICE | REFUND | OTHER.

(** The [.value] of the string enums. *)
Definition priority_value (p : Priority) : string :=
  match p with
  | LOW => "LOW" | MEDIUM => "MEDIUM" | HIGH => "HIGH" | CRITICAL => "CRITICAL"
  end.

Definition category_value (c : Category) : string :=
  match c with
  | DELAY => "DELAY" | CANCELLATION => "CANCELLATION" | BAGGAGE => "BAGGAGE"
  | SERVICE => "SERVICE" | REFUND => "REFUND" | OTHER => "OTHER"
  end.

(** [team_map], the same table in both processors. *)
Definition team_map (p : Priority) : string :=
  match p with
  | CRITICAL => "Emergency Response"
  | HIGH => "Priority Support"
  | MEDIUM => "Customer Service"
  | LOW => "General Support"
  end.

End Models.

(** ** [src/src/database.py] *)

Module Database.
Import Py.

(** A row of the [tickets] table, which is also the dict that the
    [RealDictCursor] queries hand back. *)
Record Ticket := {
  ticket_id : string;                   (* PRIMARY KEY *)
  thread_id : option string;            (* UNIQUE *)
  passenger_name : option string;
  passenger_email : option string;
  passenger_phone : option string;
  flight_number : option string;
  booking_reference : option string;
  original_complaint : option string;
  category : option string;
  priority : option string;
  assigned_team : option string;
  status : option string;
  created_at : option Z;                (* TIMESTAMP, nullable *)
  updated_at : Z
}.

(** The database server as one call sees it: whether [psycopg2.connect]
    succeeds, whether the server carries a well-formed statement out
    (a lost connection or a data error makes it raise), the value of
    [CURRENT_TIMESTAMP], and how the server reads a text written into a
    timestamp column ([None] for a text that is no timestamp). *)
Record Backend := {
  connects : bool;
  executes : bool;
  current_timestamp : Z;
  timestamp_in : string -> option Z
}.

(** The [ticket_data] dict of [create_ticket]; both callers fill in all
    twelve keys. *)
Record TicketData := {
  td_ticket_id : string;
  td_thread_id : option string;
  td_passenger_name : option string;
  td_passenger_email : option string;
  td_passenger_phone : option string;
  td_flight_number : option string;
  td_booking_reference : option string;
  td_original_complaint : option string;
  td_category : option string;
  td_priority : option string;
  td_assigned_team : option string;
  td_status : option string
}.

Definition _get_connection (be : Backend) : Exc unit :=
  if connects be then Ret tt else Raise "OperationalError".

Definition same_thread (thread : string) (t : Ticket) : bool :=
  match thread_id t with
  | Some th => String.eqb th thread
  | None => false
  end.

(** [INSERT INTO tickets (...) VALUES (...)] under the table's primary key
    and its [UNIQUE(thread_id)] constraint (SQL [NULL]s never collide). *)
Definition insert_row (be : Backend) (db : list Ticket) (d : TicketData)
  : Exc (list Ticket) :=
  if negb (executes be) then Raise "DatabaseError"
  else if existsb (fun t => String.eqb (ticket_id t) (td_ticket_id d)) db
  then Raise "UniqueViolation"
  else if match td_thread_id d with
          | Some th => existsb (same_thread th) db
          | None => false
          end
  then Raise "UniqueViolation"
  else Ret (db ++ [ {| ticket_id := td_ticket_id d;
                        thread_id := td_thread_id d;
                        passenger_name := td_passenger_name d;
                        passenger_email := td_passenger_email d;
                        passenger_phone := td_passenger_phone d;
                        flight_number := td_flight_number d;
                        booking_reference := td_booking_reference d;
                        original_complaint := td_original_complaint d;
                        category := td_category d;
                        priority := td_priority d;
                        assigned_team := td_assigned_team d;
                        status := td_status d;
                        created_at := Some (current_timestamp be);
                        updated_at := current_timestamp be |} ])%list.

(** The body of the [try] block of [create_ticket]. *)
Definition create_ticket_body (be : Backend) (db : list Ticket) (ticket_data : TicketData)
  : Exc (bool * list Ticket) :=
  _ <- _get_connection be ;;
  db' <- insert_row be db ticket_data ;;
  Ret (true, db').

Definition create_ticket (be : Backend) (db : list Ticket) (ticket_data : TicketData)
  : bool * list Ticket :=
  try_except (create_ticket_body be db ticket_data) (fun _ => (false, db)).

(** The data columns of the table: all but the primary key, the
    conversation and the two timestamps. *)
Inductive Column :=
| c_passenger_name | c_passenger_email | c_passenger_phone | c_flight_number
| c_booking_reference | c_original_complaint | c_category | c_priority
| c_assigned_team | c_status.

(** What the left-hand side of an assignment in [UPDATE ... SET] can
    name: any of the fourteen columns. *)
Inductive Target :=
| t_ticket_id | t_thread_id | t_created_at | t_updated_at
| t_data (c : Column).

#[global] Instance column_eq_dec : EqDecision Column.
Proof. solve_decision. Defined.

#[global] Instance target_eq_dec : EqDecision Target.
Proof. solve_decision. Defined.

(** [update_ticket] writes each key of [updates] into the statement as it
    is, [f"{field} = %s"], so the server reads it as SQL.  Here a key is
    read as one unquoted identifier, which the server takes with its ASCII
    capitals in lower case; a key that is no column name in that reading
    makes the statement fail. *)
Definition fold_char (c : ascii) : ascii :=
  let n := N_of_ascii c in
  if in_range 65 90 n then ascii_of_N (n + 32) else c.

Fixpoint fold_identifier (s : string) : string :=
  match s with
  | EmptyString => EmptyString
  | String c r => String (fold_char c) (fold_identifier r)
  end.

(** The data column that a key names. *)
Definition column_of (field : string) : option Column :=
  let name := fold_identifier field in
  if String.eqb name "passenger_name" then Some c_passenger_name
  else if String.eqb name "passenger_email" then Some c_passenger_email
  else if String.eqb name "passenger_phone" then Some c_passenger_phone
  else if String.eqb name "flight_number" then Some c_flight_number
  else if String.eqb name "booking_reference" then Some c_booking_reference
  else if String.eqb name "original_complaint" then Some c_original_complaint
  else if String.eqb name "category" then Some c_category
  else if String.eqb name "priority" then Some c_priority
  else if String.eqb name "assigned_team" then Some c_assigned_team
  else if String.eqb name "status" then Some c_status
  else None.

(** The column that a key names. *)
Definition target_of (field : string) : option Target :=
  let name := fold_identifier field in
  if String.eqb name "ticket_id" then Some t_ticket_id
  else if String.eqb name "thread_id" then Some t_thread_id
  else if String.eqb name "created_at" then Some t_created_at
  else if String.eqb name "updated_at" then Some t_updated_at
  else t_data <$> column_of field.

Definition set_column (c : Column) (v : option string) (t : Ticket) : Ticket :=
  let upd (c' : Column) (old : option string) : option string :=
    match c, c' with
    | c_passenger_name, c_passenger_name | c_passenger_email, c_passenger_email
    | c_passenger_phone, c_passenger_phone | c_flight_number, c_flight_number
    | c_booking_reference, c_booking_reference
    | c_original_complaint, c_original_complaint
    | c_category, c_category | c_priority, c_priority
    | c_assigned_team, c_assigned_team | c_status, c_status => v
    | _, _ => old
    end in
  {| ticket_id := ticket_id t;
     thread_id := thread_id t;
     passenger_name := upd c_passenger_name (passenger_name t);
     passenger_email := upd c_passenger_email (passenger_email t);
     passenger_phone := upd c_passenger_phone (passenger_phone t);
     flight_number := upd c_flight_number (flight_number t);
     booking_reference := upd c_booking_reference (booking_reference t);
     original_complaint := upd c_original_complaint (original_complaint t);
     category := upd c_category (category t);
     priority := upd c_priority (priority t);
     assigned_team := upd c_assigned_team (assigned_team t);
     status := upd c_status (status t);
     created_at := created_at t;
     updated_at := updated_at t |}.

Definition touch (now : Z) (t : Ticket) : Ticket :=
  {| ticket_id := ticket_id t;
     thread_id := thread_id t;
     passenger_name := passenger_name t;
     passenger_email := passenger_email t;
     passenger_phone := passenger_phone t;
     flight_number := flight_number t;
     booking_reference := booking_reference t;
     original_complaint := original_complaint t;
     category := category t;
     priority := priority t;
     assigned_team := assigned_team t;
     status := status t;
     created_at := created_at t;
     updated_at := now |}.

(** One [key = %s] of the [SET] list with its value, as the server takes
    it.  A value is a text or [NULL]. *)
Inductive Assignment :=
| set_ticket_id (v : option string)
| set_thread_id (v : option string)
| set_created_at (v : option Z)
| set_data (c : Column) (v : option string).

Definition target (a : Assignment) : Target :=
  match a with
  | set_ticket_id _ => t_ticket_id
  | set_thread_id _ => t_thread_id
  | set_created_at _ => t_created_at
  | set_data c _ => t_data c
  end.

(** The statement ends with its own [updated_at = CURRENT_TIMESTAMP], so
    a key that names [updated_at] assigns that column twice, which the
    server refuses; a text for [created_at] has to be a timestamp. *)
Definition assignment_of (be : Backend) (field : string) (value : option string)
  : Exc Assignment :=
  match target_of field with
  | None => Raise "UndefinedColumn"
  | Some t_updated_at => Raise "SyntaxError"
  | Some t_ticket_id => Ret (set_ticket_id value)
  | Some t_thread_id => Ret (set_thread_id value)
  | Some t_created_at =>
      match value with
      | None => Ret (set_created_at None)
      | Some text =>
          match timestamp_in be text with
          | Some time => Ret (set_created_at (Some time))
          | None => Raise "DataError"
          end
      end
  | Some (t_data c) => Ret (set_data c value)
  end.

Fixpoint set_list (be : Backend) (fields : list (string * option string))
  : Exc (list Assignment) :=
  match fields with
  | [] => Ret []
  | (f, v) :: r =>
      a <- assignment_of be f v ;;
      rest <- set_list be r ;;
      Ret (a :: rest)
  end.

Definition apply_assignment (a : Assignment) (t : Ticket) : Ticket :=
  match a with
  | set_ticket_id (Some v) =>
      {| ticket_id := v;
         thread_id := thread_id t;
         passenger_name := passenger_name t;
         passenger_email := passenger_email t;
         passenger_phone := passenger_phone t;
         flight_number := flight_number t;
         booking_reference := booking_reference t;
         original_complaint := original_complaint t;
         category := category t;
         priority := priority t;
         assigned_team := assigned_team t;
         status := status t;
         created_at := created_at t;
         updated_at := updated_at t |}
  | set_ticket_id None => t
  | set_thread_id v =>
      {| ticket_id := ticket_id t;
         thread_id := v;
         passenger_name := passenger_name t;
         passenger_email := passenger_email t;
         passenger_phone := passenger_phone t;
         flight_number := flight_number t;
         booking_reference := booking_reference t;
         original_complaint := original_complaint t;
         category := category t;
         priority := priority t;
         assigned_team := assigned_team t;
         status := status t;
         created_at := created_at t;
         updated_at := updated_at t |}
  | set_created_at v =>
      {| ticket_id := ticket_id t;
         thread_id := thread_id t;
         passenger_name := passenger_name t;
         passenger_email := passenger_email t;
         passenger_phone := passenger_phone t;
         flight_number := flight_number t;
         booking_reference := booking_reference t;
         original_complaint := original_complaint t;
         category := category t;
         priority := priority t;
         assigned_team := assigned_team t;
         status := status t;
         created_at := v;
         updated_at := updated_at t |}
  | set_data c v => set_column c v t
  end.

Definition assign_all (l : list Assignment) (t : Ticket) : Ticket :=
  fold_left (fun t' a => apply_assignment a t') l t.

(** [WHERE ticket_id = %s]; nothing equals [NULL]. *)
Definition where_ticket_id (tid : option string) (t : Ticket) : bool :=
  match tid with
  | Some i => String.eqb (ticket_id t) i
  | None => false
  end.

(** What the constraints of [init_tables] refuse in a row that is
    written: a [NULL] primary key, and a ticket id or a conversation that
    one of the other rows holds. *)
Definition violates (l : list Assignment) (others : list Ticket) : bool :=
  existsb (fun a =>
             match a with
             | set_ticket_id None => true
             | set_ticket_id (Some v) =>
                 existsb (fun u => String.eqb (ticket_id u) v) others
             | set_thread_id (Some th) => existsb (same_thread th) others
             | _ => false
             end) l.

(** [UPDATE tickets SET f1 = v1, ..., updated_at = CURRENT_TIMESTAMP
     WHERE ticket_id = tid].  The primary key lets at most one row match. *)
Definition update_rows (be : Backend) (db : list Ticket) (tid : option string)
    (fields : list (string * option string)) : Exc (list Ticket) :=
  if negb (executes be) then Raise "DatabaseError"
  else
    l <- set_list be fields ;;
    if negb (bool_decide (NoDup (target <$> l))) then Raise "SyntaxError"
    else if existsb (where_ticket_id tid) db
            && violates l (List.filter (fun t => negb (where_ticket_id tid t)) db)
    then Raise "IntegrityError"
    else Ret (map (fun t =>
                     if where_ticket_id tid t
                     then touch (current_timestamp be) (assign_all l t)
                     else t) db).

Definition ignored_key (field : string) : bool :=
  existsb (String.eqb field) ["ticket_id"; "thread_id"; "created_at"].

(** [update_fields] and [values] of [update_ticket], kept together. *)
Definition update_fields (updates : list (string * option string))
  : list (string * option string) :=
  List.filter (fun fv => negb (ignored_key (fst fv))) updates.

(** The body of the [try] block of [update_ticket]. *)
Definition update_ticket_body (be : Backend) (db : list Ticket) (ticket_id : option string)
    (updates : list (string * option string)) : Exc (bool * list Ticket) :=
  _ <- _get_connection be ;;
  match update_fields updates with
  | [] => Ret (true, db)
  | fields =>
      db' <- update_rows be db ticket_id fields ;;
      Ret (true, db')
  end.

Definition update_ticket (be : Backend) (db : list Ticket) (ticket_id : option string)
    (updates : list (string * option string)) : bool * list Ticket :=
  try_except (update_ticket_body be db ticket_id updates) (fun _ => (false, db)).

(** A [SET] list that names data columns only, each of them once: the
    columns with the values assigned. *)
Fixpoint resolve (fields : list (string * option string))
  : option (list (Column * option string)) :=
  match fields with
  | [] => Some []
  | (f, v) :: r =>
      match column_of f, resolve r with
      | Some c, Some cs =>
          if bool_decide (c ∈ cs.*1) then None else Some ((c, v) :: cs)
      | _, _ => None
      end
  end.

Definition assign (cs : list (Column * option string)) (t : Ticket) : Ticket :=
  fold_left (fun t' '(c, v) => set_column c v t') cs t.

(** The value a row holds in a column. *)
Definition column_value (c : Column) (t : Ticket) : option string :=
  match c with
  | c_passenger_name => passenger_name t
  | c_passenger_email => passenger_email t
  | c_passenger_phone => passenger_phone t
  | c_flight_number => flight_number t
  | c_booking_reference => booking_reference t
  | c_original_complaint => original_complaint t
  | c_category => category t
  | c_priority => priority t
  | c_assigned_team => assigned_team t
  | c_status => status t
  end.

(** [SELECT * FROM tickets WHERE thread_id = %s] and [fetchone]. *)
Definition get_ticket_by_thread (be : Backend) (db : list Ticket) (thread : string)
  : option Ticket :=
  try_except
    (_ <- _get_connection be ;;
     if executes be then Ret (List.find (same_thread thread) db)
     else Raise "DatabaseError")
    (fun _ => None).

End Database.

(** ** The clock and [uuid4], as both processors use them *)

Module Runtime.
Import Py.

(** What the process reads from its host: the time in seconds since the
    epoch, and the offset of the host's time zone from UTC in seconds. *)
Record Clock := {
  utc_seconds : Z;
  utc_offset : Z
}.

(** [datetime.now()] is the naive local time: seconds since the epoch,
    shifted by the zone offset. *)
Definition datetime_now (c : Clock) : Z := (utc_seconds c + utc_offset c)%Z.

Record Date := { year : Z; month : Z; day : Z }.

(** The proleptic Gregorian date of a day number counted from 1970-01-01. *)
Definition civil_from_days (days : Z) : Date :=
  (let z := days + 719468 in
   let era := z / 146097 in
   let doe := z - era * 146097 in
   let yoe := (doe - doe / 1460 + doe / 36524 - doe / 146096) / 365 in
   let doy := doe - (365 * yoe + yoe / 4 - yoe / 100) in
   let mp := (5 * doy + 2) / 153 in
   let d := doy - (153 * mp + 2) / 5 + 1 in
   let m := if mp <? 10 then mp + 3 else mp - 9 in
   {| year := yoe + era * 400 + (if m <=? 2 then 1 else 0);
      month := m;
      day := d |})%Z.

Definition date_of (seconds : Z) : Date := civil_from_days (seconds / 86400)%Z.

Definition digit (n : Z) : ascii := ascii_of_N (48 + Z.to_N (n mod 10)%Z).

(** The last [k] decimal digits of [n], zero padded. *)
Fixpoint zero_padded (k : nat) (n : Z) : string :=
  match k with
  | O => ""
  | S k' => zero_padded k' (n / 10)%Z +:+ String (digit n) ""
  end.

(** [strftime('%Y%m%d')], for the years 1000 to 9999. *)
Definition strftime_Ymd (seconds : Z) : string :=
  let d := date_of seconds in
  zero_padded 4 (year d) +:+ zero_padded 2 (month d) +:+ zero_padded 2 (day d).

Definition hex_digit (n : N) : ascii :=
  if (n <? 10)%N then ascii_of_N (48 + n) else ascii_of_N (87 + n).

(** The last [k] hexadecimal digits of [u], most significant first. *)
Fixpoint hex_digits (k : nat) (u : N) : string :=
  match k with
  | O => ""
  | S k' => String (hex_digit ((u / 16 ^ N.of_nat k') mod 16)%N) (hex_digits k' u)
  end.

(** [uuid.uuid4().hex] of the UUID whose 128-bit integer is [u]. *)
Definition uuid_hex (u : N) : string := hex_digits 32 u.

(** [s[:n]] *)
Definition prefix (n : nat) (s : string) : string := String.substring 0 n s.

(** [f"TCK-{datetime.now().strftime('%Y%m%d')}-{uuid.uuid4().hex[:6].upper()}"] *)
Definition new_ticket_id (c : Clock) (uuid : N) : string :=
  "TCK-" +:+ strftime_Ymd (datetime_now c) +:+ "-" +:+ upper (prefix 6 (uuid_hex uuid)).

End Runtime.

(** ** [src/src/graph_processor.py] *)

Module GraphProcessor.
Import Py Models.

Record PassengerInfo := {
  name : option string;
  email : option string;
  phone : option string;
  flight_number : option string;
  booking_reference : option string
}.

(** One turn of the loop over [new.model_dump().items()]. *)
Definition merge_field (existing new : option string) : option string :=
  match new with
  | Some value => Some value
  | None => existing
  end.

(** A model instance is always true, so [not existing] holds for [None]
    only. *)
Definition merge_passenger_info (existing new : option PassengerInfo)
  : option PassengerInfo :=
  match existing with
  | None => new
  | Some e =>
      match new with
      | None => existing
      | Some n =>
          Some {| name := merge_field (name e) (name n);
                  email := merge_field (email e) (email n);
                  phone := merge_field (phone e) (phone n);
                  flight_number := merge_field (flight_number e) (flight_number n);
                  booking_reference :=
                    merge_field (booking_reference e) (booking_reference n) |}
      end
  end.

(** The keys of [ComplaintState] that Decide and Execute read or write.
    A boolean key that is absent reads as false through [state.get]. *)
Record ComplaintState := {
  thread_id : option string;
  passenger_info : option PassengerInfo;
  original_complaint : option string;
  category : option Category;
  priority : option Priority;
  ticket_id : option string;
  assigned_team : option string;
  info_complete : bool;
  missing_fields : list string;
  ticket_exists : bool;
  next_action : option string;
  action_type : option string;
  action_result : option string
}.

(** The list [missing] built at the top of [_decide_action]. *)
Definition missing_of (state : ComplaintState) : list string :=
  let missing : list string := [] in
  let missing :=
    match passenger_info state with
    | Some info =>
        let missing :=
          if negb (truthy (name info)) then (missing ++ ["name"])%list else missing in
        if negb (truthy (email info)) && negb (truthy (phone info))
        then (missing ++ ["contact information (email or phone)"])%list
        else missing
    | None => (missing ++ ["name"; "contact information"])%list
    end in
  if negb (truthy (original_complaint state))
  then (missing ++ ["complaint details"])%list else missing.

Definition _decide_action (state : ComplaintState) : ComplaintState :=
  let missing := missing_of state in
  let '(action, next_action') :=
    if ticket_exists state then ("execute", "execute")
    else if negb (Nat.eqb (length missing) 0) then ("request_info", "respond")
    else if info_complete state then ("analyze", "analyze")
    else ("acknowledge", "respond") in
  {| thread_id := thread_id state;
     passenger_info := passenger_info state;
     original_complaint := original_complaint state;
     category := category state;
     priority := priority state;
     ticket_id := ticket_id state;
     assigned_team := assigned_team state;
     info_complete := info_complete state;
     missing_fields := missing;
     ticket_exists := ticket_exists state;
     next_action := Some next_action';
     action_type := Some action;
     action_result := action_result state |}.

(** The router after [decide_action]. *)
Inductive Node := Analyze | Execute | Respond | End.

Definition route_after_decide (state : ComplaintState) : option Node :=
  match next_action state with
  | None => Some End
  | Some a =>
      if String.eqb a "analyze" then Some Analyze
      else if String.eqb a "execute" then Some Execute
      else if String.eqb a "respond" then Some Respond
      else if String.eqb a "end" then Some End
      else None
  end.

(** The [updates] dict of the update path. *)
Definition execute_updates (state : ComplaintState) : list (string * option string) :=
  let updates : list (string * option string) := [] in
  let updates :=
    match passenger_info state with
    | Some info =>
        let updates :=
          if truthy (phone info) then dict_set "passenger_phone" (phone info) updates
          else updates in
        if truthy (email info) then dict_set "passenger_email" (email info) updates
        else updates
    | None => updates
    end in
  if truthy (original_complaint state)
  then dict_set "original_complaint" (original_complaint state) updates
  else updates.

(** The [ticket_data] dict of the create path. *)
Definition execute_ticket_data (state : ComplaintState) (ticket_id' : string)
  : Database.TicketData :=
  let field (f : PassengerInfo -> option string) : option string :=
    match passenger_info state with
    | Some info => f info
    | None => None
    end in
  {| Database.td_ticket_id := ticket_id';
     Database.td_thread_id := thread_id state;
     Database.td_passenger_name := field name;
     Database.td_passenger_email := field email;
     Database.td_passenger_phone := field phone;
     Database.td_flight_number := field flight_number;
     Database.td_booking_reference := field booking_reference;
     Database.td_original_complaint := original_complaint state;
     Database.td_category := category_value <$> category state;
     Database.td_priority := priority_value <$> priority state;
     Database.td_assigned_team := assigned_team state;
     Database.td_status := Some "OPEN" |}.

Definition with_result (state : ComplaintState) (ticket_id' : option string)
    (action_result' : string) : ComplaintState :=
  {| thread_id := thread_id state;
     passenger_info := passenger_info state;
     original_complaint := original_complaint state;
     category := category state;
     priority := priority state;
     ticket_id := ticket_id';
     assigned_team := assigned_team state;
     info_complete := info_complete state;
     missing_fields := missing_fields state;
     ticket_exists := ticket_exists state;
     next_action := next_action state;
     action_type := action_type state;
     action_result := Some action_result' |}.

(** [_execute_action]: the state after the node's returned keys are
    written, and the table after the store call. *)
Definition _execute_action (be : Database.Backend) (clock : Runtime.Clock) (uuid : N)
    (db : list Database.Ticket) (state : ComplaintState)
  : ComplaintState * list Database.Ticket :=
  if ticket_exists state then
    let updates := execute_updates state in
    let '(success, db') := Database.update_ticket be db (ticket_id state) updates in
    (with_result state (ticket_id state)
       (if success then "ticket_updated" else "update_failed"), db')
  else
    let ticket_id' := Runtime.new_ticket_id clock uuid in
    let ticket_data := execute_ticket_data state ticket_id' in
    let '(success, db') := Database.create_ticket be db ticket_data in
    (with_result state (if success then Some ticket_id' else None)
       (if success then "ticket_created" else "creation_failed"), db').

End GraphProcessor.

(** ** [src/src/trustcall_processor.py] *)

Module TrustCall.
Import Py Models.

Definition nl : string := String (ascii_of_nat 10) "".

(** A triple-quoted template, line by line. *)
Definition text (lines : list string) : string := join nl lines.

Record PassengerInfoSchema := {
  name : option string;
  email : option string;
  phone : option string;
  flight_number : option string;
  booking_reference : option string
}.

Record CreateTicketAction := {
  ca_passenger_info : PassengerInfoSchema;
  ca_complaint : string;
  ca_priority : Priority;
  ca_category : Category
}.

Record UpdateTicketAction := {
  ua_ticket_id : string;
  ua_passenger_phone : option string;
  ua_passenger_email : option string;
  ua_flight_number : option string;
  ua_complaint_update : option string;
  ua_corrections : option (list (string * string))
}.

Record RequestInfoAction := {
  ra_missing_fields : list string;
  ra_current_info : PassengerInfoSchema
}.

Record AcknowledgeAction := { ka_message : string }.

(** The union [ActionResponse]; the constructor is what [isinstance]
    tests. *)
Inductive ActionResponse :=
| create_ticket (a : CreateTicketAction)
| update_ticket (a : UpdateTicketAction)
| request_info (a : RequestInfoAction)
| acknowledge (a : AcknowledgeAction).

Record ConversationAnalysis := {
  situation_summary : string;
  has_complaint : bool;
  is_trivial_response : bool;
  extracted_info : PassengerInfoSchema;
  action : ActionResponse
}.

(** One entry of [conversation_history]. *)
Record Turn := { role : string; content : string }.

(** The two messages handed to the model. *)
Record Prompt := { system_prompt : string; user_prompt : string }.

(** What one call of [process_message] finds around it: the database
    server when the ticket of the conversation is looked up and when, later
    in the call, a ticket is written; the clock; the [uuid4] drawn for a new
    ticket; and the model.  [llm] is
    [self.llm.with_structured_output(ConversationAnalysis).invoke]: it
    raises or returns an analysis. *)
Record Env := {
  backend : Database.Backend;
  backend_at_write : Database.Backend;
  clock : Runtime.Clock;
  uuid : N;
  llm : Prompt -> Exc ConversationAnalysis
}.

(** The dict that [process_message] returns; a key that is left out reads
    as [None] through [result.get]. *)
Record Result := {
  response : string;
  status : string;
  ticket_id : option string;
  missing_fields : option (list string)
}.

(** One run of [process_message]: how it ended, the table it left, and
    the prompts it sent to the model. *)
Record Run := {
  outcome : Exc Result;
  store : list Database.Ticket;
  port_calls : list Prompt
}.

Definition trivial_messages : gset string :=
  {[ "ok"; "okay"; "thanks"; "thank you"; "yes"; "no"; "sure";
     "got it"; "understood"; "alright"; "fine"; "good"; "great" ]}.

Definition _create_ticket (env : Env) (db : list Database.Ticket)
    (a : CreateTicketAction) (thread_id : string) : Result * list Database.Ticket :=
  let ticket_id' := Runtime.new_ticket_id (clock env) (uuid env) in
  let info := ca_passenger_info a in
  let ticket_data :=
    {| Database.td_ticket_id := ticket_id';
       Database.td_thread_id := Some thread_id;
       Database.td_passenger_name := name info;
       Database.td_passenger_email := email info;
       Database.td_passenger_phone := phone info;
       Database.td_flight_number := flight_number info;
       Database.td_booking_reference := booking_reference info;
       Database.td_original_complaint := Some (ca_complaint a);
       Database.td_category := Some (category_value (ca_category a));
       Database.td_priority := Some (priority_value (ca_priority a));
       Database.td_assigned_team := Some (team_map (ca_priority a));
       Database.td_status := Some "OPEN" |} in
  let '(success, db') := Database.create_ticket (backend_at_write env) db ticket_data in
  let response' :=
    if success then
      text [ "Dear " +:+ str (name info) +:+ ",";
             "";
             "Thank you for contacting us. Your complaint has been registered.";
             "";
             "**Ticket Reference:** " +:+ ticket_id';
             "**Priority:** " +:+ priority_value (ca_priority a);
             "**Category:** " +:+ category_value (ca_category a);
             "**Assigned to:** " +:+ team_map (ca_priority a);
             "";
             "We will respond within our service level agreement timeframe:";
             "- Critical: 2 hours";
             "- High: 6 hours";
             "- Medium: 24 hours";
             "- Low: 72 hours";
             "";
             "Best regards,";
             "Customer Service Team" ]
    else "We encountered an error creating your ticket. Please try again." in
  ({| response := response';
      status := if success then "ticket_created" else "error";
      ticket_id := if success then Some ticket_id' else None;
      missing_fields := None |}, db').

(** [field_map.get(key, default)] for the three entries of [field_map]. *)
Definition field_map_get (key default : string) : string :=
  if String.eqb key "flight" then "flight_number"
  else if String.eqb key "email" then "passenger_email"
  else if String.eqb key "phone" then "passenger_phone"
  else default.

(** The [updates] dict of [_update_ticket].  A key of [corrections] is
    looked up in lower case and, when [field_map] does not have it, used as
    it was written. *)
Definition update_dict (a : UpdateTicketAction) : list (string * option string) :=
  let updates : list (string * option string) := [] in
  let updates :=
    if truthy (ua_passenger_phone a)
    then dict_set "passenger_phone" (ua_passenger_phone a) updates else updates in
  let updates :=
    if truthy (ua_passenger_email a)
    then dict_set "passenger_email" (ua_passenger_email a) updates else updates in
  let updates :=
    if truthy (ua_flight_number a)
    then dict_set "flight_number" (ua_flight_number a) updates else updates in
  let updates :=
    if truthy (ua_complaint_update a)
    then dict_set "original_complaint" (ua_complaint_update a) updates else updates in
  match ua_corrections a with
  | Some corrections =>
      fold_left (fun u '(field, value) =>
                   let db_field := field_map_get (lower field) field in
                   dict_set db_field (Some value) u)
                corrections updates
  | None => updates
  end.

(** Subscripting [existing_ticket] when it is [None] raises. *)
Definition subscript (existing_ticket : option Database.Ticket) : Exc Database.Ticket :=
  match existing_ticket with
  | Some t => Ret t
  | None => Raise "TypeError"
  end.

Definition _update_ticket (env : Env) (db : list Database.Ticket)
    (a : UpdateTicketAction) (existing_ticket : option Database.Ticket)
  : Exc Result * list Database.Ticket :=
  let updates := update_dict a in
  let '(response', db') :=
    match updates with
    | _ :: _ =>
        let '(success, db') :=
          Database.update_ticket (backend_at_write env) db (Some (ua_ticket_id a)) updates in
        (t <- subscript existing_ticket ;;
         Ret (text [ "Dear " +:+ str (Database.passenger_name t) +:+ ",";
                     "";
                     "Your ticket " +:+ ua_ticket_id a
                       +:+ " has been updated with the new information.";
                     "";
                     "Thank you for providing these additional details.";
                     "";
                     "Best regards,";
                     "Customer Service Team" ]), db')
    | [] =>
        (t <- subscript existing_ticket ;;
         Ret (text [ "Dear " +:+ str (Database.passenger_name t) +:+ ",";
                     "";
                     "Thank you for your message regarding ticket "
                       +:+ ua_ticket_id a +:+ ".";
                     "";
                     "Your ticket is being processed by our "
                       +:+ str (Database.assigned_team t) +:+ " team.";
                     "";
                     "Best regards,";
                     "Customer Service Team" ]), db)
    end in
  (r <- response' ;;
   Ret {| response := r;
          status := match updates with _ :: _ => "ticket_updated" | [] => "acknowledged" end;
          ticket_id := Some (ua_ticket_id a);
          missing_fields := None |}, db').

Definition _request_info (a : RequestInfoAction) : Exc Result :=
  let missing := ra_missing_fields a in
  fields_text <-
    match missing with
    | [] => Raise "IndexError"
    | [m] => Ret m
    | [m0; m1] => Ret (m0 +:+ " and " +:+ m1)
    | _ => Ret (join ", " (removelast missing) +:+ ", and " +:+ List.last missing "")
    end ;;
  Ret {| response :=
           text [ "To process your complaint, I'll need " +:+ fields_text +:+ ".";
                  "";
                  "Could you please provide these details so I can create a ticket for you?" ];
         status := "awaiting_information";
         ticket_id := None;
         missing_fields := Some missing |}.

Definition _acknowledge (a : AcknowledgeAction) (existing_ticket : option Database.Ticket)
  : Result :=
  {| response := ka_message a;
     status := "acknowledged";
     ticket_id := Database.ticket_id <$> existing_ticket;
     missing_fields := None |}.

Definition is_user (m : Turn) : bool := String.eqb (role m) "user".

(** [last_user_msg] after the loop over [reversed(conversation_history)]. *)
Definition last_user_msg (conversation_history : list Turn) : option string :=
  (fun m => strip (lower (content m))) <$> List.find is_user (rev conversation_history).

Definition message_count (conversation_history : list Turn) : nat :=
  length (List.filter is_user conversation_history).

Definition system_prompt_text : string :=
  text [ "You are an airline customer service AI with access to a ticket management system.";
         "";
         "Analyze the conversation and decide on the appropriate action using these rules:";
         "";
         "1. **Trivial Responses** (ok, thanks, yes, no): Return acknowledge action with polite response";
         "2. **New Complaints**: If all required info is present, create_ticket. Otherwise request_info";
         "3. **Existing Tickets**: Update if new info provided, otherwise acknowledge";
         "4. **General Queries**: Acknowledge with helpful response";
         "";
         "Required for new tickets:";
         "- Passenger name";
         "- Contact method (email OR phone)";
         "- Clear complaint description";
         "- You should determine priority and category based on the complaint";
         "";
         "When analyzing, extract ALL available information from the ENTIRE conversation, not just the latest message." ].

Definition ticket_context (existing_ticket : option Database.Ticket) : string :=
  match existing_ticket with
  | Some t =>
      text [ "";
             "EXISTING TICKET FOUND:";
             "- Ticket ID: " +:+ Database.ticket_id t;
             "- Name: " +:+ str (Database.passenger_name t);
             "- Email: " +:+ str (Database.passenger_email t);
             "- Phone: " +:+ or_else (Database.passenger_phone t) "Not provided";
             "- Flight: " +:+ str (Database.flight_number t);
             "- Complaint: " +:+ str (Database.original_complaint t);
             "" ]
  | None => ""
  end.

Definition conversation_text (conversation_history : list Turn) : string :=
  join nl (map (fun m => (if is_user m then "User" else "Assistant") +:+ ": " +:+ content m)
               (slice_last 10 conversation_history)).

Definition build_prompt (existing_ticket : option Database.Ticket)
    (conversation_history : list Turn) (message : string) : Prompt :=
  {| system_prompt := system_prompt_text;
     user_prompt :=
       text [ ticket_context existing_ticket;
              "";
              "Previous conversation:";
              conversation_text conversation_history;
              "";
              "Current message: " +:+ message;
              "";
              "Analyze this conversation and determine the appropriate action." ] |}.

Definition apology : Result :=
  {| response := "I apologize, but I'm having trouble processing your request. Please try again or contact support directly.";
     status := "error";
     ticket_id := None;
     missing_fields := None |}.

(** The body of the [try] block: the call of the model and the dispatch
    on the action it chose.  The table is threaded through, since a store
    call may already have happened when a later line raises. *)
Definition analyse_and_act (env : Env) (db : list Database.Ticket) (prompt : Prompt)
    (thread_id : string) (existing_ticket : option Database.Ticket)
  : Exc Result * list Database.Ticket :=
  match llm env prompt with
  | Raise e => (Raise e, db)
  | Ret analysis =>
      match action analysis with
      | create_ticket a =>
          let '(r, db') := _create_ticket env db a thread_id in (Ret r, db')
      | update_ticket a => _update_ticket env db a existing_ticket
      | request_info a => (_request_info a, db)
      | acknowledge a => (Ret (_acknowledge a existing_ticket), db)
      end
  end.

Definition process_message (env : Env) (db : list Database.Ticket)
    (message thread_id : string) (conversation_history : list Turn) : Run :=
  let normalized := strip (lower message) in
  if bool_decide (normalized ∈ trivial_messages) then
    match Database.get_ticket_by_thread (backend env) db thread_id with
    | Some existing_ticket =>
        {| outcome :=
             Ret {| response := "Thank you. Your ticket "
                                  +:+ Database.ticket_id existing_ticket
                                  +:+ " is being processed.";
                    status := "acknowledged";
                    ticket_id := Some (Database.ticket_id existing_ticket);
                    missing_fields := None |};
           store := db;
           port_calls := [] |}
    | None =>
        {| outcome :=
             Ret {| response := "How can I help you with your flight complaint today?";
                    status := "awaiting_complaint";
                    ticket_id := None;
                    missing_fields := None |};
           store := db;
           port_calls := [] |}
    end
  else if match last_user_msg conversation_history with
          | Some last => bool_of_str last && String.eqb last normalized
          | None => false
          end
  then
    {| outcome :=
         Ret {| response := "I've already received this message. Is there anything else you'd like to add?";
                status := "duplicate_message";
                ticket_id := None;
                missing_fields := None |};
       store := db;
       port_calls := [] |}
  else
    let existing_ticket := Database.get_ticket_by_thread (backend env) db thread_id in
    match (match existing_ticket with
           | Some t =>
               if bool_decide (Database.status t = Some "OPEN")
                  && (10 <? message_count conversation_history)%nat
               then Some t else None
           | None => None
           end) with
    | Some t =>
        {| outcome :=
             Ret {| response := "Your ticket " +:+ Database.ticket_id t
                                  +:+ " is already being processed. For urgent updates, please call our support line directly.";
                    status := "ticket_exists";
                    ticket_id := Some (Database.ticket_id t);
                    missing_fields := None |};
           store := db;
           port_calls := [] |}
    | None =>
        let prompt := build_prompt existing_ticket conversation_history message in
        let '(r, db') := analyse_and_act env db prompt thread_id existing_ticket in
        {| outcome := Ret (try_except r (fun _ => apology));
           store := db';
           port_calls := [prompt] |}
    end.

End TrustCall.

(** ** [src/api_enhanced.py] *)

Module Api.
Import Py.

Record ComplaintRequest := {
  message : string;
  thread_id : option string
}.

Record ComplaintResponse := {
  response : string;
  status : string;
  ticket_id : option string;
  resp_thread_id : string;
  missing_fields : option (list string)
}.

(** The process-wide state: the ticket table behind [app.state.db] and the
    global [conversation_store]. *)
Record Server := {
  db : list Database.Ticket;
  conversation_store : gmap string (list TrustCall.Turn)
}.

(** One request to [POST /api/v2/complaint] with what it finds around it;
    [thread_uuid] is the [uuid4] drawn when the request names no thread. *)
Record Call := {
  env : TrustCall.Env;
  thread_uuid : N;
  request : ComplaintRequest
}.

(** [request.thread_id or f"thread_{uuid.uuid4().hex[:8]}"] *)
Definition thread_of (c : Call) : string :=
  or_else (thread_id (request c))
          ("thread_" +:+ Runtime.prefix 8 (Runtime.uuid_hex (thread_uuid c))).

(** [process_complaint].  The appends go to the stored list itself, and
    the store then receives the slice; a raise from the processor leaves
    the store as it was and becomes an HTTP 500. *)
Definition process_complaint (srv : Server) (c : Call)
  : Exc ComplaintResponse * Server :=
  let thread := thread_of c in
  let history := default [] (conversation_store srv !! thread) in
  let run := TrustCall.process_message (env c) (db srv) (message (request c))
                                       thread history in
  match TrustCall.outcome run with
  | Ret result =>
      let history :=
        (history ++ [ {| TrustCall.role := "user";
                         TrustCall.content := message (request c) |} ])%list in
      let history :=
        (history ++ [ {| TrustCall.role := "assistant";
                         TrustCall.content := TrustCall.response result |} ])%list in
      (Ret {| response := TrustCall.response result;
              status := TrustCall.status result;
              ticket_id := TrustCall.ticket_id result;
              resp_thread_id := thread;
              missing_fields := TrustCall.missing_fields result |},
       {| db := TrustCall.store run;
          conversation_store :=
            <[ thread := slice_last 20 history ]> (conversation_store srv) |})
  | Raise e =>
      (Raise "HTTPException",
       {| db := TrustCall.store run;
          conversation_store := conversation_store srv |})
  end.

(** The server after a sequence of requests. *)
Definition serve (srv : Server) (calls : list Call) : Server :=
  fold_left (fun s c => snd (process_complaint s c)) calls srv.

End Api.

(** * Properties *)

(** ** The PassengerInfo merge (C2) *)

Section Merge.
Import GraphProcessor.












(** An extraction that is absent leaves what is known; a first extraction
    is taken as it is. *)
Example merge_with_an_absent_argument :
  let A := {| name := Some "John Doe"; email := None; phone := Some "";
              flight_number := None; booking_reference := None |} in
  merge_passenger_info (Some A) None = Some A
  /\ merge_passenger_info None (Some A) = Some A
  /\ merge_passenger_info None None = None.
Proof. repeat split. Qed.

End Merge.

(** ** The Decide stage (C1) *)

Section Decide.
Import Py GraphProcessor.

(** The three checks of the specification, in its order. *)
Inductive Check := NamePresent | ContactPresent | ComplaintPresent.

Definition checks : list Check := [NamePresent; ContactPresent; ComplaintPresent].

(** A value is present when it is neither null nor empty. *)
Definition holds (state : ComplaintState) (c : Check) : bool :=
  match c with
  | NamePresent =>
      match passenger_info state with Some i => truthy (name i) | None => false end
  | ContactPresent =>
      match passenger_info state with
      | Some i => truthy (email i) || truthy (phone i)
      | None => false
      end
  | ComplaintPresent => truthy (original_complaint state)
  end.

(** The human-readable label of a failed check. *)
Definition label (state : ComplaintState) (c : Check) : string :=
  match c with
  | NamePresent => "name"
  | ContactPresent =>
      match passenger_info state with
      | Some _ => "contact information (email or phone)"
      | None => "contact information"
      end
  | ComplaintPresent => "complaint details"
  end.

Definition missing_by_spec (state : ComplaintState) : list string :=
  label state <$> List.filter (fun c => negb (holds state c)) checks.

(** The decision policy of the specification, in priority order. *)
Definition decision_by_spec (state : ComplaintState) : string :=
  if ticket_exists state then "execute"
  else if bool_decide (missing_by_spec state <> []) then "respond"
  else if info_complete state then "analyze"
  else "respond".

Lemma missing_of_by_spec state : missing_of state = missing_by_spec state.
Proof.
  destruct state as [th [i|] oc ? ? ? ? ? ? ? ? ? ?];
    unfold missing_of, missing_by_spec, checks, holds, label; cbn.
  - destruct (truthy (name i)), (truthy (email i)), (truthy (phone i)),
      (truthy oc); reflexivity.
  - destruct (truthy oc); reflexivity.
Qed.

(** C1.  For every state, Decide reports the failed checks among name,
    contact (email or phone) and complaint text, in that order, and
    chooses: execute when a ticket exists, whatever is missing; else
    respond when something is missing; else analyze when the extraction
    marked the information complete; else respond. *)
Theorem decide_action_policy (state : ComplaintState) :
  missing_fields (_decide_action state) = missing_by_spec state
  /\ next_action (_decide_action state) = Some (decision_by_spec state)
  /\ (if ticket_exists state
      then route_after_decide (_decide_action state) = Some Execute
      else if bool_decide (missing_fields (_decide_action state) <> [])
           then route_after_decide (_decide_action state) = Some Respond
           else if info_complete state
                then route_after_decide (_decide_action state) = Some Analyze
                else route_after_decide (_decide_action state) = Some Respond).
Proof.
  assert (Hm : missing_fields (_decide_action state) = missing_by_spec state).
  { unfold _decide_action.
    destruct (ticket_exists state); [|destruct (negb _); [|destruct (info_complete state)]];
      cbn; apply missing_of_by_spec. }
  assert (Hn : next_action (_decide_action state) = Some (decision_by_spec state)).
  { unfold _decide_action, decision_by_spec. rewrite <- missing_of_by_spec.
    destruct (ticket_exists state); [reflexivity|].
    destruct (missing_of state); cbn; [|reflexivity].
    destruct (info_complete state); reflexivity. }
  split; [exact Hm|]. split; [exact Hn|].
  unfold route_after_decide. rewrite Hn, Hm. unfold decision_by_spec.
  destruct (ticket_exists state); [reflexivity|].
  destruct (bool_decide _); [reflexivity|].
  destruct (info_complete state); reflexivity.
Qed.

(** The existing-ticket branch comes first: a state with a ticket and
    with nothing known is still routed to Execute. *)
Example decide_existing_ticket_with_missing_fields :
  let state := {| thread_id := Some "t1"; passenger_info := None;
                  original_complaint := None; category := None; priority := None;
                  ticket_id := Some "TCK-20240102-0A1B2C"; assigned_team := None;
                  info_complete := false; missing_fields := [];
                  ticket_exists := true; next_action := None;
                  action_type := None; action_result := None |} in
  missing_fields (_decide_action state)
    = ["name"; "contact information"; "complaint details"]
  /\ next_action (_decide_action state) = Some "execute".
Proof. split; reflexivity. Qed.

End Decide.

(** ** The ticket store (C10) *)

Section Store.
Import Py Database.

(** The identity of a row: its ticket id, its conversation and its
    creation time. *)
Definition same_identity (t t' : Ticket) : Prop :=
  ticket_id t' = ticket_id t /\ thread_id t' = thread_id t /\ created_at t' = created_at t.

Lemma column_value_set_column c v t c' :
  column_value c' (set_column c v t) = if decide (c = c') then v else column_value c' t.
Proof. destruct c, c'; reflexivity. Qed.

Lemma same_identity_set_column c v t : same_identity t (set_column c v t).
Proof. repeat split. Qed.

Lemma same_identity_assign cs t : same_identity t (assign cs t).
Proof.
  unfold assign. revert t. induction cs as [|[c v] cs IH]; intros t; cbn.
  - repeat split.
  - destruct (IH (set_column c v t)) as (H1 & H2 & H3).
    split; [rewrite H1|split; [rewrite H2|rewrite H3]]; reflexivity.
Qed.

(** After the [SET] list, a column holds its old value or one of the
    values assigned to it. *)
Lemma column_value_assign cs t c :
  column_value c (assign cs t) = column_value c t
  \/ exists v, In (c, v) cs /\ column_value c (assign cs t) = v.
Proof.
  unfold assign. revert t. induction cs as [|[c0 v0] cs IH]; intros t; cbn.
  - by left.
  - destruct (IH (set_column c0 v0 t)) as [H|(v & Hin & H)].
    + rewrite column_value_set_column in H. case_decide as Hc.
      * subst c0. right. exists v0. split; [by left|done].
      * by left.
    + right. exists v. split; [by right|done].
Qed.

(** [names fields cs]: every key of [fields] names a data column, and
    [cs] has these columns with the values, in the order of the keys. *)
Definition names (fields : list (string * option string))
    (cs : list (Column * option string)) : Prop :=
  Forall2 (fun fv cv => column_of (fst fv) = Some (fst cv) /\ snd fv = snd cv) fields cs.

Definition as_data (cv : Column * option string) : Assignment :=
  set_data (fst cv) (snd cv).

Lemma resolve_names fields cs :
  resolve fields = Some cs -> names fields cs /\ NoDup cs.*1.
Proof.
  revert cs. induction fields as [|[f0 v0] fields IH]; intros cs Hr; cbn in Hr.
  - injection Hr as <-. split; constructor.
  - destruct (column_of f0) as [c0|] eqn:Hc; [|discriminate].
    destruct (resolve fields) as [cs0|]; [|discriminate].
    case_bool_decide as Hin; [discriminate|]. injection Hr as <-.
    destruct (IH cs0 eq_refl) as [Hn Hnd]. split.
    + constructor; [by split|exact Hn].
    + cbn. by apply NoDup_cons.
Qed.

Lemma names_In fields cs c v :
  names fields cs -> In (c, v) cs ->
  exists f, In (f, v) fields /\ column_of f = Some c.
Proof.
  induction 1 as [|[f0 v0] [c0 v0'] fields cs [Hc Hv] _ IH]; intros Hin; [destruct Hin|].
  cbn in *. subst v0'. destruct Hin as [[= <- <-]|Hin].
  - exists f0. split; [by left|done].
  - destruct (IH Hin) as (f & Hf & Hcf). exists f. split; [by right|done].
Qed.

(** A key that names a data column names no other column. *)
Lemma column_of_target f c : column_of f = Some c -> target_of f = Some (t_data c).
Proof.
  unfold target_of, column_of. cbn zeta.
  repeat (match goal with
          | |- context [String.eqb (fold_identifier f) ?s] =>
              destruct (String.eqb_spec (fold_identifier f) s) as [->|_]
          end; [cbn; (discriminate || by intros [= <-])|]).
  discriminate.
Qed.

Lemma names_set_list be fields cs :
  names fields cs -> set_list be fields = Ret (as_data <$> cs).
Proof.
  induction 1 as [|[f v] [c v'] fields cs [Hc Hv] _ IH]; [done|].
  cbn in *. subst v'. unfold assignment_of. rewrite (column_of_target f c Hc).
  cbn. by rewrite IH.
Qed.

Lemma data_keys_names fields :
  Forall (fun fv => is_Some (column_of (fst fv))) fields -> exists cs, names fields cs.
Proof.
  induction 1 as [|[f v] fields [c Hc] _ [cs IH]]; [exists []; constructor|].
  exists ((c, v) :: cs). constructor; [by split|exact IH].
Qed.

Lemma target_as_data cs : target <$> (as_data <$> cs) = t_data <$> cs.*1.
Proof. induction cs as [|[c v] cs IH]; [done|]. cbn. by rewrite IH. Qed.

Lemma NoDup_t_data (l : list Column) : NoDup (t_data <$> l) <-> NoDup l.
Proof.
  split; [apply NoDup_fmap_1|]. apply NoDup_fmap_2. by intros ? ? [= ->].
Qed.

Lemma assign_all_as_data cs t : assign_all (as_data <$> cs) t = assign cs t.
Proof.
  unfold assign_all, assign. revert t.
  induction cs as [|[c v] cs IH]; intros t; [done|]. cbn. apply IH.
Qed.

Lemma violates_as_data cs others : violates (as_data <$> cs) others = false.
Proof. unfold violates. induction cs as [|[c v] cs IH]; [done|]. cbn. exact IH. Qed.

(** The rows as [UPDATE ... WHERE ticket_id = tid] leaves them when it
    assigns data columns. *)
Definition updated_data (be : Backend) (tid : option string)
    (cs : list (Column * option string)) (t : Ticket) : Ticket :=
  if where_ticket_id tid t then touch (current_timestamp be) (assign cs t) else t.

(** The statement on a [SET] list of data columns: it is carried out when
    the server executes and no column is named twice. *)
Lemma update_rows_names be db tid fields cs :
  names fields cs ->
  update_rows be db tid fields
  = if executes be
    then if bool_decide (NoDup cs.*1)
         then Ret (map (updated_data be tid cs) db)
         else Raise "SyntaxError"
    else Raise "DatabaseError".
Proof.
  intros Hn. unfold update_rows. destruct (executes be); [|done]. cbn [negb].
  rewrite (names_set_list be _ _ Hn). cbn [bind].
  rewrite target_as_data, violates_as_data, andb_false_r.
  assert (Hd : bool_decide (NoDup (t_data <$> cs.*1)) = bool_decide (NoDup cs.*1)).
  { apply bool_decide_ext, NoDup_t_data. }
  rewrite Hd. destruct (bool_decide (NoDup cs.*1)); [|done]. cbn [negb].
  f_equal. apply map_ext. intros t. unfold updated_data.
  by rewrite assign_all_as_data.
Qed.

(** How a stored row may differ after an update of data columns: never in
    its identity, and in a column only by a value that was sent for it. *)
Definition updated_by (sent : list (string * option string)) (t t' : Ticket) : Prop :=
  same_identity t t'
  /\ forall c, column_value c t' = column_value c t
               \/ exists f, In (f, column_value c t') sent /\ column_of f = Some c.

Lemma updated_by_refl sent t : updated_by sent t t.
Proof. split; [repeat split|]. intros c. by left. Qed.

Lemma update_rows_frame be db tid fields db' :
  Forall (fun fv => is_Some (column_of (fst fv))) fields ->
  update_rows be db tid fields = Ret db' ->
  Forall2 (updated_by fields) db db'.
Proof.
  intros Hkeys. destruct (data_keys_names fields Hkeys) as [cs Hn].
  rewrite (update_rows_names be db tid fields cs Hn).
  destruct (executes be); [|discriminate].
  destruct (bool_decide (NoDup cs.*1)); [|discriminate].
  intros [= <-]. induction db as [|t db IH]; cbn; [constructor|].
  constructor; [|exact IH].
  unfold updated_data. destruct (where_ticket_id tid t); [|apply updated_by_refl].
  split.
  - destruct (same_identity_assign cs t) as (H1 & H2 & H3). repeat split; cbn; done.
  - intros c. destruct (column_value_assign cs t c) as [H|(v & Hin & H)].
    + left. destruct c; exact H.
    + right. destruct (names_In _ _ _ _ Hn Hin) as (f & Hf & Hc).
      assert (Hv : column_value c (touch (current_timestamp be) (assign cs t)) = v).
      { rewrite <- H. by destruct c. }
      exists f. rewrite Hv. by split.
Qed.

Lemma update_fields_In updates f v :
  In (f, v) (update_fields updates) -> In (f, v) updates /\ ignored_key f = false.
Proof.
  unfold update_fields. rewrite List.filter_In. cbn [fst].
  intros [H1 H2]. split; [done|]. by apply negb_true_iff in H2.
Qed.

(** When the keys sent are names of data columns, the store's update
    operation changes no identity field, and writes to a column only a
    value the caller sent under that column's name. *)
Lemma update_ticket_frame be db tid updates :
  Forall (fun fv => is_Some (column_of (fst fv))) updates ->
  Forall2 (updated_by updates) db (snd (update_ticket be db tid updates)).
Proof.
  intros Hkeys.
  assert (Hsame : Forall2 (updated_by updates) db db).
  { induction db; constructor; [apply updated_by_refl|done]. }
  assert (Hkeys' : Forall (fun fv => is_Some (column_of (fst fv))) (update_fields updates)).
  { apply List.Forall_forall. intros [f v] Hin. apply update_fields_In in Hin as [Hin _].
    by apply (proj1 (List.Forall_forall _ _) Hkeys (f, v)). }
  unfold update_ticket, update_ticket_body.
  destruct (_get_connection be); cbn; [exact Hsame|].
  destruct (update_fields updates) as [|fv fields] eqn:Hf; cbn; [exact Hsame|].
  destruct (update_rows be db tid (fv :: fields)) as [e|db'] eqn:Hu; cbn; [exact Hsame|].
  apply update_rows_frame in Hu; [|exact Hkeys'].
  eapply Forall2_impl; [exact Hu|].
  intros t t' [Hid Hcol]. split; [exact Hid|].
  intros c. destruct (Hcol c) as [H|(f & Hin & Hc)]; [by left|].
  right. exists f. split; [|done].
  rewrite <- Hf in Hin. by apply update_fields_In in Hin as [? _].
Qed.

Lemma update_fields_nil updates :
  Forall (fun fv => ignored_key (fst fv) = true) updates -> update_fields updates = [].
Proof.
  unfold update_fields. induction 1 as [|[f v] updates Hf _ IH]; cbn in *; [done|].
  by rewrite Hf.
Qed.

(** The key test of [update_ticket], spelled out. *)
Lemma ignored_key_spec f :
  ignored_key f = true <-> f = "ticket_id" \/ f = "thread_id" \/ f = "created_at".
Proof.
  unfold ignored_key. cbn. rewrite !orb_true_iff, !String.eqb_eq. intuition discriminate.
Qed.

(** A server that reads one text as a timestamp, midnight of 1 January
    2024, and no other. *)
Definition iso_timestamp (text : string) : option Z :=
  if String.eqb text "2024-01-01 00:00:00" then Some 1704067200%Z else None.

Definition unreachable_backend : Backend :=
  {| connects := false; executes := true; current_timestamp := 1704151800;
     timestamp_in := iso_timestamp |}.

Definition working_backend : Backend :=
  {| connects := true; executes := true; current_timestamp := 1704151800;
     timestamp_in := iso_timestamp |}.

Definition sample_ticket : Ticket :=
  {| ticket_id := "TCK-20240101-0A1B2C";
     thread_id := Some "thread_1";
     passenger_name := Some "John Doe";
     passenger_email := Some "john@example.com";
     passenger_phone := None;
     flight_number := Some "AA123";
     booking_reference := None;
     original_complaint := Some "Flight AA123 lost my luggage!";
     category := Some "BAGGAGE";
     priority := Some "HIGH";
     assigned_team := Some "Priority Support";
     status := Some "OPEN";
     created_at := Some 1704100000%Z;
     updated_at := 1704100000 |}.

(** C10, as stated, fails: with a field map that is empty the operation
    returns False when the connection to the server cannot be opened. *)
Lemma update_ticket_empty_map_unreachable :
  update_ticket unreachable_backend [sample_ticket] (Some "TCK-20240101-0A1B2C") []
  = (false, [sample_ticket]).
Proof. reflexivity. Qed.

(** C10, amended.  When every key of the field map is one of [ticket_id],
    [thread_id], [created_at] (an empty map included), the update operation
    writes nothing: the table is left as it was, no key is rejected, and
    the operation returns True exactly when the connection to the server
    opens. *)
Theorem update_ticket_ignored_keys_only be db tid updates :
  Forall (fun fv => fst fv = "ticket_id" \/ fst fv = "thread_id" \/ fst fv = "created_at")
         updates ->
  update_ticket be db tid updates = (connects be, db).
Proof.
  intros Hkeys.
  assert (Hnil : update_fields updates = []).
  { apply update_fields_nil. eapply Forall_impl; [exact Hkeys|].
    intros fv. apply ignored_key_spec. }
  unfold update_ticket, update_ticket_body, _get_connection.
  destruct (connects be); cbn; [rewrite Hnil; cbn|]; done.
Qed.

Lemma update_ticket_ignored_keys_only_witness :
  update_ticket working_backend [sample_ticket] (Some "TCK-20240101-0A1B2C")
    [("ticket_id", Some "TCK-X"); ("created_at", None)]
  = (true, [sample_ticket]).
Proof.
  apply (update_ticket_ignored_keys_only working_backend [sample_ticket]
           (Some "TCK-20240101-0A1B2C") [("ticket_id", Some "TCK-X"); ("created_at", None)]).
  constructor; [cbn; auto|].
  constructor; [cbn; auto|]. constructor.
Defined.

End Store.

(** ** The Execute stage of the graph (C9) *)

Section Execute.
Import Py Database GraphProcessor.

(** The fields Execute may send on the update path, with the value the
    state holds for each. *)
Definition updatable (state : ComplaintState) : list (string * option string) :=
  [ ("passenger_phone", passenger_info state ≫= phone);
    ("passenger_email", passenger_info state ≫= email);
    ("original_complaint", GraphProcessor.original_complaint state) ].

Lemma execute_updates_spec state :
  execute_updates state = List.filter (fun fv => truthy (snd fv)) (updatable state).
Proof.
  unfold execute_updates, updatable.
  destruct (passenger_info state) as [i|]; cbn.
  - destruct (truthy (phone i)), (truthy (email i)),
      (truthy (GraphProcessor.original_complaint state)); reflexivity.
  - destruct (truthy (GraphProcessor.original_complaint state)); reflexivity.
Qed.

Lemma execute_updates_In state f v :
  In (f, v) (execute_updates state) -> In (f, v) (updatable state) /\ truthy v = true.
Proof. rewrite execute_updates_spec, List.filter_In. done. Qed.


Definition sample_state : ComplaintState :=
  {| GraphProcessor.thread_id := Some "thread_1";
     passenger_info :=
       Some {| name := Some ""; email := Some "john.doe@example.com"; phone := Some "";
               GraphProcessor.flight_number := None;
               GraphProcessor.booking_reference := None |};
     GraphProcessor.original_complaint := None;
     GraphProcessor.category := None;
     GraphProcessor.priority := None;
     GraphProcessor.ticket_id := Some "TCK-20240101-0A1B2C";
     GraphProcessor.assigned_team := None;
     info_complete := false;
     missing_fields := [];
     ticket_exists := true;
     next_action := Some "execute";
     action_type := Some "execute";
     action_result := None |}.

(** A store failure on either path, as data. *)
Example execute_update_fails_as_data :
  action_result
    (fst (_execute_action unreachable_backend
            {| Runtime.utc_seconds := 1704151800; Runtime.utc_offset := 0 |} 0
            [sample_ticket] sample_state))
  = Some "update_failed".
Proof. reflexivity. Qed.

(** C9.  On the update path, for every state with an existing ticket:
    what is sent to the store's update operation is exactly the non-empty
    ones among phone, email and complaint text; and of every stored ticket
    the ticket id, the conversation id and the creation time stay as they
    were, and every column holds afterwards its old value or a non-empty
    value. *)
Theorem execute_update_frame be clock uuid db (state : ComplaintState) :
  ticket_exists state = true ->
  execute_updates state = List.filter (fun fv => truthy (snd fv)) (updatable state)
  /\ snd (_execute_action be clock uuid db state)
     = snd (update_ticket be db (GraphProcessor.ticket_id state) (execute_updates state))
  /\ Forall2 (fun t t' =>
                same_identity t t'
                /\ forall c, column_value c t' = column_value c t
                             \/ truthy (column_value c t') = true)
             db (snd (_execute_action be clock uuid db state)).
Proof.
  intros Hex. split; [apply execute_updates_spec|].
  unfold _execute_action. rewrite Hex.
  destruct (update_ticket be db _ (execute_updates state)) as [ok db'] eqn:Hu.
  cbn [fst snd]. split; [reflexivity|].
  assert (Hkeys : Forall (fun fv => is_Some (column_of (fst fv))) (execute_updates state)).
  { apply List.Forall_forall. intros [f v] Hin.
    apply execute_updates_In in Hin as [Hin _]. unfold updatable in Hin. cbn in Hin.
    destruct Hin as [[= <- _]|[[= <- _]|[[= <- _]|[]]]]; by eexists. }
  pose proof (update_ticket_frame be db (GraphProcessor.ticket_id state)
                (execute_updates state) Hkeys) as Hf.
  rewrite Hu in Hf. cbn in Hf.
  eapply Forall2_impl; [exact Hf|].
  intros t t' [Hid Hcol]. split; [exact Hid|].
  intros c. destruct (Hcol c) as [H|(f & Hin & _)]; [by left|].
  right. by apply execute_updates_In in Hin as [_ ?].
Qed.

Lemma execute_update_frame_witness :
  execute_updates sample_state
  = List.filter (fun fv => truthy (snd fv)) (updatable sample_state)
  /\ snd (_execute_action working_backend
            {| Runtime.utc_seconds := 1704151800; Runtime.utc_offset := 0 |} 0
            [sample_ticket] sample_state)
     = snd (update_ticket working_backend [sample_ticket]
              (GraphProcessor.ticket_id sample_state) (execute_updates sample_state))
  /\ Forall2 (fun t t' =>
                same_identity t t'
                /\ forall c, column_value c t' = column_value c t
                             \/ truthy (column_value c t') = true)
             [sample_ticket]
             (snd (_execute_action working_backend
                     {| Runtime.utc_seconds := 1704151800; Runtime.utc_offset := 0 |} 0
                     [sample_ticket] sample_state)).
Proof.
  apply (execute_update_frame working_backend
           {| Runtime.utc_seconds := 1704151800; Runtime.utc_offset := 0 |} 0
           [sample_ticket] sample_state).
  reflexivity.
Defined.

(** On that input only the e-mail address is written: the empty name and
    phone of the state do not reach the stored ticket. *)
Example execute_update_writes_email_only :
  snd (_execute_action working_backend
         {| Runtime.utc_seconds := 1704151800; Runtime.utc_offset := 0 |} 0
         [sample_ticket] sample_state)
  = [ {| Database.ticket_id := "TCK-20240101-0A1B2C";
         Database.thread_id := Some "thread_1";
         Database.passenger_name := Some "John Doe";
         Database.passenger_email := Some "john.doe@example.com";
         Database.passenger_phone := None;
         Database.flight_number := Some "AA123";
         Database.booking_reference := None;
         Database.original_complaint := Some "Flight AA123 lost my luggage!";
         Database.category := Some "BAGGAGE";
         Database.priority := Some "HIGH";
         Database.assigned_team := Some "Priority Support";
         Database.status := Some "OPEN";
         Database.created_at := Some 1704100000%Z;
         Database.updated_at := 1704151800 |} ].
Proof. reflexivity. Qed.

End Execute.

(** ** Ticket identifiers (C8) *)

Section TicketId.
Import Py Runtime.

Fixpoint all_chars (P : ascii -> bool) (s : string) : bool :=
  match s with
  | EmptyString => true
  | String c r => P c && all_chars P r
  end.

Definition is_digit (c : ascii) : bool := in_range 48 57 (N_of_ascii c).

(** [0-9A-F] *)
Definition is_upper_hex (c : ascii) : bool :=
  in_range 48 57 (N_of_ascii c) || in_range 65 70 (N_of_ascii c).

(** The number a string of decimal digits denotes. *)
Definition decimal_value (s : string) : Z :=
  fold_left (fun acc c => (10 * acc + (Z.of_N (N_of_ascii c) - 48))%Z) (list_ascii_of_string s) 0%Z.

(** What the specification puts in the identifier: the date in UTC. *)
Definition utc_date_text (c : Clock) : string := strftime_Ymd (utc_seconds c).

Lemma app_cons c s1 s2 : String c s1 +:+ s2 = String c (s1 +:+ s2).
Proof. reflexivity. Qed.

Lemma all_chars_app P s1 s2 :
  all_chars P (s1 +:+ s2) = all_chars P s1 && all_chars P s2.
Proof.
  induction s1 as [|c s1 IH]; [done|].
  rewrite app_cons. cbn. by rewrite IH, andb_assoc.
Qed.

Lemma append_length s1 s2 : String.length (s1 +:+ s2) = String.length s1 + String.length s2.
Proof. induction s1 as [|c s1 IH]; [done|]. rewrite app_cons. cbn. by rewrite IH. Qed.

Lemma digit_is_digit n : is_digit (digit n) = true.
Proof.
  unfold digit. assert (H : (0 <= n mod 10 < 10)%Z) by (apply Z.mod_pos_bound; lia).
  replace (n mod 10)%Z with (Z.of_nat (Z.to_nat (n mod 10))) by lia.
  assert (Hn : Z.to_nat (n mod 10) < 10) by lia.
  generalize dependent (Z.to_nat (n mod 10)). intros m Hm.
  do 10 (destruct m as [|m]; [reflexivity|]). lia.
Qed.

Lemma zero_padded_length k n : String.length (zero_padded k n) = k.
Proof.
  revert n. induction k as [|k IH]; intros n; cbn; [done|].
  rewrite append_length, IH. cbn. lia.
Qed.

Lemma zero_padded_digits k n : all_chars is_digit (zero_padded k n) = true.
Proof.
  revert n. induction k as [|k IH]; intros n; cbn; [done|].
  by rewrite all_chars_app, IH; cbn; rewrite digit_is_digit.
Qed.

Lemma decimal_value_snoc s c :
  decimal_value (s +:+ String c "")
  = (10 * decimal_value s + (Z.of_N (N_of_ascii c) - 48))%Z.
Proof.
  unfold decimal_value.
  assert (H : list_ascii_of_string (s +:+ String c "")
              = (list_ascii_of_string s ++ [c])%list).
  { induction s as [|a s IH]; [done|]. rewrite app_cons. cbn. by rewrite IH. }
  by rewrite H, fold_left_app.
Qed.

Lemma digit_value n : (Z.of_N (N_of_ascii (digit n)) - 48 = n mod 10)%Z.
Proof.
  unfold digit. assert (H : (0 <= n mod 10 < 10)%Z) by (apply Z.mod_pos_bound; lia).
  rewrite N_ascii_embedding; lia.
Qed.

(** The padded digits denote the number they were made from. *)
Lemma zero_padded_value k n :
  (0 <= n < 10 ^ Z.of_nat k)%Z -> decimal_value (zero_padded k n) = n.
Proof.
  revert n. induction k as [|k IH]; intros n Hn.
  - cbn in *. unfold decimal_value. cbn. lia.
  - cbn [zero_padded]. rewrite decimal_value_snoc, digit_value.
    rewrite Nat2Z.inj_succ, Z.pow_succ_r in Hn by lia.
    rewrite IH.
    + pose proof (Z.div_mod n 10). lia.
    + split; [apply Z.div_pos; lia|]. apply Z.div_lt_upper_bound; lia.
Qed.

Lemma strftime_Ymd_shape seconds :
  String.length (strftime_Ymd seconds) = 8
  /\ all_chars is_digit (strftime_Ymd seconds) = true.
Proof.
  unfold strftime_Ymd. split.
  - by rewrite !append_length, !zero_padded_length.
  - by rewrite !all_chars_app, !zero_padded_digits.
Qed.

Lemma hex_digit_upper d :
  (d < 16)%N -> is_upper_hex (upper_char (hex_digit d)) = true.
Proof.
  intros Hd. replace d with (N.of_nat (N.to_nat d)) by lia.
  assert (Hn : N.to_nat d < 16) by lia.
  generalize dependent (N.to_nat d). intros n Hn.
  do 16 (destruct n as [|n]; [reflexivity|]). lia.
Qed.

Lemma hex_digits_length k u : String.length (hex_digits k u) = k.
Proof. induction k as [|k IH]; cbn; [done|]. by rewrite IH. Qed.

Lemma hex_digits_upper k u :
  all_chars (fun c => is_upper_hex (upper_char c)) (hex_digits k u) = true.
Proof.
  induction k as [|k IH]; [done|].
  cbn [hex_digits all_chars]. rewrite IH, andb_true_r.
  apply hex_digit_upper. apply N.mod_lt. lia.
Qed.

Lemma all_chars_upper P s :
  all_chars (fun c => P (upper_char c)) s = all_chars P (upper s).
Proof. induction s as [|c s IH]; cbn; [done|]. by rewrite IH. Qed.

Lemma upper_length s : String.length (upper s) = String.length s.
Proof. induction s as [|c s IH]; cbn; [done|]. by rewrite IH. Qed.

Lemma all_chars_prefix P n s :
  all_chars P s = true -> all_chars P (prefix n s) = true.
Proof.
  unfold prefix. revert s. induction n as [|n IH]; intros [|c s]; cbn; try done.
  rewrite !andb_true_iff. intros [Hc Hs]. split; [done|]. by apply IH.
Qed.

Lemma prefix_length n s : n <= String.length s -> String.length (prefix n s) = n.
Proof.
  unfold prefix. revert s. induction n as [|n IH]; intros [|c s]; cbn; try done; try lia.
  intros Hn. rewrite IH; lia.
Qed.

(** The random suffix: six characters, each of [0-9A-F]. *)
Lemma suffix_shape u :
  String.length (upper (prefix 6 (uuid_hex u))) = 6
  /\ all_chars is_upper_hex (upper (prefix 6 (uuid_hex u))) = true.
Proof.
  unfold uuid_hex. split.
  - rewrite upper_length, prefix_length; [done|]. rewrite hex_digits_length. lia.
  - rewrite <- all_chars_upper. apply all_chars_prefix, hex_digits_upper.
Qed.

(** The conversion of seconds to a calendar date, on known days. *)
Example date_of_epoch : date_of 0 = {| year := 1970; month := 1; day := 1 |}.
Proof. reflexivity. Qed.

Example date_of_leap_day : date_of 1709210000 = {| year := 2024; month := 2; day := 29 |}.
Proof. reflexivity. Qed.

Example date_of_century_end : date_of 4102444799 = {| year := 2099; month := 12; day := 31 |}.
Proof. reflexivity. Qed.

(** The inverse conversion, by the usual formula, to check the one in use. *)
Definition days_from_civil (d : Date) : Z :=
  (let y := if month d <=? 2 then year d - 1 else year d in
   let era := y / 400 in
   let yoe := y - era * 400 in
   let doy := (153 * (if month d <=? 2 then month d + 9 else month d - 3) + 2) / 5
              + day d - 1 in
   era * 146097 + (yoe * 365 + yoe / 4 - yoe / 100 + doy) - 719468)%Z.

Definition plausible_date (n : nat) : bool :=
  let d := civil_from_days (Z.of_nat n) in
  (days_from_civil d =? Z.of_nat n)%Z
  && (1 <=? month d)%Z && (month d <=? 12)%Z && (1 <=? day d)%Z && (day d <=? 31)%Z
  && (1970 <=? year d)%Z && (year d <=? 2100)%Z.

(** Every day of the leap year 2024 converts to a date of the calendar and
    back. *)
Example civil_from_days_2024 : forallb plausible_date (seq 19723 366) = true.
Proof. vm_compute. reflexivity. Qed.

(** Half past eleven in the evening of 1 January 2024 in UTC, on a host two
    hours east of Greenwich. *)
Definition late_evening : Clock := {| utc_seconds := 1704151800; utc_offset := 7200 |}.

Definition sample_uuid : N := 0x0a1b2c3d4e5f40718293a4b5c6d7e8f9.

Example new_ticket_id_late_evening :
  new_ticket_id late_evening sample_uuid = "TCK-20240102-0A1B2C"
  /\ utc_date_text late_evening = "20240101".
Proof. split; reflexivity. Qed.

(** C8, as stated, fails: on that host the identifier carries the local
    date, 2 January, and no suffix makes it the identifier of the UTC
    date. *)
Lemma ticket_id_date_is_not_utc :
  ~ exists suffix,
      new_ticket_id late_evening sample_uuid
      = "TCK-" +:+ utc_date_text late_evening +:+ "-" +:+ suffix.
Proof. intros [suffix H]. vm_compute in H. discriminate H. Qed.

(** C8, amended.  Every identifier made on the create path reads
    TCK-<date>-<suffix>: <date> is the eight decimal digits YYYYMMDD of the
    host's local date, as [datetime.now()] gives it, and <suffix> is the
    first six hexadecimal digits of a fresh [uuid4] in upper case, six
    characters of [0-9A-F]. *)
Theorem new_ticket_id_format (c : Clock) (u : N) :
  exists date suffix,
    new_ticket_id c u = "TCK-" +:+ date +:+ "-" +:+ suffix
    /\ date = strftime_Ymd (datetime_now c)
    /\ date = zero_padded 4 (year (date_of (datetime_now c)))
              +:+ zero_padded 2 (month (date_of (datetime_now c)))
              +:+ zero_padded 2 (day (date_of (datetime_now c)))
    /\ String.length date = 8 /\ all_chars is_digit date = true
    /\ suffix = upper (prefix 6 (uuid_hex u))
    /\ String.length suffix = 6 /\ all_chars is_upper_hex suffix = true.
Proof.
  exists (strftime_Ymd (datetime_now c)), (upper (prefix 6 (uuid_hex u))).
  destruct (strftime_Ymd_shape (datetime_now c)) as [Hl Hd].
  destruct (suffix_shape u) as [Hsl Hsd].
  repeat split; done.
Qed.

End TicketId.

(** ** The fast-path gate and the failure of the model (C3, C6) *)

Section FastPath.
Import Py Database TrustCall.

(** Rule 1 of the gate: the normalized message is a trivial
    acknowledgment. *)
Definition is_trivial (message : string) : bool :=
  bool_decide (strip (lower message) ∈ trivial_messages).

(** Rule 2 of the gate: the message repeats the preceding user turn. *)
Definition is_duplicate (history : list Turn) (message : string) : bool :=
  match last_user_msg history with
  | Some last => bool_of_str last && String.eqb last (strip (lower message))
  | None => false
  end.

Definition user_turn (s : string) : Turn := {| role := "user"; content := s |}.
Definition assistant_turn (s : string) : Turn := {| role := "assistant"; content := s |}.

(** A model that is down. *)
Definition failing_env : Env :=
  {| backend := working_backend;
     backend_at_write := working_backend;
     clock := late_evening;
     uuid := sample_uuid;
     llm := fun _ => Raise "TimeoutError" |}.

(** Eleven exchanges about the ticket of [sample_ticket]. *)
Definition eleven_exchanges : list Turn :=
  concat (replicate 11 [user_turn "Any news about my luggage?";
                        assistant_turn "Your ticket is being processed."]).

(** [process_message] never raises: it always returns a result. *)
Lemma process_message_returns env db message thread history :
  exists r, outcome (process_message env db message thread history) = Ret r.
Proof. unfold process_message. repeat case_match; cbn; eauto. Qed.

(** Rule 1, on any table. *)
Lemma trivial_fast_path env db message thread history :
  is_trivial message = true ->
  port_calls (process_message env db message thread history) = []
  /\ store (process_message env db message thread history) = db
  /\ exists r,
      outcome (process_message env db message thread history) = Ret r
      /\ match get_ticket_by_thread (backend env) db thread with
         | Some t => status r = "acknowledged" /\ ticket_id r = Some (Database.ticket_id t)
         | None => status r = "awaiting_complaint" /\ ticket_id r = None
         end.
Proof.
  unfold is_trivial, process_message. intros ->.
  destruct (get_ticket_by_thread _ _ _); cbn; eauto 10.
Qed.

(** C3.  Whenever a run of [process_message] calls the model and that
    call raises, the run still returns: its result is the generic apology,
    with status "error", and the ticket table is what it was before. *)
Theorem port_failure_is_an_apology env db message thread history p e :
  In p (port_calls (process_message env db message thread history)) ->
  llm env p = Raise e ->
  outcome (process_message env db message thread history) = Ret apology
  /\ status apology = "error"
  /\ store (process_message env db message thread history) = db.
Proof.
  unfold process_message.
  destruct (bool_decide _).
  { destruct (get_ticket_by_thread _ _ _); cbn; intros []. }
  destruct (match last_user_msg history with Some _ => _ | None => _ end).
  { cbn; intros []. }
  destruct (match get_ticket_by_thread _ _ _ with Some _ => _ | None => _ end) as [t|].
  { cbn; intros []. }
  unfold analyse_and_act.
  destruct (llm env (build_prompt _ _ _)) as [e'|analysis] eqn:Hllm.
  - cbn. intros _ _. done.
  - destruct (action analysis) as [a|a|a|a];
      [destruct (_create_ticket _ _ _ _)|destruct (_update_ticket _ _ _ _)| |];
      cbn; (intros [<-|[]]; congruence).
Qed.

Lemma port_failure_is_an_apology_witness :
  outcome (process_message failing_env [sample_ticket]
             "My suitcase never arrived in Lisbon" "thread_1" [])
  = Ret apology
  /\ status apology = "error"
  /\ store (process_message failing_env [sample_ticket]
              "My suitcase never arrived in Lisbon" "thread_1" [])
     = [sample_ticket].
Proof.
  apply (port_failure_is_an_apology failing_env [sample_ticket]
           "My suitcase never arrived in Lisbon" "thread_1" []
           (build_prompt (Some sample_ticket) [] "My suitcase never arrived in Lisbon")
           "TimeoutError").
  - vm_compute. left. reflexivity.
  - reflexivity.
Defined.

(** C6, as stated, fails: with an open ticket and eleven earlier user
    turns, the message "ok" is answered by rule 1 with status
    "acknowledged", not "ticket_exists". *)
Lemma threshold_gate_after_trivial_rule :
  get_ticket_by_thread (backend failing_env) [sample_ticket] "thread_1" = Some sample_ticket
  /\ Database.status sample_ticket = Some "OPEN"
  /\ message_count eleven_exchanges = 11
  /\ exists r,
      outcome (process_message failing_env [sample_ticket] "ok" "thread_1" eleven_exchanges)
      = Ret r
      /\ status r = "acknowledged" /\ status r <> "ticket_exists".
Proof.
  split; [reflexivity|]. split; [reflexivity|]. split; [reflexivity|].
  eexists. split; [vm_compute; reflexivity|]. split; [reflexivity|discriminate].
Qed.

(** C6, amended.  With an open ticket found for the conversation and more
    than ten user turns in the history handed in, every message is answered
    by the gate, without a call of the model and without a store write.
    The status is "ticket_exists", with the ticket id, unless an earlier
    rule answers first: "acknowledged", with the ticket id, for a trivial
    acknowledgment, and "duplicate_message" for a repetition of the
    preceding user turn. *)
Theorem threshold_gate env db message thread history t :
  get_ticket_by_thread (backend env) db thread = Some t ->
  Database.status t = Some "OPEN" ->
  10 < message_count history ->
  port_calls (process_message env db message thread history) = []
  /\ store (process_message env db message thread history) = db
  /\ exists r,
      outcome (process_message env db message thread history) = Ret r
      /\ if is_trivial message
         then status r = "acknowledged" /\ ticket_id r = Some (Database.ticket_id t)
         else if is_duplicate history message
              then status r = "duplicate_message"
              else status r = "ticket_exists"
                   /\ ticket_id r = Some (Database.ticket_id t).
Proof.
  intros Hget Hopen Hcount.
  unfold process_message, is_trivial, is_duplicate. rewrite Hget.
  destruct (bool_decide (strip (lower message) ∈ trivial_messages)); [cbn; eauto 10|].
  destruct (match last_user_msg history with Some _ => _ | None => _ end);
    [cbn; eauto 10|].
  rewrite bool_decide_eq_true_2 by exact Hopen.
  assert (Nat.ltb 10 (message_count history) = true) as -> by (apply Nat.ltb_lt; lia).
  cbn. eauto 10.
Qed.

Lemma threshold_gate_witness :
  port_calls (process_message failing_env [sample_ticket]
                "Is there a compensation form?" "thread_1" eleven_exchanges) = []
  /\ store (process_message failing_env [sample_ticket]
              "Is there a compensation form?" "thread_1" eleven_exchanges)
     = [sample_ticket]
  /\ exists r,
      outcome (process_message failing_env [sample_ticket]
                 "Is there a compensation form?" "thread_1" eleven_exchanges) = Ret r
      /\ if is_trivial "Is there a compensation form?"
         then status r = "acknowledged"
              /\ ticket_id r = Some (Database.ticket_id sample_ticket)
         else if is_duplicate eleven_exchanges "Is there a compensation form?"
              then status r = "duplicate_message"
              else status r = "ticket_exists"
                   /\ ticket_id r = Some (Database.ticket_id sample_ticket).
Proof.
  apply (threshold_gate failing_env [sample_ticket] "Is there a compensation form?"
           "thread_1" eleven_exchanges sample_ticket).
  - reflexivity.
  - reflexivity.
  - vm_compute. lia.
Defined.

(** The twelfth message after eleven user turns, when no earlier rule
    applies. *)
Example twelfth_message_short_circuits :
  outcome (process_message failing_env [sample_ticket]
             "Is there a compensation form?" "thread_1" eleven_exchanges)
  = Ret {| response := "Your ticket TCK-20240101-0A1B2C is already being processed. For urgent updates, please call our support line directly.";
           status := "ticket_exists";
           ticket_id := Some "TCK-20240101-0A1B2C";
           missing_fields := None |}.
Proof. vm_compute. reflexivity. Qed.

End FastPath.

(** ** Conversation memory (C7) and the trivial acknowledgments (C4) *)

Section Memory.
Import Py TrustCall Api.

(** The history the endpoint reads for a conversation:
    [conversation_store.get(thread_id, [])]. *)
Definition history_of (srv : Server) (thread : string) : list Turn :=
  default [] (conversation_store srv !! thread).

(** The two turns one answered request adds to its conversation. *)
Definition exchange (c : Call) (r : ComplaintResponse) : list Turn :=
  [user_turn (message (request c)); assistant_turn (response r)].

(** Every turn the requests [calls] add to the conversation [thread],
    oldest first. *)
Fixpoint transcript (srv : Server) (calls : list Call) (thread : string) : list Turn :=
  match calls with
  | [] => []
  | c :: rest =>
      (match fst (process_complaint srv c) with
       | Ret r => if String.eqb (thread_of c) thread then exchange c r else []
       | Raise _ => []
       end ++ transcript (snd (process_complaint srv c)) rest thread)%list
  end.

(** The process right after start-up, on an empty ticket table. *)
Definition fresh : Server := {| db := []; conversation_store := ∅ |}.

Lemma slice_last_length {A} n (l : list A) : length (slice_last n l) = min n (length l).
Proof. unfold slice_last. rewrite length_drop. lia. Qed.

Lemma slice_last_all {A} n (l : list A) : length l <= n -> slice_last n l = l.
Proof. unfold slice_last. intros H. by replace (length l - n) with 0 by lia. Qed.

(** Truncating early does not change what a later truncation keeps. *)
Lemma slice_last_app {A} n (l l' : list A) :
  slice_last n (slice_last n l ++ l') = slice_last n (l ++ l').
Proof.
  destruct (decide (length l <= n)) as [Hle|Hgt].
  - by rewrite (slice_last_all n l).
  - unfold slice_last. rewrite !length_app, length_drop.
    replace (length l - (length l - n) + length l' - n) with (length l') by lia.
    replace (length l + length l' - n) with ((length l - n) + length l') by lia.
    rewrite <- drop_drop. f_equal. rewrite drop_app_le by lia. done.
Qed.

(** One request: the user turn, then the assistant turn, then the cut to
    the last twenty. *)
Lemma process_complaint_appends srv c r srv' :
  process_complaint srv c = (Ret r, srv') ->
  conversation_store srv'
  = <[ thread_of c := slice_last 20 (history_of srv (thread_of c) ++ exchange c r) ]>
      (conversation_store srv).
Proof.
  unfold process_complaint, history_of, exchange.
  destruct (outcome _) as [e|res]; [discriminate|].
  intros [= <- <-]. cbn. by rewrite <- app_assoc.
Qed.

Lemma process_complaint_history srv c thread :
  length (history_of srv thread) <= 20 ->
  history_of (snd (process_complaint srv c)) thread
  = slice_last 20
      (history_of srv thread
       ++ match fst (process_complaint srv c) with
          | Ret r => if String.eqb (thread_of c) thread then exchange c r else []
          | Raise _ => []
          end).
Proof.
  intros Hlen.
  destruct (process_complaint srv c) as [[e|r] srv'] eqn:Hp; cbn [fst snd].
  - rewrite app_nil_r, slice_last_all by done.
    unfold process_complaint in Hp. destruct (outcome _); [|discriminate].
    by injection Hp as _ <-.
  - apply process_complaint_appends in Hp. unfold history_of at 1. rewrite Hp.
    destruct (String.eqb_spec (thread_of c) thread) as [->|Hne].
    + by rewrite lookup_insert_eq.
    + rewrite lookup_insert_ne by done.
      rewrite app_nil_r, slice_last_all by done. done.
Qed.

Lemma serve_history calls : forall srv thread,
  length (history_of srv thread) <= 20 ->
  history_of (serve srv calls) thread
  = slice_last 20 (history_of srv thread ++ transcript srv calls thread).
Proof.
  induction calls as [|c rest IH]; intros srv thread Hlen.
  - cbn. by rewrite app_nil_r, slice_last_all.
  - cbn [serve fold_left transcript]. fold (serve (snd (process_complaint srv c)) rest).
    pose proof (process_complaint_history srv c thread Hlen) as Hstep.
    rewrite IH.
    + rewrite Hstep, slice_last_app. by rewrite <- app_assoc.
    + rewrite Hstep, slice_last_length. lia.
Qed.


(** Thirteen requests on one conversation add twenty-six turns. *)
Definition thirteen_calls : list Call :=
  map (fun k => {| env := failing_env;
                    thread_uuid := 0;
                    request := {| message := "Message " +:+ String (ascii_of_nat (65 + k)) "";
                                  thread_id := Some "thread_7" |} |})
      (seq 0 13).

Example history_after_thirteen_requests :
  length (transcript fresh thirteen_calls "thread_7") = 26
  /\ length (history_of (serve fresh thirteen_calls) "thread_7") = 20
  /\ head (history_of (serve fresh thirteen_calls) "thread_7")
     = Some (user_turn "Message D")
  /\ history_of (serve fresh thirteen_calls) "thread_7"
     = drop 6 (transcript fresh thirteen_calls "thread_7").
Proof. vm_compute. repeat split. Qed.

End Memory.

Section Gate.
Import Py TrustCall Api.

Lemma get_ticket_by_thread_found be db thread t :
  Database.get_ticket_by_thread be db thread = Some t ->
  In t db /\ Database.thread_id t = Some thread.
Proof.
  unfold Database.get_ticket_by_thread, Database._get_connection.
  destruct (Database.connects be); cbn; [|discriminate].
  destruct (Database.executes be); cbn; [|discriminate].
  intros Hf. apply find_some in Hf as [Hin Hsame]. split; [done|].
  unfold Database.same_thread in Hsame.
  destruct (Database.thread_id t) as [th|]; [|discriminate].
  by apply String.eqb_eq in Hsame as ->.
Qed.

(** C4, as stated, fails: with no history and the message "OK", a
    conversation that has a ticket in the table is answered "acknowledged",
    not "awaiting_complaint". *)
Lemma ok_without_history_with_a_ticket :
  Database.get_ticket_by_thread (backend failing_env) [sample_ticket] "thread_1"
  = Some sample_ticket
  /\ exists r,
      outcome (process_message failing_env [sample_ticket] "OK" "thread_1" []) = Ret r
      /\ TrustCall.status r = "acknowledged"
      /\ TrustCall.status r <> "awaiting_complaint".
Proof.
  split; [reflexivity|].
  eexists. split; [vm_compute; reflexivity|]. split; [reflexivity|discriminate].
Qed.

(** C4, amended.  A message whose trimmed, lower-cased text is one of the
    trivial acknowledgments is answered by the gate, with no call of the
    model and no store write: with status "acknowledged" and the ticket's
    id when a ticket is found for the conversation, and with status
    "awaiting_complaint" otherwise.  In particular, with no history and the
    message "OK" the model is never called, and the status is
    "awaiting_complaint" when no ticket is found for the conversation. *)
Theorem trivial_message_fast_path :
  (forall env db message thread history,
      strip (lower message) ∈ trivial_messages ->
      port_calls (process_message env db message thread history) = []
      /\ store (process_message env db message thread history) = db
      /\ exists r,
          outcome (process_message env db message thread history) = Ret r
          /\ match Database.get_ticket_by_thread (backend env) db thread with
             | Some t =>
                 TrustCall.status r = "acknowledged"
                 /\ TrustCall.ticket_id r = Some (Database.ticket_id t)
             | None =>
                 TrustCall.status r = "awaiting_complaint"
                 /\ TrustCall.ticket_id r = None
             end)
  /\ (forall env db thread,
         port_calls (process_message env db "OK" thread []) = []
         /\ (Database.get_ticket_by_thread (backend env) db thread = None ->
             exists r,
               outcome (process_message env db "OK" thread []) = Ret r
               /\ TrustCall.status r = "awaiting_complaint")).
Proof.
  split.
  - intros env db message thread history Htriv.
    apply trivial_fast_path. unfold is_trivial. by apply bool_decide_eq_true_2.
  - intros env db thread.
    destruct (trivial_fast_path env db "OK" thread [] eq_refl)
      as (Hcalls & _ & r & Hr & Hcase).
    split; [exact Hcalls|]. intros Hget. rewrite Hget in Hcase.
    exists r. split; [exact Hr|]. by destruct Hcase.
Qed.

Lemma trivial_message_fast_path_witness :
  (port_calls (process_message failing_env [sample_ticket] "  Thanks " "thread_1"
                 eleven_exchanges) = []
   /\ store (process_message failing_env [sample_ticket] "  Thanks " "thread_1"
               eleven_exchanges) = [sample_ticket]
   /\ exists r,
       outcome (process_message failing_env [sample_ticket] "  Thanks " "thread_1"
                  eleven_exchanges) = Ret r
       /\ match Database.get_ticket_by_thread (backend failing_env) [sample_ticket]
                  "thread_1" with
          | Some t =>
              TrustCall.status r = "acknowledged"
              /\ TrustCall.ticket_id r = Some (Database.ticket_id t)
          | None =>
              TrustCall.status r = "awaiting_complaint"
              /\ TrustCall.ticket_id r = None
          end)
  /\ exists r,
      outcome (process_message failing_env [sample_ticket] "OK" "thread_8" []) = Ret r
      /\ TrustCall.status r = "awaiting_complaint".
Proof.
  split.
  - apply (proj1 trivial_message_fast_path failing_env [sample_ticket] "  Thanks "
             "thread_1" eleven_exchanges).
    vm_compute. reflexivity.
  - apply (proj2 trivial_message_fast_path failing_env [sample_ticket] "thread_8").
    reflexivity.
Defined.

(** The test of the specification: no history, the message "OK". *)
Example ok_on_a_fresh_conversation :
  process_message failing_env [] "OK" "thread_1" []
  = {| outcome := Ret {| TrustCall.response :=
                           "How can I help you with your flight complaint today?";
                         TrustCall.status := "awaiting_complaint";
                         TrustCall.ticket_id := None;
                         TrustCall.missing_fields := None |};
       store := [];
       port_calls := [] |}.
Proof. vm_compute. reflexivity. Qed.

End Gate.

(** ** The threshold rule behind the endpoint *)

Section Reach.
Import Py TrustCall Api.

(** Exchanges as pairs of a user message and the reply to it. *)
Definition turns_of (ps : list (string * string)) : list Turn :=
  flat_map (fun p => [user_turn (fst p); assistant_turn (snd p)]) ps.

Lemma turns_of_app ps qs : turns_of (ps ++ qs) = (turns_of ps ++ turns_of qs)%list.
Proof. unfold turns_of. apply flat_map_app. Qed.

Lemma turns_of_length ps : length (turns_of ps) = 2 * length ps.
Proof.
  induction ps as [|p ps IH]; [done|].
  change (turns_of (p :: ps))
    with (user_turn (fst p) :: assistant_turn (snd p) :: turns_of ps).
  cbn [length]. lia.
Qed.

Lemma turns_of_message_count ps : message_count (turns_of ps) = length ps.
Proof.
  unfold message_count. induction ps as [|p ps IH]; [done|].
  change (turns_of (p :: ps))
    with (user_turn (fst p) :: assistant_turn (snd p) :: turns_of ps).
  cbn [List.filter].
  change (is_user (user_turn (fst p))) with true.
  change (is_user (assistant_turn (snd p))) with false.
  cbn [length]. by rewrite IH.
Qed.

Lemma turns_of_drop k ps : drop (2 * k) (turns_of ps) = turns_of (drop k ps).
Proof.
  revert ps. induction k as [|k IH]; intros ps; [done|].
  destruct ps as [|p ps]; [done|].
  replace (2 * S k) with (S (S (2 * k))) by lia.
  change (turns_of (p :: ps))
    with (user_turn (fst p) :: assistant_turn (snd p) :: turns_of ps).
  cbn [drop]. apply IH.
Qed.

Lemma transcript_turns_of calls : forall srv thread,
  exists ps, transcript srv calls thread = turns_of ps.
Proof.
  induction calls as [|c rest IH]; intros srv thread; [by exists []|].
  destruct (IH (snd (process_complaint srv c)) thread) as [ps Hps].
  cbn [transcript]. rewrite Hps.
  destruct (fst (process_complaint srv c)) as [e|r]; [by exists ps|].
  destruct (String.eqb _ _); [|by exists ps].
  exists ((message (request c), response r) :: ps). reflexivity.
Qed.

(** The memory holds whole exchanges, ten at most: behind the endpoint the
    history handed to [process_message] never has more than ten user
    turns, so the threshold rule of the gate, which asks for more than ten,
    does not apply there. *)
Remark endpoint_history_user_turns (tickets : list Database.Ticket)
    (calls : list Call) (thread : string) :
  let start := {| db := tickets; conversation_store := ∅ |} in
  message_count (history_of (serve start calls) thread) <= 10
  /\ Nat.ltb 10 (message_count (history_of (serve start calls) thread)) = false.
Proof.
  intros start.
  assert (H : message_count (history_of (serve start calls) thread) <= 10).
  { rewrite serve_history by (unfold history_of, start; cbn; rewrite lookup_empty; cbn; lia).
    replace (history_of start thread) with (@nil Turn)
      by (unfold history_of, start; cbn; by rewrite lookup_empty).
    cbn [app]. destruct (transcript_turns_of calls start thread) as [ps ->].
    unfold slice_last. rewrite turns_of_length.
    replace (2 * length ps - 20) with (2 * (length ps - 10)) by lia.
    rewrite turns_of_drop, turns_of_message_count, length_drop. lia. }
  split; [exact H|]. apply Nat.ltb_ge. lia.
Qed.

End Reach.

(** ** Scenarios on the TrustCall processor and the endpoint *)

Section Scenarios.
Import Py TrustCall Api.

Definition john : PassengerInfoSchema :=
  {| name := Some "John Doe"; email := Some "john@example.com"; phone := None;
     flight_number := Some "AA123"; booking_reference := None |}.

(** A model that asks for a ticket to be created. *)
Definition creating_env (be : Database.Backend) : Env :=
  {| backend := working_backend;
     backend_at_write := be;
     clock := late_evening;
     uuid := sample_uuid;
     llm := fun _ =>
       Ret {| situation_summary := "Lost luggage on AA123";
              has_complaint := true;
              is_trivial_response := false;
              extracted_info := john;
              action := create_ticket
                          {| ca_passenger_info := john;
                             ca_complaint := "Flight AA123 lost my luggage!";
                             ca_priority := Models.HIGH;
                             ca_category := Models.BAGGAGE |} |} |}.

(** A model that asks for the phone number to be added to a ticket. *)
Definition updating_env (be : Database.Backend) : Env :=
  {| backend := working_backend;
     backend_at_write := be;
     clock := late_evening;
     uuid := sample_uuid;
     llm := fun _ =>
       Ret {| situation_summary := "Passenger adds a phone number";
              has_complaint := true;
              is_trivial_response := false;
              extracted_info := john;
              action := update_ticket
                          {| ua_ticket_id := "TCK-20240101-0A1B2C";
                             ua_passenger_phone := Some "+1 555 0100";
                             ua_passenger_email := None;
                             ua_flight_number := None;
                             ua_complaint_update := None;
                             ua_corrections := None |} |} |}.

(** One complete message creates one ticket. *)
Example single_turn_ticket_creation :
  let run := process_message (creating_env working_backend) []
               "I am John Doe, john@example.com. Flight AA123 lost my luggage!"
               "test_001" [] in
  (TrustCall.status <$> match outcome run with Ret r => Some r | Raise _ => None end)
    = Some "ticket_created"
  /\ (TrustCall.ticket_id <$> match outcome run with Ret r => Some r | Raise _ => None end)
     = Some (Some "TCK-20240102-0A1B2C")
  /\ (Database.ticket_id <$> store run) = ["TCK-20240102-0A1B2C"]
  /\ (Database.thread_id <$> store run) = [Some "test_001"]
  /\ length (port_calls run) = 1.
Proof. vm_compute. repeat split. Qed.

(** A second ticket for the same conversation is refused by the table's
    uniqueness constraint; this processor reports it as "error". *)
Example second_ticket_for_a_conversation :
  let first := process_message (creating_env working_backend) []
                 "I am John Doe, john@example.com. Flight AA123 lost my luggage!"
                 "test_001" [] in
  let second := process_message (creating_env working_backend) (store first)
                  "My luggage is still missing, please open a case"
                  "test_001" [] in
  (TrustCall.status <$> match outcome second with Ret r => Some r | Raise _ => None end)
    = Some "error"
  /\ store second = store first.
Proof. vm_compute. repeat split. Qed.

(** On this processor a failed write is reported otherwise than by the
    Execute stage: a failed create as "error", and a failed update not at
    all, the status being "ticket_updated" while the table is what it was. *)
Example trustcall_create_failure_is_an_error :
  let run := process_message (creating_env unreachable_backend) []
               "I am John Doe, john@example.com. Flight AA123 lost my luggage!"
               "test_001" [] in
  store run = []
  /\ (TrustCall.status <$> match outcome run with Ret r => Some r | Raise _ => None end)
     = Some "error".
Proof. vm_compute. repeat split. Qed.

Example trustcall_update_failure_is_not_reported :
  let run := process_message (updating_env unreachable_backend) [sample_ticket]
               "You can reach me at +1 555 0100" "thread_1" [] in
  store run = [sample_ticket]
  /\ (TrustCall.status <$> match outcome run with Ret r => Some r | Raise _ => None end)
     = Some "ticket_updated".
Proof. vm_compute. repeat split. Qed.

Example trustcall_update :
  let run := process_message (updating_env working_backend) [sample_ticket]
               "You can reach me at +1 555 0100" "thread_1" [] in
  (Database.passenger_phone <$> store run) = [Some "+1 555 0100"]
  /\ (Database.updated_at <$> store run) = [1704151800%Z]
  /\ (TrustCall.status <$> match outcome run with Ret r => Some r | Raise _ => None end)
     = Some "ticket_updated".
Proof. vm_compute. repeat split. Qed.

End Scenarios.

(** ** The outcome of a store write, as both processors report it (C5) *)

Section ExecuteTags.
Import Py Database.






End ExecuteTags.

(** * Further code and its properties *)

(** ** The other queries of [src/src/database.py] *)

Module DatabaseQueries.
Import Py Database.

Definition has_id (tid : string) (t : Ticket) : bool := String.eqb (ticket_id t) tid.

(** [SELECT * FROM tickets WHERE ticket_id = %s] and [fetchone]. *)
Definition get_ticket_by_id (be : Backend) (db : list Ticket) (tid : string)
  : option Ticket :=
  try_except
    (_ <- _get_connection be ;;
     if executes be then Ret (List.find (has_id tid) db)
     else Raise "DatabaseError")
    (fun _ => None).

(** The order of a timestamp column: [NULL] sorts as the largest value,
    so that it comes first in a descending order. *)
Definition earlier (a b : option Z) : bool :=
  match a, b with
  | Some x, Some y => (x <? y)%Z
  | Some _, None => true
  | None, _ => false
  end.

(** [ORDER BY created_at DESC]: insertion of a row into rows that are
    already in that order.  Among rows of one timestamp the server is free;
    here the row inserted later comes later. *)
Fixpoint insert_desc (t : Ticket) (sorted : list Ticket) : list Ticket :=
  match sorted with
  | [] => [t]
  | u :: rest =>
      if earlier (created_at u) (created_at t) then t :: sorted
      else u :: insert_desc t rest
  end.

Definition order_by_created_at_desc (rows : list Ticket) : list Ticket :=
  fold_left (fun sorted t => insert_desc t sorted) rows [].

(** [SELECT * FROM tickets ORDER BY created_at DESC] and [fetchall]. *)
Definition get_all_tickets (be : Backend) (db : list Ticket) : list Ticket :=
  try_except
    (_ <- _get_connection be ;;
     if executes be then Ret (order_by_created_at_desc db)
     else Raise "DatabaseError")
    (fun _ => []).

(** [SELECT COUNT( * )], then [DELETE FROM tickets], in one transaction:
    when either statement raises nothing is deleted and 0 is returned. *)
Definition clear_all_tickets (be : Backend) (db : list Ticket) : nat * list Ticket :=
  try_except
    (_ <- _get_connection be ;;
     if executes be then Ret (length db, [])
     else Raise "DatabaseError")
    (fun _ => (0, db)).

End DatabaseQueries.

(** ** Properties of the ticket store *)

Section StoreMore.
Import Py Database DatabaseQueries.

(** The row that [create_ticket] writes for a [ticket_data] dict. *)
Definition row_of (be : Backend) (d : TicketData) : Ticket :=
  {| ticket_id := td_ticket_id d;
     thread_id := td_thread_id d;
     passenger_name := td_passenger_name d;
     passenger_email := td_passenger_email d;
     passenger_phone := td_passenger_phone d;
     flight_number := td_flight_number d;
     booking_reference := td_booking_reference d;
     original_complaint := td_original_complaint d;
     category := td_category d;
     priority := td_priority d;
     assigned_team := td_assigned_team d;
     status := td_status d;
     created_at := Some (current_timestamp be);
     updated_at := current_timestamp be |}.

(** The two uniqueness constraints of the table. *)
Definition keys_unique (db : list Ticket) : Prop :=
  NoDup (map ticket_id db) /\ NoDup (omap thread_id db).

Definition thread_taken (d : TicketData) (db : list Ticket) : bool :=
  match td_thread_id d with
  | Some th => existsb (same_thread th) db
  | None => false
  end.

(** When [create_ticket] succeeds and when it does not. *)
Lemma create_ticket_cases be db d :
  (create_ticket be db d = (true, (db ++ [row_of be d])%list)
   /\ connects be = true /\ executes be = true
   /\ existsb (has_id (td_ticket_id d)) db = false
   /\ thread_taken d db = false)
  \/ (create_ticket be db d = (false, db)
      /\ (connects be = false \/ executes be = false
          \/ existsb (has_id (td_ticket_id d)) db = true
          \/ thread_taken d db = true)).
Proof.
  unfold create_ticket, create_ticket_body, _get_connection, insert_row, thread_taken.
  destruct (connects be); cbn; [|right; auto].
  destruct (executes be); cbn; [|right; auto].
  change (fun t : Ticket => String.eqb (ticket_id t) (td_ticket_id d))
    with (has_id (td_ticket_id d)).
  destruct (existsb (has_id (td_ticket_id d)) db); cbn; [right; auto 6|].
  destruct (match td_thread_id d with Some _ => _ | None => false end); cbn;
    [right; auto 6|].
  left. auto.
Qed.

Lemma find_none_existsb {A} (P : A -> bool) l : existsb P l = false -> List.find P l = None.
Proof.
  induction l as [|x l IH]; cbn; [done|].
  destruct (P x); cbn; [discriminate|exact IH].
Qed.

Lemma find_app_new {A} (P : A -> bool) l x :
  existsb P l = false -> P x = true -> List.find P (l ++ [x])%list = Some x.
Proof.
  induction l as [|y l IH]; cbn; intros Hl Hx.
  - by rewrite Hx.
  - destruct (P y); cbn in *; [discriminate|]. by apply IH.
Qed.

(** X1.  After a successful [create_ticket] the ticket is found by its id
    and, when it names a conversation, by that conversation; what is found
    is the row made from the data given, stamped with the server's time. *)
Theorem create_then_lookup be be' db d db' :
  create_ticket be db d = (true, db') ->
  connects be' = true -> executes be' = true ->
  get_ticket_by_id be' db' (td_ticket_id d) = Some (row_of be d)
  /\ (forall th, td_thread_id d = Some th ->
                 get_ticket_by_thread be' db' th = Some (row_of be d)).
Proof.
  intros Hc Hcon Hex.
  destruct (create_ticket_cases be db d) as [(H & _ & _ & Hid & Hth)|(H & _)];
    rewrite H in Hc; [|discriminate].
  injection Hc as <-.
  unfold get_ticket_by_id, get_ticket_by_thread, _get_connection.
  rewrite Hcon, Hex. cbn. split.
  - apply find_app_new; [exact Hid|]. unfold has_id. cbn. apply String.eqb_refl.
  - intros th Hd. unfold thread_taken in Hth. rewrite Hd in Hth.
    apply find_app_new; [exact Hth|]. unfold same_thread. cbn. rewrite Hd.
    apply String.eqb_refl.
Qed.

Definition john_data : TicketData :=
  {| td_ticket_id := "TCK-20240102-0A1B2C";
     td_thread_id := Some "thread_2";
     td_passenger_name := Some "Jane Roe";
     td_passenger_email := Some "jane@example.com";
     td_passenger_phone := None;
     td_flight_number := Some "BA789";
     td_booking_reference := None;
     td_original_complaint := Some "Flight BA789 was delayed";
     td_category := Some "DELAY";
     td_priority := Some "MEDIUM";
     td_assigned_team := Some "Customer Service";
     td_status := Some "OPEN" |}.

Lemma create_then_lookup_witness :
  get_ticket_by_id working_backend ([sample_ticket] ++ [row_of working_backend john_data])%list
    (td_ticket_id john_data) = Some (row_of working_backend john_data)
  /\ (forall th, td_thread_id john_data = Some th ->
                 get_ticket_by_thread working_backend
                   ([sample_ticket] ++ [row_of working_backend john_data])%list th
                 = Some (row_of working_backend john_data)).
Proof.
  apply (create_then_lookup working_backend working_backend [sample_ticket] john_data
           ([sample_ticket] ++ [row_of working_backend john_data])%list);
    reflexivity.
Defined.

(** X2.  A conversation has at most one ticket: [create_ticket] for a
    conversation that already has a ticket in the table, or with a ticket id
    that is in the table, returns False and leaves the table as it was. *)
Theorem create_ticket_refuses_second be db d t :
  In t db ->
  ticket_id t = td_ticket_id d
  \/ (exists th, thread_id t = Some th /\ td_thread_id d = Some th) ->
  create_ticket be db d = (false, db).
Proof.
  intros Hin Hclash.
  destruct (create_ticket_cases be db d) as [(_ & _ & _ & Hid & Hth)|(H & _)]; [|exact H].
  exfalso. destruct Hclash as [Heq|(th & Ht & Hd)].
  - assert (existsb (has_id (td_ticket_id d)) db = true); [|congruence].
    apply existsb_exists. exists t. split; [done|]. unfold has_id. rewrite Heq.
    apply String.eqb_refl.
  - unfold thread_taken in Hth. rewrite Hd in Hth.
    assert (existsb (same_thread th) db = true); [|congruence].
    apply existsb_exists. exists t. split; [done|]. unfold same_thread. rewrite Ht.
    apply String.eqb_refl.
Qed.

Lemma create_ticket_refuses_second_witness :
  create_ticket working_backend [sample_ticket]
    {| td_ticket_id := "TCK-20240102-FFFFFF";
       td_thread_id := Some "thread_1";
       td_passenger_name := None; td_passenger_email := None;
       td_passenger_phone := None; td_flight_number := None;
       td_booking_reference := None; td_original_complaint := Some "Again";
       td_category := None; td_priority := None; td_assigned_team := None;
       td_status := Some "OPEN" |}
  = (false, [sample_ticket]).
Proof.
  apply (create_ticket_refuses_second working_backend [sample_ticket] _ sample_ticket).
  - left. reflexivity.
  - right. exists "thread_1". split; reflexivity.
Defined.

Lemma existsb_has_id_false db i :
  existsb (has_id i) db = false -> ~ In i (map ticket_id db).
Proof.
  intros Hf Hin. apply in_map_iff in Hin as (t & <- & Ht).
  assert (existsb (has_id (ticket_id t)) db = true); [|congruence].
  apply existsb_exists. exists t. split; [done|]. apply String.eqb_refl.
Qed.

Lemma existsb_same_thread_false db th :
  existsb (same_thread th) db = false -> ~ In th (omap thread_id db).
Proof.
  intros Hf Hin. apply list_elem_of_In, list_elem_of_omap in Hin as (t & Ht & Hth).
  assert (existsb (same_thread th) db = true); [|congruence].
  apply existsb_exists. exists t. split; [by apply list_elem_of_In|].
  unfold same_thread. rewrite Hth. apply String.eqb_refl.
Qed.

Lemma omap_app_single db (t : Ticket) :
  omap thread_id (db ++ [t])%list
  = (omap thread_id db ++ match thread_id t with Some th => [th] | None => [] end)%list.
Proof. rewrite omap_app. cbn. by destruct (thread_id t). Qed.

Lemma NoDup_snoc {A} (l : list A) x : NoDup l -> ~ In x l -> NoDup (l ++ [x])%list.
Proof.
  intros Hl Hx. apply NoDup_app. split; [exact Hl|].
  split; [|apply NoDup_singleton].
  intros y Hy Hy'. apply list_elem_of_singleton in Hy' as ->.
  by apply Hx, list_elem_of_In.
Qed.

Lemma create_ticket_keys_unique be db d :
  keys_unique db -> keys_unique (snd (create_ticket be db d)).
Proof.
  intros [Hid Hth].
  destruct (create_ticket_cases be db d) as [(H & _ & _ & Hfid & Hfth)|(H & _)];
    rewrite H; cbn [snd]; [|by split].
  split.
  - rewrite map_app. cbn. apply NoDup_snoc; [exact Hid|].
    by apply existsb_has_id_false.
  - rewrite omap_app_single. cbn. unfold thread_taken in Hfth.
    destruct (td_thread_id d) as [th|]; [|by rewrite app_nil_r].
    apply NoDup_snoc; [exact Hth|]. by apply existsb_same_thread_false.
Qed.

(** What the statement leaves when it is carried out: the rows it
    matches are rewritten by one list of assignments, which the constraints
    accept next to the other rows. *)
Lemma update_rows_shape be db tid fields db' :
  update_rows be db tid fields = Ret db' ->
  exists l,
    db' = map (fun t => if where_ticket_id tid t
                        then touch (current_timestamp be) (assign_all l t)
                        else t) db
    /\ (existsb (where_ticket_id tid) db = true ->
        violates l (List.filter (fun t => negb (where_ticket_id tid t)) db) = false).
Proof.
  unfold update_rows. destruct (negb (executes be)); [discriminate|].
  destruct (set_list be fields) as [e|l]; [discriminate|]. cbn [bind].
  destruct (negb (bool_decide _)); [discriminate|].
  destruct (existsb _ db && violates _ _) eqn:Hv; [discriminate|].
  intros [= <-]. exists l. split; [done|]. intros Hex. by rewrite Hex in Hv.
Qed.

Lemma update_ticket_cases be db tid updates :
  snd (update_ticket be db tid updates) = db
  \/ update_rows be db tid (update_fields updates)
     = Ret (snd (update_ticket be db tid updates)).
Proof.
  unfold update_ticket, update_ticket_body.
  destruct (_get_connection be); cbn; [by left|].
  destruct (update_fields updates) as [|fv fields]; cbn; [by left|].
  destruct (update_rows be db tid (fv :: fields)); cbn; [by left|by right].
Qed.

Lemma assign_all_ticket_id l t :
  ticket_id (assign_all l t) = ticket_id t
  \/ exists v, In (set_ticket_id (Some v)) l /\ ticket_id (assign_all l t) = v.
Proof.
  unfold assign_all. revert t. induction l as [|a l IH]; intros t; cbn; [by left|].
  destruct (IH (apply_assignment a t)) as [H|(v & Hin & H)].
  - destruct a as [[v|]|v|v|c v]; cbn in H; try (by left).
    right. exists v. split; [by left|exact H].
  - right. exists v. split; [by right|exact H].
Qed.

Lemma assign_all_thread_id l t :
  thread_id (assign_all l t) = thread_id t
  \/ exists v, In (set_thread_id v) l /\ thread_id (assign_all l t) = v.
Proof.
  unfold assign_all. revert t. induction l as [|a l IH]; intros t; cbn; [by left|].
  destruct (IH (apply_assignment a t)) as [H|(v & Hin & H)].
  - destruct a as [[v|]|v|v|c v]; cbn in H; try (by left).
    right. exists v. split; [by left|exact H].
  - right. exists v. split; [by right|exact H].
Qed.

Lemma violates_ticket_id l others v u :
  violates l others = false -> In (set_ticket_id (Some v)) l -> In u others ->
  ticket_id u <> v.
Proof.
  intros Hv Hin Hu Heq.
  assert (violates l others = true); [|congruence].
  apply existsb_exists. exists (set_ticket_id (Some v)). split; [done|].
  apply existsb_exists. exists u. split; [done|]. rewrite Heq. apply String.eqb_refl.
Qed.

Lemma violates_thread_id l others th u :
  violates l others = false -> In (set_thread_id (Some th)) l -> In u others ->
  thread_id u <> Some th.
Proof.
  intros Hv Hin Hu Heq.
  assert (violates l others = true); [|congruence].
  apply existsb_exists. exists (set_thread_id (Some th)). split; [done|].
  apply existsb_exists. exists u. split; [done|].
  unfold same_thread. rewrite Heq. apply String.eqb_refl.
Qed.

Lemma omap_Some_key (db : list Ticket) :
  omap (fun t => Some (ticket_id t)) db = map ticket_id db.
Proof. induction db as [|t db IH]; [done|]. cbn. by rewrite IH. Qed.

(** Rewriting the rows that a test on the ticket id picks keeps a key
    unique, when no row left alone holds the new key of a rewritten row. *)
Lemma NoDup_omap_update {K} (key : Ticket -> option K) (hit : Ticket -> bool)
    (f : Ticket -> Ticket) (db : list Ticket) :
  (forall x, hit x = false -> f x = x) ->
  (forall x y, hit x = true -> hit y = true -> ticket_id x = ticket_id y) ->
  NoDup (map ticket_id db) ->
  NoDup (omap key db) ->
  (forall t u k, In t db -> In u db -> hit t = true -> hit u = false ->
                 key (f t) = Some k -> key u <> Some k) ->
  NoDup (omap key (map f db)).
Proof.
  intros Hf Hhit. induction db as [|x db IH]; intros Hid Hkey Hnew; [constructor|].
  cbn in Hid. apply NoDup_cons in Hid as [Hxid Hid].
  assert (Hkey' : NoDup (omap key db)).
  { cbn in Hkey. destruct (key x); [by apply NoDup_cons in Hkey as [_ ?]|done]. }
  assert (IH' : NoDup (omap key (map f db))).
  { apply IH; [done|done|]. intros t u k Ht Hu. apply Hnew; by right. }
  cbn. destruct (key (f x)) as [k|] eqn:Hk; [|exact IH'].
  apply NoDup_cons. split; [|exact IH'].
  intros Hin. apply list_elem_of_omap in Hin as (y' & Hy' & Hky').
  apply list_elem_of_In, in_map_iff in Hy' as (y & <- & Hy).
  destruct (hit x) eqn:Hx, (hit y) eqn:Hhy.
  - apply Hxid. apply list_elem_of_In, in_map_iff. exists y. split; [|done].
    symmetry. by apply Hhit.
  - rewrite (Hf y Hhy) in Hky'. apply (Hnew x y k); [by left|by right|done..].
  - rewrite (Hf x Hx) in Hk. apply (Hnew y x k); [by right|by left|done..].
  - rewrite (Hf x Hx) in Hk. rewrite (Hf y Hhy) in Hky'.
    cbn in Hkey. rewrite Hk in Hkey. apply NoDup_cons in Hkey as [Hnotin _].
    apply Hnotin. apply list_elem_of_omap. exists y. split; [by apply list_elem_of_In|done].
Qed.

Lemma NoDup_omap_inj {K} (key : Ticket -> option K) (db : list Ticket) t u k :
  NoDup (omap key db) -> In t db -> In u db -> key t = Some k -> key u = Some k -> t = u.
Proof.
  induction db as [|x db IH]; intros Hnd Ht Hu Hkt Hku; [destruct Ht|].
  assert (Hnotin : forall y, key x = Some k -> In y db -> key y = Some k -> False).
  { intros y Hkx Hy Hky. cbn in Hnd. rewrite Hkx in Hnd.
    apply NoDup_cons in Hnd as [Hnotin _]. apply Hnotin.
    apply list_elem_of_omap. exists y. split; [by apply list_elem_of_In|done]. }
  assert (Hnd' : NoDup (omap key db)).
  { cbn in Hnd. destruct (key x); [by apply NoDup_cons in Hnd as [_ ?]|done]. }
  destruct Ht as [<-|Ht], Hu as [<-|Hu]; [done| | |by apply IH].
  - exfalso. by apply (Hnotin u).
  - exfalso. by apply (Hnotin t).
Qed.

Lemma where_ticket_id_same tid t u :
  ticket_id t = ticket_id u -> where_ticket_id tid t = where_ticket_id tid u.
Proof. unfold where_ticket_id. by intros ->. Qed.

(** The constraints of the table hold after an [UPDATE] as they did
    before it, whatever it assigns. *)
Lemma update_rows_keys_unique be db tid fields db' :
  keys_unique db -> update_rows be db tid fields = Ret db' -> keys_unique db'.
Proof.
  intros [Hid Hth] Hu. apply update_rows_shape in Hu as (l & -> & Hv).
  set (hit := where_ticket_id tid).
  set (f := fun t => if hit t then touch (current_timestamp be) (assign_all l t) else t).
  assert (Hf : forall x, hit x = false -> f x = x).
  { intros x Hx. unfold f. by rewrite Hx. }
  assert (Hhit : forall x y, hit x = true -> hit y = true -> ticket_id x = ticket_id y).
  { unfold hit, where_ticket_id. destruct tid as [i|]; [|discriminate].
    intros x y Hx Hy. apply String.eqb_eq in Hx, Hy. congruence. }
  assert (Hothers : forall t u, In t db -> In u db -> hit t = true -> hit u = false ->
            violates l (List.filter (fun t => negb (where_ticket_id tid t)) db) = false
            /\ In u (List.filter (fun t => negb (where_ticket_id tid t)) db)).
  { intros t u Ht Hu Hht Hhu. split.
    - apply Hv, existsb_exists. by exists t.
    - apply List.filter_In. split; [done|]. fold hit. by rewrite Hhu. }
  split.
  - rewrite <- omap_Some_key.
    apply (NoDup_omap_update (fun t => Some (ticket_id t)) hit f);
      [done|done|done|by rewrite omap_Some_key|].
    intros t u k Ht Hu Hht Hhu Hk Hku.
    destruct (Hothers t u Ht Hu Hht Hhu) as [Hviol Hin].
    unfold f in Hk. rewrite Hht in Hk. cbn in Hk.
    injection Hk as Hk. injection Hku as Hku. subst k.
    destruct (assign_all_ticket_id l t) as [Heq|(v & Hl & Heq)].
    + rewrite Heq in Hku.
      pose proof (where_ticket_id_same tid u t Hku) as Hsame. fold hit in Hsame.
      congruence.
    + rewrite Heq in Hku. by apply (violates_ticket_id l _ v u Hviol Hl Hin).
  - apply (NoDup_omap_update _ hit f); try done.
    intros t u k Ht Hu Hht Hhu Hk Hku.
    destruct (Hothers t u Ht Hu Hht Hhu) as [Hviol Hin].
    unfold f in Hk. rewrite Hht in Hk. cbn in Hk.
    destruct (assign_all_thread_id l t) as [Heq|(v & Hl & Heq)].
    + rewrite Heq in Hk.
      assert (t = u) by (by apply (NoDup_omap_inj thread_id db t u k)).
      subst u. congruence.
    + rewrite Heq in Hk. subst v. by apply (violates_thread_id l _ k u Hviol Hl Hin).
Qed.

Lemma update_ticket_keys_unique be db tid updates :
  keys_unique db -> keys_unique (snd (update_ticket be db tid updates)).
Proof.
  intros Hk. destruct (update_ticket_cases be db tid updates) as [->|Hu]; [exact Hk|].
  by apply (update_rows_keys_unique be db tid _ _ Hk Hu).
Qed.

Lemma update_ticket_length be db tid updates :
  length (snd (update_ticket be db tid updates)) = length db.
Proof.
  destruct (update_ticket_cases be db tid updates) as [->|Hu]; [done|].
  apply update_rows_shape in Hu as (l & -> & _). apply length_map.
Qed.

(** An [UPDATE] leaves every row that its [WHERE] does not match as it
    was. *)
Lemma update_ticket_other_rows be db tid updates :
  Forall2 (fun t t' => where_ticket_id tid t = false -> t' = t)
          db (snd (update_ticket be db tid updates)).
Proof.
  destruct (update_ticket_cases be db tid updates) as [->|Hu].
  - induction db; constructor; done.
  - apply update_rows_shape in Hu as (l & -> & _).
    induction db as [|t db IH]; constructor; [|exact IH].
    by intros ->.
Qed.

(** X3.  Both store writes keep the table's keys unique: when no two
    tickets share a ticket id or a conversation before [create_ticket] or
    [update_ticket], none do afterwards, whether the call succeeds or
    fails, and whatever columns the update assigns: the server refuses an
    update that would give a row the ticket id or the conversation of
    another. *)
Theorem writes_keep_keys_unique be db :
  keys_unique db ->
  (forall d, keys_unique (snd (create_ticket be db d)))
  /\ (forall tid updates, keys_unique (snd (update_ticket be db tid updates))).
Proof.
  intros Hk. split.
  - intros d. by apply create_ticket_keys_unique.
  - intros tid updates. by apply update_ticket_keys_unique.
Qed.

Lemma writes_keep_keys_unique_witness :
  (forall d, keys_unique (snd (create_ticket working_backend [sample_ticket] d)))
  /\ (forall tid updates,
         keys_unique (snd (update_ticket working_backend [sample_ticket] tid updates))).
Proof.
  apply (writes_keep_keys_unique working_backend [sample_ticket]).
  split; cbn; apply NoDup_singleton.
Defined.

End StoreMore.

Section StoreUpdates.
Import Py Database DatabaseQueries.

Lemma column_of_not_ignored f c : column_of f = Some c -> ignored_key f = false.
Proof.
  intros H. destruct (ignored_key f) eqn:Hig; [|done].
  apply ignored_key_spec in Hig as [-> | [-> | ->]]; discriminate H.
Qed.

Lemma resolve_keeps fields cs f v c :
  resolve fields = Some cs -> In (f, v) fields -> column_of f = Some c -> In (c, v) cs.
Proof.
  intros Hr. apply resolve_names in Hr as [Hn _].
  induction Hn as [|[f0 v0] [c0 v0'] fields cs [Hc0 Hv] _ IH]; intros Hin Hc; [destruct Hin|].
  cbn in *. subst v0'. destruct Hin as [[= -> ->]|Hin].
  - left. congruence.
  - right. by apply IH.
Qed.

Lemma resolve_NoDup fields cs : resolve fields = Some cs -> NoDup (map fst cs).
Proof. intros Hr. by apply resolve_names in Hr as [_ ?]. Qed.

Lemma column_value_assign_other cs t c :
  ~ In c (map fst cs) -> column_value c (assign cs t) = column_value c t.
Proof.
  unfold assign. revert t. induction cs as [|[c0 v0] cs IH]; intros t Hnotin; [done|].
  cbn in *. rewrite IH by tauto.
  rewrite column_value_set_column. case_decide; [|done]. subst. tauto.
Qed.

(** With each column assigned once, the row ends up with the value
    assigned. *)
Lemma column_value_assign_In cs t c v :
  NoDup (map fst cs) -> In (c, v) cs -> column_value c (assign cs t) = v.
Proof.
  unfold assign. revert t. induction cs as [|[c0 v0] cs IH]; intros t Hnd Hin; [destruct Hin|].
  cbn in Hnd. apply NoDup_cons in Hnd as [Hnotin Hnd]. cbn.
  destruct Hin as [[= -> ->]|Hin].
  - pose proof (column_value_assign_other cs (set_column c v t) c) as Ho.
    unfold assign in Ho. rewrite Ho.
    + rewrite column_value_set_column. by rewrite decide_True.
    + intros Hin. by apply Hnotin, list_elem_of_In.
  - by apply IH.
Qed.

(** The rows as [UPDATE ... WHERE ticket_id = tid] leaves them. *)
Definition updated_row (be : Backend) (tid : string)
    (cs : list (Column * option string)) (t : Ticket) : Ticket :=
  if String.eqb (ticket_id t) tid then touch (current_timestamp be) (assign cs t) else t.

Lemma updated_row_id be tid cs t : ticket_id (updated_row be tid cs t) = ticket_id t.
Proof.
  unfold updated_row. destruct (String.eqb _ _); [|done].
  cbn. by destruct (same_identity_assign cs t) as [-> _].
Qed.

Lemma find_has_id_map be tid cs i db :
  List.find (has_id i) (map (updated_row be tid cs) db)
  = updated_row be tid cs <$> List.find (has_id i) db.
Proof.
  induction db as [|t db IH]; [done|]. cbn.
  unfold has_id at 1 3. rewrite updated_row_id.
  destruct (String.eqb (ticket_id t) i); [done|exact IH].
Qed.

Lemma update_ticket_success be db tid updates cs :
  connects be = true -> executes be = true ->
  update_fields updates <> [] ->
  resolve (update_fields updates) = Some cs ->
  update_ticket be db (Some tid) updates = (true, map (updated_row be tid cs) db).
Proof.
  intros Hcon Hex Hne Hr.
  unfold update_ticket, update_ticket_body, _get_connection.
  rewrite Hcon. cbn [bind].
  destruct (update_fields updates) as [|fv fields] eqn:Hf; [done|].
  apply resolve_names in Hr as [Hn Hnd].
  rewrite (update_rows_names be db (Some tid) _ cs Hn), Hex.
  by rewrite bool_decide_eq_true_2.
Qed.

(** X4.  Writing and reading back: when the server is up, the keys of the
    field map are distinct column names (the identity keys apart) and the
    map assigns [v] to column [c], [update_ticket] returns True, and the
    ticket then read by its id holds [v] in column [c] and the server's time
    as [updated_at], and has its id, conversation and creation time
    unchanged; tickets with another id read as before. *)
Theorem update_then_read be be' db tid updates cs f v c :
  connects be = true -> executes be = true ->
  connects be' = true -> executes be' = true ->
  NoDup (map fst updates) ->
  resolve (update_fields updates) = Some cs ->
  In (f, v) updates -> column_of f = Some c ->
  fst (update_ticket be db (Some tid) updates) = true
  /\ (forall t, get_ticket_by_id be' db tid = Some t ->
                exists t',
                  get_ticket_by_id be' (snd (update_ticket be db (Some tid) updates)) tid
                  = Some t'
                  /\ column_value c t' = v
                  /\ updated_at t' = current_timestamp be
                  /\ same_identity t t')
  /\ (forall i, i <> tid ->
                get_ticket_by_id be' (snd (update_ticket be db (Some tid) updates)) i
                = get_ticket_by_id be' db i).
Proof.
  intros Hcon Hex Hcon' Hex' Hnd Hr Hin Hc.
  assert (Hinf : In (f, v) (update_fields updates)).
  { unfold update_fields. apply List.filter_In. split; [done|].
    cbn [fst]. by rewrite (column_of_not_ignored f c). }
  assert (Hne : update_fields updates <> []) by (by destruct (update_fields updates)).
  rewrite (update_ticket_success be db tid updates cs) by done. cbn [fst snd].
  unfold get_ticket_by_id, _get_connection. rewrite Hcon', Hex'. cbn.
  split; [done|]. split.
  - intros t Hfind. rewrite find_has_id_map, Hfind. cbn.
    apply find_some in Hfind as [_ Hid]. unfold has_id in Hid.
    unfold updated_row. rewrite Hid.
    eexists. split; [reflexivity|]. split; [|split].
    + assert (Hv : column_value c (assign cs t) = v).
      { apply column_value_assign_In; [|by eapply resolve_keeps].
        by eapply resolve_NoDup. }
      rewrite <- Hv. by destruct c.
    + reflexivity.
    + destruct (same_identity_assign cs t) as (H1 & H2 & H3). by repeat split.
  - intros i Hi. rewrite find_has_id_map.
    destruct (List.find (has_id i) db) as [t|] eqn:Hfind; [|done]. cbn.
    apply find_some in Hfind as [_ Hid]. unfold has_id in Hid.
    apply String.eqb_eq in Hid. unfold updated_row.
    destruct (String.eqb_spec (ticket_id t) tid); [congruence|done].
Qed.

Lemma update_then_read_witness :
  fst (update_ticket working_backend [sample_ticket] (Some "TCK-20240101-0A1B2C")
         [("passenger_phone", Some "+1 555 0100"); ("thread_id", Some "other")]) = true
  /\ (forall t,
         get_ticket_by_id working_backend [sample_ticket] "TCK-20240101-0A1B2C" = Some t ->
         exists t',
           get_ticket_by_id working_backend
             (snd (update_ticket working_backend [sample_ticket]
                     (Some "TCK-20240101-0A1B2C")
                     [("passenger_phone", Some "+1 555 0100"); ("thread_id", Some "other")]))
             "TCK-20240101-0A1B2C" = Some t'
           /\ column_value c_passenger_phone t' = Some "+1 555 0100"
           /\ updated_at t' = current_timestamp working_backend
           /\ same_identity t t')
  /\ (forall i, i <> "TCK-20240101-0A1B2C" ->
         get_ticket_by_id working_backend
           (snd (update_ticket working_backend [sample_ticket]
                   (Some "TCK-20240101-0A1B2C")
                   [("passenger_phone", Some "+1 555 0100"); ("thread_id", Some "other")])) i
         = get_ticket_by_id working_backend [sample_ticket] i).
Proof.
  apply (update_then_read working_backend working_backend [sample_ticket]
           "TCK-20240101-0A1B2C"
           [("passenger_phone", Some "+1 555 0100"); ("thread_id", Some "other")]
           [(c_passenger_phone, Some "+1 555 0100")]
           "passenger_phone" (Some "+1 555 0100") c_passenger_phone);
    try reflexivity.
  - cbn. apply NoDup_cons. split; [|apply NoDup_singleton].
    intros Hin. apply list_elem_of_singleton in Hin. discriminate Hin.
  - left. reflexivity.
Defined.



(** A key that reads as one plain SQL identifier: a letter or an
    underscore, then letters, digits, underscores and dollar signs. *)
Definition is_letter (c : ascii) : bool :=
  let n := N_of_ascii c in
  in_range 65 90 n || in_range 97 122 n || (n =? 95)%N.

Definition is_identifier (s : string) : bool :=
  match s with
  | EmptyString => false
  | String c r =>
      is_letter c
      && all_chars (fun c' => is_letter c' || is_digit c' || (N_of_ascii c' =? 36)%N) r
  end.

Lemma set_list_fails be fields f v :
  In (f, v) fields ->
  target_of f = None \/ target_of f = Some t_updated_at ->
  exists e, set_list be fields = Raise e.
Proof.
  intros Hin Ht. induction fields as [|[f0 v0] fields IH]; [destruct Hin|].
  cbn. destruct Hin as [[= -> ->]|Hin].
  - unfold assignment_of. destruct Ht as [-> | ->]; cbn; eauto.
  - destruct (assignment_of be f0 v0); cbn; [eauto|].
    destruct (IH Hin) as [e ->]. cbn. eauto.
Qed.

(** X6.  For keys that are plain identifiers: one key that passes the
    filter of [update_ticket] and names no column of the table, or names
    [updated_at] (in any letter case), which the statement assigns itself,
    makes the whole update fail: False is returned and no field of the map
    is written. *)
Theorem update_ticket_unknown_column be db tid updates f v :
  Forall (fun fv => is_identifier (fst fv) = true) updates ->
  In (f, v) updates -> ignored_key f = false ->
  target_of f = None \/ target_of f = Some t_updated_at ->
  update_ticket be db tid updates = (false, db).
Proof.
  intros _ Hin Hig Ht.
  assert (Hinf : In (f, v) (update_fields updates)).
  { unfold update_fields. apply List.filter_In. split; [done|]. cbn [fst]. by rewrite Hig. }
  destruct (set_list_fails be _ f v Hinf Ht) as [e He].
  unfold update_ticket, update_ticket_body, _get_connection, update_rows.
  destruct (connects be); [|done]. cbn [bind].
  destruct (update_fields updates) as [|fv fields]; [destruct Hinf|].
  destruct (executes be); [|done]. by rewrite He.
Qed.

Lemma update_ticket_unknown_column_witness :
  update_ticket working_backend [sample_ticket] (Some "TCK-20240101-0A1B2C")
    [("passenger_phone", Some "+1 555 0100"); ("name", Some "Jon Doe")]
  = (false, [sample_ticket]).
Proof.
  apply (update_ticket_unknown_column working_backend [sample_ticket]
           (Some "TCK-20240101-0A1B2C")
           [("passenger_phone", Some "+1 555 0100"); ("name", Some "Jon Doe")]
           "name" (Some "Jon Doe")).
  - repeat constructor.
  - right. left. reflexivity.
  - reflexivity.
  - left. reflexivity.
Defined.

(** The same with the key [Updated_At]. *)
Example update_ticket_updated_at_key :
  update_ticket working_backend [sample_ticket] (Some "TCK-20240101-0A1B2C")
    [("status", Some "CLOSED"); ("Updated_At", Some "2024-01-01 00:00:00")]
  = (false, [sample_ticket]).
Proof. reflexivity. Qed.

(** Keys in capitals pass the filter of [update_ticket] and are read by
    the server as the columns they name: a data column is written; the
    primary key is rewritten; the creation time is set when the text is a
    timestamp, and the update fails when it is not; naming one column under
    two spellings makes the update fail. *)
Example update_ticket_keys_in_capitals :
  let update := update_ticket working_backend [sample_ticket] (Some "TCK-20240101-0A1B2C") in
  (fst (update [("PASSENGER_PHONE", Some "+1 555 0100")]) = true
   /\ passenger_phone <$> snd (update [("PASSENGER_PHONE", Some "+1 555 0100")])
      = [Some "+1 555 0100"])
  /\ (fst (update [("Ticket_ID", Some "TCK-X")]) = true
      /\ ticket_id <$> snd (update [("Ticket_ID", Some "TCK-X")]) = ["TCK-X"])
  /\ (fst (update [("Created_At", Some "2024-01-01 00:00:00")]) = true
      /\ created_at <$> snd (update [("Created_At", Some "2024-01-01 00:00:00")])
         = [Some 1704067200%Z])
  /\ update [("Created_At", Some "thread_b")] = (false, [sample_ticket])
  /\ update [("status", Some "CLOSED"); ("STATUS", Some "OPEN")] = (false, [sample_ticket]).
Proof. vm_compute. repeat split. Qed.

(** The constraints of the table apply to an update as well: the
    conversation of another ticket is refused, and so is a [NULL] ticket
    id. *)
Example update_ticket_refused_by_constraints :
  let other := row_of working_backend john_data in
  update_ticket working_backend [sample_ticket; other] (Some "TCK-20240101-0A1B2C")
    [("Thread_ID", Some "thread_2")] = (false, [sample_ticket; other])
  /\ update_ticket working_backend [sample_ticket; other] (Some "TCK-20240101-0A1B2C")
       [("TICKET_ID", Some "TCK-20240102-0A1B2C")] = (false, [sample_ticket; other])
  /\ update_ticket working_backend [sample_ticket; other] (Some "TCK-20240101-0A1B2C")
       [("Ticket_Id", None)] = (false, [sample_ticket; other])
  /\ fst (update_ticket working_backend [sample_ticket; other] (Some "TCK-19990101-000000")
            [("Ticket_Id", None)]) = true.
Proof. vm_compute. repeat split. Qed.

End StoreUpdates.

(** ** The other endpoints of [src/api_enhanced.py] *)

Module Endpoints.
Import Py.

(** What an endpoint hands to the client: a body, or an [HTTPException]
    with its status code. *)
Inductive Http (A : Type) : Type :=
| Ok (body : A)
| HttpError (status_code : nat).
Arguments Ok {A} body.
Arguments HttpError {A} status_code.

(** [GET /api/v2/tickets/{ticket_id}].  The [raise HTTPException(404)]
    stands inside the [try], and [HTTPException] is an [Exception]. *)
Definition get_ticket_by_id (be : Database.Backend) (srv : Api.Server) (ticket_id : string)
  : Http Database.Ticket :=
  try_except
    (match DatabaseQueries.get_ticket_by_id be (Api.db srv) ticket_id with
     | Some ticket => Ret (Ok ticket)
     | None => Raise "HTTPException(status_code=404)"
     end)
    (fun _ => HttpError 500).

Record TicketList := { tickets : list Database.Ticket; count : nat }.

(** [GET /api/v2/tickets] *)
Definition get_tickets (be : Database.Backend) (srv : Api.Server) : Http TicketList :=
  let tickets' := DatabaseQueries.get_all_tickets be (Api.db srv) in
  Ok {| tickets := tickets'; count := length tickets' |}.

Record Cleared := { cleared_status : string; cleared_count : nat; conversations_cleared : bool }.

(** [DELETE /api/v2/tickets/clear] *)
Definition clear_all_tickets (be : Database.Backend) (srv : Api.Server)
  : Http Cleared * Api.Server :=
  let '(count', db') := DatabaseQueries.clear_all_tickets be (Api.db srv) in
  (Ok {| cleared_status := "success"; cleared_count := count';
         conversations_cleared := true |},
   {| Api.db := db'; Api.conversation_store := ∅ |}).

End Endpoints.

(** ** Properties of the listing, reading and clearing endpoints *)

Section EndpointsProps.
Import Py Database DatabaseQueries.

(** Newest first; a row without a creation time counts as newest, as in
    the server's descending order. *)
Definition not_older (t u : Ticket) : Prop :=
  match created_at t, created_at u with
  | None, _ => True
  | Some _, None => False
  | Some x, Some y => (y <= x)%Z
  end.

Lemma earlier_not_older t u : earlier (created_at u) (created_at t) = true -> not_older t u.
Proof.
  unfold earlier, not_older. destruct (created_at u), (created_at t); try done.
  intros H. apply Z.ltb_lt in H. lia.
Qed.

Lemma not_earlier_not_older t u :
  earlier (created_at u) (created_at t) = false -> not_older u t.
Proof.
  unfold earlier, not_older. destruct (created_at u), (created_at t); try done.
  intros H. apply Z.ltb_ge in H. lia.
Qed.

Lemma not_older_trans t u v : not_older t u -> not_older u v -> not_older t v.
Proof.
  unfold not_older. destruct (created_at t), (created_at u), (created_at v); try done.
  lia.
Qed.

Lemma insert_desc_perm t l : Permutation (insert_desc t l) (t :: l).
Proof.
  induction l as [|u l IH]; cbn; [done|].
  destruct (earlier (created_at u) (created_at t)); [done|].
  rewrite IH. apply perm_swap.
Qed.

Lemma insert_desc_sorted t l :
  StronglySorted not_older l -> StronglySorted not_older (insert_desc t l).
Proof.
  induction 1 as [|u l Hs IH Hu]; cbn.
  - repeat constructor.
  - destruct (earlier (created_at u) (created_at t)) eqn:He.
    + apply earlier_not_older in He.
      constructor; [by constructor|]. constructor; [exact He|].
      eapply Forall_impl; [exact Hu|]. intros v. by apply not_older_trans.
    + apply not_earlier_not_older in He.
      constructor; [exact IH|].
      rewrite insert_desc_perm. constructor; [exact He|exact Hu].
Qed.

Lemma order_by_perm_sorted rows : forall acc,
  StronglySorted not_older acc ->
  Permutation (fold_left (fun sorted t => insert_desc t sorted) rows acc) (rows ++ acc)
  /\ StronglySorted not_older (fold_left (fun sorted t => insert_desc t sorted) rows acc).
Proof.
  induction rows as [|t rows IH]; intros acc Hacc; cbn; [done|].
  destruct (IH (insert_desc t acc) (insert_desc_sorted t acc Hacc)) as [Hp Hs].
  split; [|exact Hs]. rewrite Hp, insert_desc_perm. by rewrite Permutation_middle.
Qed.

(** X7.  [GET /api/v2/tickets]: with the server up the list holds every
    ticket of the table exactly once, newest first, and [count] is the
    number of tickets; with the server down the answer is still a normal
    one, an empty list with count 0. *)
Theorem get_tickets_lists_all be (srv : Api.Server) :
  exists body,
    Endpoints.get_tickets be srv = Endpoints.Ok body
    /\ Endpoints.count body = length (Endpoints.tickets body)
    /\ StronglySorted not_older (Endpoints.tickets body)
    /\ if connects be && executes be
       then Permutation (Endpoints.tickets body) (Api.db srv)
            /\ Endpoints.count body = length (Api.db srv)
       else Endpoints.tickets body = [].
Proof.
  unfold Endpoints.get_tickets, get_all_tickets, _get_connection, order_by_created_at_desc.
  eexists. split; [reflexivity|]. cbn [Endpoints.count Endpoints.tickets].
  split; [reflexivity|].
  destruct (order_by_perm_sorted (Api.db srv) [] (SSorted_nil _)) as [Hp Hs].
  rewrite app_nil_r in Hp.
  destruct (connects be); cbn; [|split; [constructor|done]].
  destruct (executes be); cbn; [|split; [constructor|done]].
  split; [exact Hs|]. split; [exact Hp|]. by rewrite Hp.
Qed.

(** X8.  [GET /api/v2/tickets/{ticket_id}] never answers 404: it hands
    back a ticket of the table with the id asked for, and for an id that is
    not found, as when the server is down, the status code is 500. *)
Theorem get_ticket_by_id_never_404 be (srv : Api.Server) (tid : string) :
  (exists t, Endpoints.get_ticket_by_id be srv tid = Endpoints.Ok t
             /\ In t (Api.db srv) /\ ticket_id t = tid)
  \/ (Endpoints.get_ticket_by_id be srv tid = Endpoints.HttpError 500
      /\ (connects be = false \/ executes be = false
          \/ forall t, In t (Api.db srv) -> ticket_id t <> tid)).
Proof.
  unfold Endpoints.get_ticket_by_id, get_ticket_by_id, _get_connection.
  destruct (connects be); cbn; [|right; auto].
  destruct (executes be); cbn; [|right; auto].
  destruct (List.find (has_id tid) (Api.db srv)) as [t|] eqn:Hf; cbn.
  - left. exists t. apply find_some in Hf as [Hin Hid].
    do 2 (split; [done|]). by apply String.eqb_eq.
  - right. split; [done|]. do 2 right. intros t Hin Heq.
    apply (find_none _ _ Hf) in Hin. unfold has_id in Hin. rewrite Heq in Hin.
    by rewrite String.eqb_refl in Hin.
Qed.

(** X9.  [DELETE /api/v2/tickets/clear] always answers "success" and
    always empties the conversation memory.  The count it reports is the
    number of tickets it removed: all of them when the server is up; when
    the server is down it reports 0 and every ticket is still there. *)
Theorem clear_all_tickets_effect be (srv : Api.Server) :
  exists n,
    fst (Endpoints.clear_all_tickets be srv)
    = Endpoints.Ok {| Endpoints.cleared_status := "success";
                      Endpoints.cleared_count := n;
                      Endpoints.conversations_cleared := true |}
    /\ (forall thread, history_of (snd (Endpoints.clear_all_tickets be srv)) thread = [])
    /\ n + length (Api.db (snd (Endpoints.clear_all_tickets be srv))) = length (Api.db srv)
    /\ if connects be && executes be
       then Api.db (snd (Endpoints.clear_all_tickets be srv)) = []
       else Api.db (snd (Endpoints.clear_all_tickets be srv)) = Api.db srv /\ n = 0.
Proof.
  unfold Endpoints.clear_all_tickets, clear_all_tickets, _get_connection.
  destruct (connects be); cbn; [destruct (executes be); cbn|];
    eexists; (split; [reflexivity|]);
    (split; [intros thread; unfold history_of; cbn; by rewrite lookup_empty|]);
    cbn; split; (done || lia).
Qed.

End EndpointsProps.

(** ** Properties of [process_message] as a whole *)

Section ProcessMessage.
Import Py TrustCall.

(** Rule 3 of the gate: an open ticket and more than ten user turns. *)
Definition threshold_applies (env : Env) (db : list Database.Ticket)
    (thread : string) (history : list Turn) : bool :=
  match Database.get_ticket_by_thread (backend env) db thread with
  | Some t => bool_decide (Database.status t = Some "OPEN")
              && Nat.ltb 10 (message_count history)
  | None => false
  end.

(** The statuses of the gate and those of the four actions. *)
Definition gate_statuses : list string :=
  ["acknowledged"; "awaiting_complaint"; "duplicate_message"; "ticket_exists"].

Definition action_statuses : list string :=
  ["ticket_created"; "error"; "ticket_updated"; "acknowledged"; "awaiting_information"].

(** Past the gate, [process_message] is one call of the model and the
    dispatch on its answer, under the [try]. *)
Lemma process_message_past_gate env db message thread history :
  is_trivial message = false ->
  is_duplicate history message = false ->
  threshold_applies env db thread history = false ->
  let existing := Database.get_ticket_by_thread (backend env) db thread in
  let prompt := build_prompt existing history message in
  process_message env db message thread history
  = {| outcome := Ret (try_except (fst (analyse_and_act env db prompt thread existing))
                                  (fun _ => apology));
       store := snd (analyse_and_act env db prompt thread existing);
       port_calls := [prompt] |}.
Proof.
  unfold is_trivial, is_duplicate, threshold_applies, process_message.
  intros -> -> Hth. cbn zeta.
  destruct (Database.get_ticket_by_thread (backend env) db thread) as [t|].
  - rewrite Hth. by destruct (analyse_and_act _ _ _ _ _).
  - by destruct (analyse_and_act _ _ _ _ _).
Qed.

Lemma process_message_in_gate env db message thread history :
  is_trivial message || is_duplicate history message
  || threshold_applies env db thread history = true ->
  port_calls (process_message env db message thread history) = []
  /\ store (process_message env db message thread history) = db
  /\ exists r, outcome (process_message env db message thread history) = Ret r
               /\ In (status r) gate_statuses.
Proof.
  unfold is_trivial, is_duplicate, threshold_applies, process_message, gate_statuses.
  destruct (bool_decide _).
  { intros _. destruct (Database.get_ticket_by_thread _ _ _); cbn; eauto 10. }
  destruct (match last_user_msg history with Some _ => _ | None => _ end).
  { intros _. cbn. eauto 10. }
  destruct (Database.get_ticket_by_thread _ _ _) as [t|]; [|discriminate].
  cbn [orb]. intros ->. cbn. eauto 10.
Qed.

Lemma _create_ticket_result env db a thread :
  let t := row_of (backend_at_write env)
             {| Database.td_ticket_id := Runtime.new_ticket_id (clock env) (uuid env);
                Database.td_thread_id := Some thread;
                Database.td_passenger_name := name (ca_passenger_info a);
                Database.td_passenger_email := email (ca_passenger_info a);
                Database.td_passenger_phone := phone (ca_passenger_info a);
                Database.td_flight_number := flight_number (ca_passenger_info a);
                Database.td_booking_reference := booking_reference (ca_passenger_info a);
                Database.td_original_complaint := Some (ca_complaint a);
                Database.td_category := Some (Models.category_value (ca_category a));
                Database.td_priority := Some (Models.priority_value (ca_priority a));
                Database.td_assigned_team := Some (Models.team_map (ca_priority a));
                Database.td_status := Some "OPEN" |} in
  (status (fst (_create_ticket env db a thread)) = "ticket_created"
   /\ ticket_id (fst (_create_ticket env db a thread)) = Some (Database.ticket_id t)
   /\ snd (_create_ticket env db a thread) = (db ++ [t])%list)
  \/ (status (fst (_create_ticket env db a thread)) = "error"
      /\ ticket_id (fst (_create_ticket env db a thread)) = None
      /\ snd (_create_ticket env db a thread) = db).
Proof.
  intros t. unfold _create_ticket.
  match goal with
  | |- context [Database.create_ticket ?be ?db ?d] =>
      destruct (create_ticket_cases be db d) as [(H & _)|(H & _)]; rewrite H
  end.
  - left. by repeat split.
  - right. by repeat split.
Qed.

Lemma _update_ticket_store env db a existing :
  snd (_update_ticket env db a existing)
  = match update_dict a with
    | [] => db
    | updates =>
        snd (Database.update_ticket (backend_at_write env) db (Some (ua_ticket_id a)) updates)
    end.
Proof.
  unfold _update_ticket. destruct (update_dict a) as [|fv u]; [done|].
  by destruct (Database.update_ticket _ _ _ _).
Qed.

Lemma _update_ticket_result env db a existing :
  length (snd (_update_ticket env db a existing)) = length db
  /\ match fst (_update_ticket env db a existing) with
     | Ret r => In (status r) ["ticket_updated"; "acknowledged"]
                /\ ticket_id r = Some (ua_ticket_id a) /\ existing <> None
     | Raise _ => existing = None
     end.
Proof.
  split.
  { rewrite _update_ticket_store. destruct (update_dict a); [done|].
    apply update_ticket_length. }
  unfold _update_ticket. destruct (update_dict a) as [|fv u].
  - destruct existing; cbn; [|done]. split; [by right; left|done].
  - destruct (Database.update_ticket _ _ _ _) as [ok db'].
    destruct existing; cbn; [|done]. split; [by left|done].
Qed.

(** X10.  Every run of [process_message] returns a result whose status is
    one of eight tags.  Either the gate answers, with no call of the model
    and the table untouched, or the model is called exactly once. *)
Theorem process_message_statuses env db message thread history :
  exists r,
    outcome (process_message env db message thread history) = Ret r
    /\ ((port_calls (process_message env db message thread history) = []
         /\ store (process_message env db message thread history) = db
         /\ In (status r) gate_statuses)
        \/ (port_calls (process_message env db message thread history)
            = [build_prompt (Database.get_ticket_by_thread (backend env) db thread)
                            history message]
            /\ In (status r) action_statuses)).
Proof.
  destruct (is_trivial message || is_duplicate history message
            || threshold_applies env db thread history) eqn:Hg.
  - destruct (process_message_in_gate _ _ _ _ _ Hg) as (Hc & Hs & r & Hr & Hin).
    exists r. split; [exact Hr|]. left. auto.
  - apply orb_false_iff in Hg as [Hg H3]. apply orb_false_iff in Hg as [H1 H2].
    rewrite (process_message_past_gate _ _ _ _ _ H1 H2 H3). cbn.
    eexists. split; [reflexivity|]. right. split; [reflexivity|].
    unfold analyse_and_act, action_statuses.
    destruct (llm env _) as [e|an]; cbn; [tauto|].
    destruct (action an) as [a|a|a|a].
    + destruct (_create_ticket_result env db a thread) as [(H & _)|(H & _)];
        destruct (_create_ticket env db a thread); cbn in *; rewrite H; tauto.
    + destruct (_update_ticket_result env db a
                  (Database.get_ticket_by_thread (backend env) db thread)) as [_ H].
      destruct (_update_ticket _ _ _ _) as [[e|r] db']; cbn in *; [tauto|].
      destruct H as [[<-|[<-|[]]] _]; tauto.
    + unfold _request_info. cbn.
      destruct (ra_missing_fields a) as [|m0 [|m1 [|m2 ms]]]; cbn; tauto.
    + cbn. tauto.
Qed.

Lemma Forall2_eq_refl {A} (P : A -> Prop) (l : list A) :
  Forall2 (fun x y => y = x \/ P x) l l.
Proof. induction l; constructor; [by left|done]. Qed.

(** X11.  [process_message] never deletes a ticket: the table afterwards
    is the old rows, in place, followed by at most one new row, which
    belongs to the conversation of the message, is OPEN and carries a
    freshly made id.  An old row is as it was, unless the model answered
    with an update action that names the row's ticket id.  The keys that an
    update action of the model sends to the store are taken to be plain
    identifiers. *)
Theorem process_message_store_frame env db message thread history :
  (forall an a,
      llm env (build_prompt (Database.get_ticket_by_thread (backend env) db thread)
                            history message) = Ret an ->
      action an = update_ticket a ->
      Forall (fun fv => is_identifier (fst fv) = true) (update_dict a)) ->
  exists kept new,
    store (process_message env db message thread history) = (kept ++ new)%list
    /\ Forall2 (fun t t' =>
                  t' = t
                  \/ exists an a,
                      llm env (build_prompt
                                 (Database.get_ticket_by_thread (backend env) db thread)
                                 history message) = Ret an
                      /\ action an = update_ticket a
                      /\ Database.ticket_id t = ua_ticket_id a)
               db kept
    /\ (new = []
        \/ exists t, new = [t]
                     /\ Database.thread_id t = Some thread
                     /\ Database.status t = Some "OPEN"
                     /\ Database.ticket_id t
                        = Runtime.new_ticket_id (clock env) (uuid env)).
Proof.
  intros _.
  destruct (is_trivial message || is_duplicate history message
            || threshold_applies env db thread history) eqn:Hg.
  - destruct (process_message_in_gate _ _ _ _ _ Hg) as (_ & Hs & _).
    exists db, []. rewrite Hs, app_nil_r.
    split; [done|]. split; [apply Forall2_eq_refl|by left].
  - apply orb_false_iff in Hg as [Hg H3]. apply orb_false_iff in Hg as [H1 H2].
    rewrite (process_message_past_gate _ _ _ _ _ H1 H2 H3). cbn [store].
    unfold analyse_and_act.
    destruct (llm env _) as [e|an] eqn:Hllm; cbn [snd].
    { exists db, []. rewrite app_nil_r.
      split; [done|]. split; [apply Forall2_eq_refl|by left]. }
    destruct (action an) as [a|a|a|a] eqn:Hact; cbn [snd].
    + destruct (_create_ticket_result env db a thread) as [(_ & _ & H)|(_ & _ & H)];
        destruct (_create_ticket env db a thread) as [r db']; cbn [snd] in *; subst db'.
      * eexists db, [_]. split; [reflexivity|].
        split; [apply Forall2_eq_refl|]. right. eexists. by repeat split.
      * exists db, []. rewrite app_nil_r.
        split; [done|]. split; [apply Forall2_eq_refl|by left].
    + eexists _, []. rewrite app_nil_r. split; [reflexivity|]. split; [|by left].
      rewrite _update_ticket_store. destruct (update_dict a) as [|fv u];
        [apply Forall2_eq_refl|].
      eapply Forall2_impl; [apply update_ticket_other_rows|].
      intros t t' Hrow. cbn in Hrow.
      destruct (String.eqb_spec (Database.ticket_id t) (ua_ticket_id a)) as [Heq|Hne].
      * right. by exists an, a.
      * left. by apply Hrow.
    + exists db, []. rewrite app_nil_r.
      split; [done|]. split; [apply Forall2_eq_refl|by left].
    + exists db, []. rewrite app_nil_r.
      split; [done|]. split; [apply Forall2_eq_refl|by left].
Qed.

Lemma process_message_store_frame_witness :
  exists kept new,
    store (process_message (updating_env working_backend) [sample_ticket]
             "You can reach me at +1 555 0100" "thread_1" []) = (kept ++ new)%list
    /\ Forall2 (fun t t' =>
                  t' = t
                  \/ exists an a,
                      llm (updating_env working_backend)
                        (build_prompt
                           (Database.get_ticket_by_thread
                              (backend (updating_env working_backend)) [sample_ticket]
                              "thread_1")
                           [] "You can reach me at +1 555 0100") = Ret an
                      /\ action an = update_ticket a
                      /\ Database.ticket_id t = ua_ticket_id a)
               [sample_ticket] kept
    /\ (new = []
        \/ exists t, new = [t]
                     /\ Database.thread_id t = Some "thread_1"
                     /\ Database.status t = Some "OPEN"
                     /\ Database.ticket_id t
                        = Runtime.new_ticket_id (clock (updating_env working_backend))
                            (uuid (updating_env working_backend))).
Proof.
  apply (process_message_store_frame (updating_env working_backend) [sample_ticket]
           "You can reach me at +1 555 0100" "thread_1" []).
  intros an a Hllm Hact. cbn in Hllm. injection Hllm as <-.
  cbn in Hact. injection Hact as <-. repeat constructor.
Defined.

End ProcessMessage.

Section Actions.
Import Py TrustCall.





(** X13.  When the model asks for an update while no ticket is found for
    the conversation, the caller gets the error apology; but the update
    statement has then already been run, against the ticket id the model
    named, whenever the action carried something to write. *)
Theorem update_without_ticket env db message thread history an a :
  is_trivial message = false ->
  is_duplicate history message = false ->
  Database.get_ticket_by_thread (backend env) db thread = None ->
  llm env (build_prompt None history message) = Ret an ->
  action an = update_ticket a ->
  outcome (process_message env db message thread history) = Ret apology
  /\ store (process_message env db message thread history)
     = match update_dict a with
       | [] => db
       | updates =>
           snd (Database.update_ticket (backend_at_write env) db
                  (Some (ua_ticket_id a)) updates)
       end.
Proof.
  intros H1 H2 Hget Hllm Hact.
  assert (H3 : threshold_applies env db thread history = false).
  { unfold threshold_applies. by rewrite Hget. }
  rewrite (process_message_past_gate _ _ _ _ _ H1 H2 H3). rewrite Hget.
  unfold analyse_and_act. rewrite Hllm, Hact. unfold _update_ticket.
  destruct (update_dict a) as [|fv u]; [done|].
  destruct (Database.update_ticket _ _ _ _) as [ok db']. done.
Qed.

(** A model that names the ticket of another conversation. *)
Definition stray_update_env : Env := updating_env working_backend.

Lemma update_without_ticket_witness :
  outcome (process_message stray_update_env [sample_ticket]
             "Please add my phone number +1 555 0100" "thread_9" []) = Ret apology
  /\ store (process_message stray_update_env [sample_ticket]
              "Please add my phone number +1 555 0100" "thread_9" [])
     = match update_dict {| ua_ticket_id := "TCK-20240101-0A1B2C";
                            ua_passenger_phone := Some "+1 555 0100";
                            ua_passenger_email := None;
                            ua_flight_number := None;
                            ua_complaint_update := None;
                            ua_corrections := None |} with
       | [] => [sample_ticket]
       | updates =>
           snd (Database.update_ticket (backend_at_write stray_update_env) [sample_ticket]
                  (Some "TCK-20240101-0A1B2C") updates)
       end.
Proof.
  apply (update_without_ticket stray_update_env [sample_ticket]
           "Please add my phone number +1 555 0100" "thread_9" []
           {| situation_summary := "Passenger adds a phone number";
              has_complaint := true;
              is_trivial_response := false;
              extracted_info := john;
              action := update_ticket
                          {| ua_ticket_id := "TCK-20240101-0A1B2C";
                             ua_passenger_phone := Some "+1 555 0100";
                             ua_passenger_email := None;
                             ua_flight_number := None;
                             ua_complaint_update := None;
                             ua_corrections := None |} |});
    reflexivity.
Defined.

(** On that input the ticket of conversation thread_1 gets the phone
    number sent on conversation thread_9. *)
Example stray_update_is_written :
  Database.passenger_phone
    <$> store (process_message stray_update_env [sample_ticket]
                 "Please add my phone number +1 555 0100" "thread_9" [])
  = [Some "+1 555 0100"].
Proof. vm_compute. reflexivity. Qed.

(** X14.  When the model asks for missing information, nothing is written.
    With at least one field named the status is "awaiting_information" and
    the fields are handed back as they came; with no field named the
    formatting raises and the caller gets the error apology. *)
Theorem request_info_result env db message thread history an a :
  is_trivial message = false ->
  is_duplicate history message = false ->
  threshold_applies env db thread history = false ->
  llm env (build_prompt (Database.get_ticket_by_thread (backend env) db thread)
                        history message) = Ret an ->
  action an = request_info a ->
  store (process_message env db message thread history) = db
  /\ match ra_missing_fields a with
     | [] => outcome (process_message env db message thread history) = Ret apology
     | missing =>
         exists r,
           outcome (process_message env db message thread history) = Ret r
           /\ status r = "awaiting_information"
           /\ missing_fields r = Some missing
           /\ ticket_id r = None
     end.
Proof.
  intros H1 H2 H3 Hllm Hact.
  rewrite (process_message_past_gate _ _ _ _ _ H1 H2 H3).
  unfold analyse_and_act. rewrite Hllm, Hact. cbn [fst snd store outcome].
  split; [done|]. unfold _request_info.
  destruct (ra_missing_fields a) as [|m0 [|m1 [|m2 ms]]]; cbn; eauto 10.
Qed.

Definition asking_env (missing : list string) : Env :=
  {| backend := working_backend;
     backend_at_write := working_backend;
     clock := late_evening;
     uuid := sample_uuid;
     llm := fun _ =>
       Ret {| situation_summary := "Complaint without contact details";
              has_complaint := true;
              is_trivial_response := false;
              extracted_info := john;
              action := request_info {| ra_missing_fields := missing;
                                        ra_current_info := john |} |} |}.

Lemma request_info_result_witness :
  store (process_message (asking_env []) [] "My flight was cancelled" "thread_3" []) = []
  /\ outcome (process_message (asking_env []) [] "My flight was cancelled" "thread_3" [])
     = Ret apology.
Proof.
  apply (request_info_result (asking_env []) [] "My flight was cancelled" "thread_3" []
           {| situation_summary := "Complaint without contact details";
              has_complaint := true;
              is_trivial_response := false;
              extracted_info := john;
              action := request_info {| ra_missing_fields := [];
                                        ra_current_info := john |} |}
           {| ra_missing_fields := []; ra_current_info := john |});
    reflexivity.
Defined.

(** The text that asks for one, two and three fields. *)
Example request_info_texts :
  (response <$> [ _request_info {| ra_missing_fields := ["name"]; ra_current_info := john |};
                  _request_info {| ra_missing_fields := ["name"; "email"];
                                   ra_current_info := john |};
                  _request_info {| ra_missing_fields := ["name"; "email"; "complaint"];
                                   ra_current_info := john |} ]
                ≫= (fun x => match x with Ret r => [r] | Raise _ => [] end))
  = [ text ["To process your complaint, I'll need name."; "";
            "Could you please provide these details so I can create a ticket for you?"];
      text ["To process your complaint, I'll need name and email."; "";
            "Could you please provide these details so I can create a ticket for you?"];
      text ["To process your complaint, I'll need name, email, and complaint."; "";
            "Could you please provide these details so I can create a ticket for you?"] ].
Proof. vm_compute. reflexivity. Qed.

End Actions.

(** ** Properties of the complaint endpoint *)

Section Endpoint.
Import Py TrustCall Api.

Lemma slice_last_two {A} n (l : list A) a b :
  2 <= n -> slice_last n (l ++ [a; b]) = (slice_last (n - 2) l ++ [a; b])%list.
Proof.
  intros Hn. unfold slice_last. rewrite length_app. cbn [length].
  replace (length l + 2 - n) with (length l - (n - 2)) by lia.
  apply drop_app_le. lia.
Qed.

(** After an answered request the stored history of its conversation
    ends with the message and the reply. *)
Lemma process_complaint_last_turns srv c :
  exists r older,
    fst (process_complaint srv c) = Ret r
    /\ history_of (snd (process_complaint srv c)) (thread_of c)
       = (older ++ [user_turn (message (request c)); assistant_turn (response r)])%list
    /\ db (snd (process_complaint srv c))
       = store (process_message (env c) (db srv) (message (request c)) (thread_of c)
                  (history_of srv (thread_of c))).
Proof.
  unfold process_complaint, history_of.
  destruct (process_message_returns (env c) (db srv) (message (request c)) (thread_of c)
              (default [] (conversation_store srv !! thread_of c))) as [res ->].
  cbn. eexists _, _. split; [reflexivity|]. split; [|reflexivity].
  rewrite lookup_insert_eq. cbn. rewrite <- app_assoc. cbn.
  by rewrite slice_last_two by lia.
Qed.

Lemma last_user_msg_after older m reply :
  last_user_msg (older ++ [user_turn m; assistant_turn reply]) = Some (strip (lower m)).
Proof. unfold last_user_msg. rewrite rev_app_distr. reflexivity. Qed.

(** X15.  A message sent twice in a row on one conversation is answered
    the second time with status "duplicate_message", without a call of the
    model and without a store write, unless it is a trivial acknowledgment
    or blank. *)
Theorem repeated_message_is_duplicate srv c1 c2 :
  thread_of c2 = thread_of c1 ->
  message (request c2) = message (request c1) ->
  is_trivial (message (request c1)) = false ->
  strip (lower (message (request c1))) <> "" ->
  exists r,
    fst (process_complaint (snd (process_complaint srv c1)) c2) = Ret r
    /\ Api.status r = "duplicate_message"
    /\ Api.ticket_id r = None
    /\ db (snd (process_complaint (snd (process_complaint srv c1)) c2))
       = db (snd (process_complaint srv c1)).
Proof.
  intros Hth Hmsg Htriv Hblank.
  destruct (process_complaint_last_turns srv c1) as (r1 & older & _ & Hhist & _).
  set (srv1 := snd (process_complaint srv c1)) in *.
  assert (Hrun : process_message (env c2) (db srv1) (message (request c2)) (thread_of c2)
                   (history_of srv1 (thread_of c2))
                 = {| outcome :=
                        Ret {| TrustCall.response := "I've already received this message. Is there anything else you'd like to add?";
                               TrustCall.status := "duplicate_message";
                               TrustCall.ticket_id := None;
                               TrustCall.missing_fields := None |};
                      store := db srv1;
                      port_calls := [] |}).
  { rewrite Hth, Hmsg, Hhist. unfold process_message.
    unfold is_trivial in Htriv. rewrite Htriv, last_user_msg_after.
    rewrite String.eqb_refl, andb_true_r.
    destruct (strip (lower (message (request c1)))); [done|reflexivity]. }
  unfold process_complaint. fold (history_of srv1 (thread_of c2)). rewrite Hrun.
  cbn. eexists. split; [reflexivity|]. done.
Qed.

Definition flight_delayed (msg : string) : Call :=
  {| env := failing_env;
     thread_uuid := 0;
     request := {| message := msg; thread_id := Some "thread_5" |} |}.

Lemma repeated_message_is_duplicate_witness :
  exists r,
    fst (process_complaint (snd (process_complaint fresh (flight_delayed "Flight AA123 delayed")))
                           (flight_delayed "Flight AA123 delayed")) = Ret r
    /\ Api.status r = "duplicate_message"
    /\ Api.ticket_id r = None
    /\ db (snd (process_complaint
                  (snd (process_complaint fresh (flight_delayed "Flight AA123 delayed")))
                  (flight_delayed "Flight AA123 delayed")))
       = db (snd (process_complaint fresh (flight_delayed "Flight AA123 delayed"))).
Proof.
  apply (repeated_message_is_duplicate fresh (flight_delayed "Flight AA123 delayed")
           (flight_delayed "Flight AA123 delayed")).
  - reflexivity.
  - reflexivity.
  - vm_compute. reflexivity.
  - vm_compute. discriminate.
Defined.

(** The duplicate test ignores case and outer whitespace. *)
Example duplicate_ignores_case :
  Api.status
    <$> match fst (process_complaint
                     (snd (process_complaint fresh (flight_delayed "Flight AA123 delayed")))
                     (flight_delayed "  flight aa123 DELAYED ")) with
        | Ret r => Some r
        | Raise _ => None
        end
  = Some "duplicate_message".
Proof. vm_compute. reflexivity. Qed.

Lemma analyse_and_act_status env db prompt thread existing :
  In (TrustCall.status (try_except (fst (analyse_and_act env db prompt thread existing))
                         (fun _ => apology)))
     action_statuses.
Proof.
  unfold analyse_and_act, action_statuses.
  destruct (llm env prompt) as [e|an]; cbn; [tauto|].
  destruct (action an) as [a|a|a|a].
  - destruct (_create_ticket_result env db a thread) as [(H & _)|(H & _)];
      destruct (_create_ticket env db a thread); cbn in *; rewrite H; tauto.
  - destruct (_update_ticket_result env db a existing) as [_ H].
    destruct (_update_ticket _ _ _ _) as [[e|r] db']; cbn in *; [tauto|].
    destruct H as [[<-|[<-|[]]] _]; tauto.
  - unfold _request_info. cbn.
    destruct (ra_missing_fields a) as [|m0 [|m1 [|m2 ms]]]; cbn; tauto.
  - cbn. tauto.
Qed.

Lemma process_message_without_threshold env db message thread history :
  threshold_applies env db thread history = false ->
  exists r, outcome (process_message env db message thread history) = Ret r
            /\ TrustCall.status r <> "ticket_exists".
Proof.
  intros H3.
  destruct (is_trivial message) eqn:H1.
  { unfold process_message. unfold is_trivial in H1. rewrite H1.
    destruct (Database.get_ticket_by_thread _ _ _); eexists; (split; [reflexivity|done]). }
  destruct (is_duplicate history message) eqn:H2.
  { unfold process_message. unfold is_trivial in H1. unfold is_duplicate in H2.
    rewrite H1, H2. eexists; (split; [reflexivity|done]). }
  rewrite (process_message_past_gate _ _ _ _ _ H1 H2 H3). cbn [outcome].
  eexists. split; [reflexivity|].
  pose proof (analyse_and_act_status env db
                (build_prompt (Database.get_ticket_by_thread (backend env) db thread)
                              history message)
                thread (Database.get_ticket_by_thread (backend env) db thread)) as Hin.
  intros Heq. rewrite Heq in Hin. unfold action_statuses in Hin. cbn in Hin.
  intuition discriminate.
Qed.

(** X16.  Behind the endpoint the threshold rule never answers: the
    history kept for a conversation holds at most ten user turns, and no
    response of [POST /api/v2/complaint] has status "ticket_exists",
    however many messages the conversation has had. *)
Theorem endpoint_never_ticket_exists (tickets : list Database.Ticket)
    (calls : list Call) (c : Call) :
  let srv := serve {| db := tickets; conversation_store := ∅ |} calls in
  message_count (history_of srv (thread_of c)) <= 10
  /\ exists r, fst (process_complaint srv c) = Ret r
               /\ Api.status r <> "ticket_exists".
Proof.
  intros srv.
  destruct (endpoint_history_user_turns tickets calls (thread_of c)) as [Hle Hltb].
  fold srv in Hle, Hltb. split; [exact Hle|].
  assert (H3 : threshold_applies (env c) (db srv) (thread_of c)
                 (history_of srv (thread_of c)) = false).
  { unfold threshold_applies. destruct (Database.get_ticket_by_thread _ _ _); [|done].
    by rewrite Hltb, andb_false_r. }
  destruct (process_message_without_threshold (env c) (db srv) (message (request c))
              (thread_of c) (history_of srv (thread_of c)) H3) as (r & Hr & Hst).
  unfold process_complaint. fold (history_of srv (thread_of c)). rewrite Hr.
  cbn. eexists. split; [reflexivity|exact Hst].
Qed.

(** The same holds of a ticket table with an open ticket and a
    conversation of thirteen requests. *)
Example thirteen_requests_then_one_more :
  Api.status
    <$> match fst (process_complaint
                     (serve {| db := [sample_ticket]; conversation_store := ∅ |}
                        (map (fun k => {| env := failing_env; thread_uuid := 0;
                                          request := {| message := "Message " +:+ String (ascii_of_nat (65 + k)) "";
                                                        thread_id := Some "thread_1" |} |})
                             (seq 0 13)))
                     {| env := failing_env; thread_uuid := 0;
                        request := {| message := "Is anybody there?";
                                      thread_id := Some "thread_1" |} |}) with
        | Ret r => Some r
        | Raise _ => None
        end
  = Some "error".
Proof. vm_compute. reflexivity. Qed.

End Endpoint.

(** ** Normalization of messages *)

Section Normalization.
Import Py TrustCall.

(** Whitespace only. *)
Definition blank (s : string) : Prop := all_chars isspace s = true.

Lemma lower_char_idem c : lower_char (lower_char c) = lower_char c.
Proof. destruct c as [[] [] [] [] [] [] [] []]; reflexivity. Qed.

Lemma isspace_lower_char c : isspace (lower_char c) = isspace c.
Proof. destruct c as [[] [] [] [] [] [] [] []]; reflexivity. Qed.

Lemma lower_idem s : lower (lower s) = lower s.
Proof. induction s as [|c s IH]; cbn; [done|]. by rewrite lower_char_idem, IH. Qed.

Lemma lower_app s1 s2 : lower (s1 +:+ s2) = lower s1 +:+ lower s2.
Proof. induction s1 as [|c s1 IH]; [done|]. rewrite app_cons. cbn. by rewrite IH. Qed.

Lemma lower_blank s : blank s -> blank (lower s).
Proof.
  unfold blank. induction s as [|c s IH]; cbn; [done|].
  rewrite isspace_lower_char, !andb_true_iff. intros [Hc Hs]. by split; [|apply IH].
Qed.

Lemma lower_lstrip s : lower (lstrip s) = lstrip (lower s).
Proof.
  induction s as [|c s IH]; cbn; [done|].
  rewrite isspace_lower_char. by destruct (isspace c).
Qed.

Lemma lower_rstrip s : lower (rstrip s) = rstrip (lower s).
Proof.
  induction s as [|c s IH]; cbn; [done|].
  rewrite <- IH, isspace_lower_char.
  destruct (rstrip s); cbn; [by destruct (isspace c)|done].
Qed.

Lemma lstrip_blank ws : blank ws -> lstrip ws = "".
Proof.
  unfold blank. induction ws as [|c ws IH]; cbn; [done|].
  rewrite andb_true_iff. intros [-> Hs]. by apply IH.
Qed.

Lemma rstrip_blank ws : blank ws -> rstrip ws = "".
Proof.
  unfold blank. induction ws as [|c ws IH]; cbn; [done|].
  rewrite andb_true_iff. intros [-> Hs]. by rewrite IH.
Qed.

Lemma lstrip_blank_app ws s : blank ws -> lstrip (ws +:+ s) = lstrip s.
Proof.
  unfold blank. induction ws as [|c ws IH]; [done|].
  rewrite app_cons. cbn. rewrite andb_true_iff. intros [-> Hs]. by apply IH.
Qed.

Lemma rstrip_app_blank s ws : blank ws -> rstrip (s +:+ ws) = rstrip s.
Proof.
  intros Hws. induction s as [|c s IH]; [by apply rstrip_blank|].
  rewrite app_cons. cbn. by rewrite IH.
Qed.

Lemma strip_app_blank s ws : blank ws -> strip (s +:+ ws) = strip s.
Proof.
  intros Hws. unfold strip. induction s as [|c s IH].
  - change (EmptyString +:+ ws) with ws. by rewrite (lstrip_blank ws Hws).
  - rewrite app_cons. cbn. destruct (isspace c); [exact IH|].
    rewrite <- app_cons. by apply rstrip_app_blank.
Qed.

Lemma rstrip_idem s : rstrip (rstrip s) = rstrip s.
Proof.
  induction s as [|c s IH]; cbn; [done|].
  destruct (rstrip s) as [|c' r'] eqn:Hr.
  - destruct (isspace c) eqn:Hc; cbn; [done|]. by rewrite Hc.
  - cbn. cbn in IH. by rewrite IH.
Qed.

Lemma lstrip_rstrip_lstrip s : lstrip (rstrip (lstrip s)) = rstrip (lstrip s).
Proof.
  induction s as [|c s IH]; cbn; [done|].
  destruct (isspace c) eqn:Hc; [exact IH|].
  cbn. destruct (rstrip s); rewrite ?Hc; cbn; by rewrite ?Hc.
Qed.

Lemma strip_idem s : strip (strip s) = strip s.
Proof. unfold strip. by rewrite lstrip_rstrip_lstrip, rstrip_idem. Qed.

Lemma lower_strip s : lower (strip s) = strip (lower s).
Proof. unfold strip. by rewrite lower_rstrip, lower_lstrip. Qed.

(** X17.  What the gate compares is [message.lower().strip()].  Taking it
    twice gives the same text, and whitespace around a message does not
    change it; so the gate decides alike for a message, for its normal form
    and for the message with whitespace around it. *)
Theorem normalization_is_stable (message ws ws' : string) (history : list Turn) :
  blank ws -> blank ws' ->
  strip (lower (strip (lower message))) = strip (lower message)
  /\ strip (lower (ws +:+ message +:+ ws')) = strip (lower message)
  /\ is_trivial (ws +:+ message +:+ ws') = is_trivial message
  /\ is_duplicate history (ws +:+ message +:+ ws') = is_duplicate history message
  /\ is_trivial (strip (lower message)) = is_trivial message
  /\ is_duplicate history (strip (lower message)) = is_duplicate history message.
Proof.
  intros Hws Hws'.
  assert (H1 : strip (lower (strip (lower message))) = strip (lower message)).
  { by rewrite lower_strip, lower_idem, strip_idem. }
  assert (H2 : strip (lower (ws +:+ message +:+ ws')) = strip (lower message)).
  { rewrite !lower_app. unfold strip at 1.
    rewrite lstrip_blank_app by (by apply lower_blank).
    fold (strip (lower message +:+ lower ws')).
    apply strip_app_blank. by apply lower_blank. }
  unfold is_trivial, is_duplicate. rewrite H1, H2. done.
Qed.

Lemma normalization_is_stable_witness :
  strip (lower (strip (lower "Flight AA123 Delayed")))
  = strip (lower "Flight AA123 Delayed")
  /\ strip (lower ("  " +:+ "Flight AA123 Delayed" +:+ " "))
     = strip (lower "Flight AA123 Delayed")
  /\ is_trivial ("  " +:+ "Flight AA123 Delayed" +:+ " ") = is_trivial "Flight AA123 Delayed"
  /\ is_duplicate eleven_exchanges ("  " +:+ "Flight AA123 Delayed" +:+ " ")
     = is_duplicate eleven_exchanges "Flight AA123 Delayed"
  /\ is_trivial (strip (lower "Flight AA123 Delayed")) = is_trivial "Flight AA123 Delayed"
  /\ is_duplicate eleven_exchanges (strip (lower "Flight AA123 Delayed"))
     = is_duplicate eleven_exchanges "Flight AA123 Delayed".
Proof.
  apply (normalization_is_stable "Flight AA123 Delayed" "  " " " eleven_exchanges);
    reflexivity.
Defined.

End Normalization.

(** ** Conversation ids and what holds of every reachable state *)

Section Reachable.
Import Py TrustCall Api.

(** [0-9a-f] *)
Definition is_lower_hex (c : ascii) : bool :=
  in_range 48 57 (N_of_ascii c) || in_range 97 102 (N_of_ascii c).

Lemma hex_digit_lower d : (d < 16)%N -> is_lower_hex (Runtime.hex_digit d) = true.
Proof.
  intros Hd. replace d with (N.of_nat (N.to_nat d)) by lia.
  assert (Hn : N.to_nat d < 16) by lia.
  generalize dependent (N.to_nat d). intros n Hn.
  do 16 (destruct n as [|n]; [reflexivity|]). lia.
Qed.

Lemma hex_digits_lower k u : all_chars is_lower_hex (Runtime.hex_digits k u) = true.
Proof.
  induction k as [|k IH]; [done|].
  cbn [Runtime.hex_digits all_chars]. rewrite IH, andb_true_r.
  apply hex_digit_lower. apply N.mod_lt. lia.
Qed.

(** X18.  The conversation id of a request is the one it names, when that
    is not empty, and otherwise "thread_" followed by eight characters of
    [0-9a-f] taken from a fresh uuid4; the response carries that id, and
    the memory holds a history under it afterwards. *)
Theorem conversation_id_of_request srv c :
  (if truthy (Api.thread_id (request c))
   then Api.thread_id (request c) = Some (thread_of c)
   else exists suffix,
       thread_of c = "thread_" +:+ suffix
       /\ String.length suffix = 8
       /\ all_chars is_lower_hex suffix = true)
  /\ exists r,
      fst (process_complaint srv c) = Ret r
      /\ resp_thread_id r = thread_of c
      /\ history_of (snd (process_complaint srv c)) (thread_of c) <> [].
Proof.
  split.
  - unfold thread_of, or_else, truthy.
    assert (Hgen : exists suffix,
               "thread_" +:+ Runtime.prefix 8 (Runtime.uuid_hex (thread_uuid c))
               = "thread_" +:+ suffix
               /\ String.length suffix = 8 /\ all_chars is_lower_hex suffix = true).
    { eexists. split; [reflexivity|]. unfold Runtime.uuid_hex. split.
      - apply prefix_length. rewrite hex_digits_length. lia.
      - apply all_chars_prefix, hex_digits_lower. }
    destruct (Api.thread_id (request c)) as [s|]; [|exact Hgen].
    destruct (bool_of_str s); [done|exact Hgen].
  - destruct (process_complaint_last_turns srv c) as (r & older & Hr & Hhist & _).
    exists r. split; [exact Hr|]. split.
    + unfold process_complaint in Hr. destruct (outcome _); [discriminate|].
      cbn in Hr. by injection Hr as <-.
    + rewrite Hhist. by destruct older.
Qed.

Lemma analyse_and_act_keys_unique env db prompt thread existing :
  keys_unique db -> keys_unique (snd (analyse_and_act env db prompt thread existing)).
Proof.
  intros Hk. unfold analyse_and_act.
  destruct (llm env prompt) as [e|an]; [exact Hk|].
  destruct (action an) as [a|a|a|a]; try exact Hk.
  - unfold _create_ticket.
    match goal with
    | |- context [Database.create_ticket ?be ?db ?d] =>
        pose proof (create_ticket_keys_unique be db d Hk) as Hc;
        destruct (Database.create_ticket be db d) as [ok db']
    end.
    exact Hc.
  - rewrite _update_ticket_store. destruct (update_dict a); [exact Hk|].
    by apply update_ticket_keys_unique.
Qed.

Lemma process_message_keys_unique env db message thread history :
  keys_unique db -> keys_unique (store (process_message env db message thread history)).
Proof.
  intros Hk.
  destruct (is_trivial message || is_duplicate history message
            || threshold_applies env db thread history) eqn:Hg.
  - destruct (process_message_in_gate _ _ _ _ _ Hg) as (_ & -> & _). exact Hk.
  - apply orb_false_iff in Hg as [Hg H3]. apply orb_false_iff in Hg as [H1 H2].
    rewrite (process_message_past_gate _ _ _ _ _ H1 H2 H3). cbn [store].
    by apply analyse_and_act_keys_unique.
Qed.

Lemma serve_keys_unique calls : forall srv,
  keys_unique (db srv) -> keys_unique (db (serve srv calls)).
Proof.
  induction calls as [|c rest IH]; intros srv Hk; [exact Hk|].
  cbn [serve fold_left]. apply IH.
  destruct (process_complaint_last_turns srv c) as (_ & _ & _ & _ & ->).
  by apply process_message_keys_unique.
Qed.

Lemma one_per_thread db th :
  NoDup (omap Database.thread_id db) ->
  length (List.filter (Database.same_thread th) db) <= 1.
Proof.
  induction db as [|t db IH]; cbn; [lia|].
  unfold Database.same_thread at 1.
  destruct (Database.thread_id t) as [th'|] eqn:Ht; cbn; [|exact IH].
  intros Hnd. apply NoDup_cons in Hnd as [Hnotin Hnd].
  destruct (String.eqb_spec th' th) as [->|Hne]; [|by apply IH].
  cbn. assert (List.filter (Database.same_thread th) db = []) as ->; [|cbn; lia].
  destruct (List.filter (Database.same_thread th) db) as [|u l] eqn:Hf; [done|].
  exfalso. apply Hnotin.
  assert (Hu : In u (List.filter (Database.same_thread th) db)) by (rewrite Hf; by left).
  apply List.filter_In in Hu as [Hin Hsame].
  apply list_elem_of_omap. exists u. split; [by apply list_elem_of_In|].
  unfold Database.same_thread in Hsame.
  destruct (Database.thread_id u) as [thu|]; [|discriminate].
  by apply String.eqb_eq in Hsame as ->.
Qed.

(** X19.  Requests to the complaint endpoint keep the table's keys unique:
    from a table in which no two tickets share an id or a conversation,
    after any requests no two do, so that a conversation never has more
    than one ticket. *)
Theorem one_ticket_per_conversation srv calls :
  keys_unique (db srv) ->
  keys_unique (db (serve srv calls))
  /\ forall th, length (List.filter (Database.same_thread th) (db (serve srv calls))) <= 1.
Proof.
  intros Hk. pose proof (serve_keys_unique calls srv Hk) as Hk'.
  split; [exact Hk'|]. intros th. apply one_per_thread. by destruct Hk'.
Qed.

(** A request after which the model asks for a ticket to be created. *)
Definition creating_call (thread message : string) (u : N) : Call :=
  {| env := {| backend := working_backend;
               backend_at_write := working_backend;
               clock := late_evening;
               uuid := u;
               llm := llm (creating_env working_backend) |};
     thread_uuid := 0;
     request := {| message := message; thread_id := Some thread |} |}.

(** A model that answers with an update action that carries corrections
    only. *)
Definition correcting_env (tid : string) (corrections : list (string * string)) : Env :=
  {| backend := working_backend;
     backend_at_write := working_backend;
     clock := late_evening;
     uuid := sample_uuid;
     llm := fun _ =>
       Ret {| situation_summary := "Passenger corrects a detail";
              has_complaint := true;
              is_trivial_response := false;
              extracted_info := john;
              action := update_ticket
                          {| ua_ticket_id := tid;
                             ua_passenger_phone := None;
                             ua_passenger_email := None;
                             ua_flight_number := None;
                             ua_complaint_update := None;
                             ua_corrections := Some corrections |} |} |}.

Definition correcting_call (thread message tid : string)
    (corrections : list (string * string)) : Call :=
  {| env := correcting_env tid corrections;
     thread_uuid := 0;
     request := {| message := message; thread_id := Some thread |} |}.

(** A complaint on conversation thread_a, a second attempt to create a
    ticket there, a complaint on thread_b, and a correction that would give
    the ticket of thread_a the conversation of the other. *)
Definition four_writes : list Call :=
  [creating_call "thread_a" "I am John Doe, john@example.com. Flight AA123 lost my luggage!"
     sample_uuid;
   creating_call "thread_a" "My luggage is still missing, please open a case"
     (sample_uuid + 2 ^ 124);
   creating_call "thread_b" "I am John Doe, john@example.com. Flight AA123 was late"
     (sample_uuid + 2 ^ 125);
   correcting_call "thread_a" "Please file this under my other conversation"
     "TCK-20240102-0A1B2C" [("Thread_ID", "thread_b")]].

Lemma one_ticket_per_conversation_witness :
  keys_unique (db (serve fresh four_writes))
  /\ forall th,
      length (List.filter (Database.same_thread th) (db (serve fresh four_writes))) <= 1.
Proof.
  apply (one_ticket_per_conversation fresh four_writes).
  split; cbn; apply NoDup_nil_2.
Defined.

(** The statuses that a sequence of requests is answered with. *)
Fixpoint statuses (srv : Server) (calls : list Call) : list string :=
  match calls with
  | [] => []
  | c :: rest =>
      match fst (process_complaint srv c) with
      | Ret r => Api.status r
      | Raise _ => "HTTP 500"
      end :: statuses (snd (process_complaint srv c)) rest
  end.

(** Of these four requests the second and the fourth reach the store and
    are refused by the table: two tickets are stored, and each conversation
    keeps its own. *)
Example four_writes_store_two :
  statuses fresh four_writes = ["ticket_created"; "error"; "ticket_created"; "ticket_updated"]
  /\ (Database.ticket_id <$> db (serve fresh four_writes))
     = ["TCK-20240102-0A1B2C"; "TCK-20240102-2A1B2C"]
  /\ (Database.thread_id <$> db (serve fresh four_writes))
     = [Some "thread_a"; Some "thread_b"].
Proof. vm_compute. repeat split. Qed.

(** ** Corrections that name a key of the table *)

Lemma fold_identifier_length s :
  String.length (Database.fold_identifier s) = String.length s.
Proof. induction s as [|c s IH]; cbn; [done|]. by rewrite IH. Qed.

Lemma lower_length s : String.length (lower s) = String.length s.
Proof. induction s as [|c s IH]; cbn; [done|]. by rewrite IH. Qed.

Lemma target_of_thread_id f :
  Database.target_of f = Some Database.t_thread_id ->
  Database.fold_identifier f = "thread_id".
Proof.
  unfold Database.target_of. cbn zeta.
  destruct (String.eqb_spec (Database.fold_identifier f) "ticket_id"); [discriminate|].
  destruct (String.eqb_spec (Database.fold_identifier f) "thread_id"); [done|].
  destruct (String.eqb (Database.fold_identifier f) "created_at"); [discriminate|].
  destruct (String.eqb (Database.fold_identifier f) "updated_at"); [discriminate|].
  destruct (Database.column_of f); discriminate.
Qed.

(** A key that the server reads as [thread_id] is not one of the three
    short names of [field_map]: it reaches the store as it was written. *)
Lemma field_map_get_thread_id f :
  Database.target_of f = Some Database.t_thread_id ->
  field_map_get (lower f) f = f.
Proof.
  intros Ht. apply target_of_thread_id in Ht.
  assert (Hlen : String.length (lower f) = 9).
  { rewrite lower_length, <- fold_identifier_length, Ht. reflexivity. }
  unfold field_map_get.
  repeat (match goal with
          | |- context [String.eqb (lower f) ?s] =>
              destruct (String.eqb_spec (lower f) s) as [Heq|_];
              [rewrite Heq in Hlen; discriminate Hlen|]
          end).
  reflexivity.
Qed.

Lemma find_unique {A} (P : A -> bool) (l : list A) x :
  In x l -> P x = true -> (forall y, In y l -> P y = true -> y = x) ->
  List.find P l = Some x.
Proof.
  induction l as [|a l IH]; intros Hin Hx Huniq; [destruct Hin|].
  cbn. destruct (P a) eqn:Ha.
  - f_equal. apply Huniq; [by left|done].
  - destruct Hin as [->|Hin]; [congruence|].
    apply IH; [done|done|]. intros y Hy. apply Huniq. by right.
Qed.

(** The row that [UPDATE ... SET thread_id = th' WHERE ticket_id = ...]
    leaves. *)
Definition moved (be : Database.Backend) (th' : string) (t : Database.Ticket)
  : Database.Ticket :=
  Database.touch (Database.current_timestamp be)
    (Database.apply_assignment (Database.set_thread_id (Some th')) t).

Lemma update_thread_key be db t f th' :
  Database.ignored_key f = false ->
  Database.target_of f = Some Database.t_thread_id ->
  Database.connects be = true -> Database.executes be = true ->
  (forall u, In u db -> Database.thread_id u <> Some th') ->
  Database.update_ticket be db (Some (Database.ticket_id t)) [(f, Some th')]
  = (true, map (fun u => if String.eqb (Database.ticket_id u) (Database.ticket_id t)
                         then moved be th' u else u) db).
Proof.
  intros Hig Ht Hcon Hex Hfree.
  unfold Database.update_ticket, Database.update_ticket_body, Database._get_connection,
    Database.update_fields.
  rewrite Hcon. cbn [bind List.filter fst]. rewrite Hig. cbn [negb].
  unfold Database.update_rows. rewrite Hex. cbn [negb].
  unfold Database.set_list, Database.assignment_of. rewrite Ht. cbn [bind].
  rewrite bool_decide_eq_true_2 by (cbn; apply NoDup_singleton). cbn [negb].
  assert (Hv : Database.violates [Database.set_thread_id (Some th')]
                 (List.filter
                    (fun u => negb (Database.where_ticket_id (Some (Database.ticket_id t)) u))
                    db) = false).
  { cbn. rewrite orb_false_r.
    destruct (existsb _ _) eqn:He; [|done].
    apply existsb_exists in He as (u & Hu & Hsame).
    apply List.filter_In in Hu as [Hu _]. exfalso. apply (Hfree u Hu).
    unfold Database.same_thread in Hsame.
    destruct (Database.thread_id u) as [th|]; [|discriminate].
    by apply String.eqb_eq in Hsame as ->. }
  rewrite Hv, andb_false_r. reflexivity.
Qed.

(** X20.  The filter of [update_ticket] drops the key [thread_id] only in
    that spelling, and a key of [corrections] keeps its capitals: when the
    model answers with an update action whose only content is a correction
    under a key that the server reads as [thread_id] (Thread_ID, say), the
    ticket is moved to the conversation that the correction names.  The
    status is "ticket_updated"; afterwards the ticket is found under the new
    conversation, with its id and its data as they were, and no ticket is
    found under the conversation of the message. *)
Theorem correction_moves_ticket env db message thread history an a t f th' be' :
  is_trivial message = false ->
  is_duplicate history message = false ->
  threshold_applies env db thread history = false ->
  Database.get_ticket_by_thread (backend env) db thread = Some t ->
  llm env (build_prompt (Some t) history message) = Ret an ->
  action an = update_ticket a ->
  ua_ticket_id a = Database.ticket_id t ->
  truthy (ua_passenger_phone a) = false ->
  truthy (ua_passenger_email a) = false ->
  truthy (ua_flight_number a) = false ->
  truthy (ua_complaint_update a) = false ->
  ua_corrections a = Some [(f, th')] ->
  Database.ignored_key f = false ->
  Database.target_of f = Some Database.t_thread_id ->
  keys_unique db ->
  (forall u, In u db -> Database.thread_id u <> Some th') ->
  Database.connects (backend_at_write env) = true ->
  Database.executes (backend_at_write env) = true ->
  Database.connects be' = true -> Database.executes be' = true ->
  exists r t',
    outcome (process_message env db message thread history) = Ret r
    /\ TrustCall.status r = "ticket_updated"
    /\ Database.get_ticket_by_thread be'
         (store (process_message env db message thread history)) th' = Some t'
    /\ Database.ticket_id t' = Database.ticket_id t
    /\ (forall c, Database.column_value c t' = Database.column_value c t)
    /\ Database.get_ticket_by_thread be'
         (store (process_message env db message thread history)) thread = None.
Proof.
  intros H1 H2 H3 Hget Hllm Hact Hid Hp He Hfl Hc Hcorr Hig Ht [Hids Hths] Hfree
    Hcon Hex Hcon' Hex'.
  destruct (get_ticket_by_thread_found _ _ _ _ Hget) as [Hin Hthread].
  assert (Hdict : update_dict a = [(f, Some th')]).
  { unfold update_dict. rewrite Hp, He, Hfl, Hc, Hcorr. cbn.
    by rewrite (field_map_get_thread_id f Ht). }
  rewrite (process_message_past_gate _ _ _ _ _ H1 H2 H3). rewrite Hget.
  unfold analyse_and_act. rewrite Hllm, Hact. unfold _update_ticket.
  rewrite Hdict, Hid.
  rewrite (update_thread_key (backend_at_write env) db t f th' Hig Ht Hcon Hex Hfree).
  cbn [fst snd bind subscript outcome store try_except].
  set (g := fun u => if String.eqb (Database.ticket_id u) (Database.ticket_id t)
                     then moved (backend_at_write env) th' u else u).
  assert (Hsame_id : forall u, In u db -> Database.ticket_id u = Database.ticket_id t -> u = t).
  { intros u Hu Heq.
    apply (NoDup_omap_inj (fun x => Some (Database.ticket_id x)) db u t (Database.ticket_id t));
      [by rewrite omap_Some_key|done|done|by rewrite Heq|done]. }
  eexists _, (moved (backend_at_write env) th' t).
  split; [reflexivity|]. split; [reflexivity|].
  unfold Database.get_ticket_by_thread, Database._get_connection.
  rewrite Hcon', Hex'. cbn [bind try_except].
  split; [|split; [reflexivity|split; [by intros []|]]].
  - apply find_unique.
    + apply in_map_iff. exists t. split; [|done]. unfold g. by rewrite String.eqb_refl.
    + unfold Database.same_thread, moved. cbn. apply String.eqb_refl.
    + intros y Hy Hsame. apply in_map_iff in Hy as (u & <- & Hu). unfold g in *.
      destruct (String.eqb_spec (Database.ticket_id u) (Database.ticket_id t)) as [Heq|Hne].
      * by rewrite (Hsame_id u Hu Heq).
      * exfalso. apply (Hfree u Hu). unfold Database.same_thread in Hsame.
        destruct (Database.thread_id u) as [th|]; [|discriminate].
        by apply String.eqb_eq in Hsame as ->.
  - apply find_none_existsb.
    destruct (existsb _ _) eqn:Hexi; [|done]. exfalso.
    apply existsb_exists in Hexi as (y & Hy & Hsame).
    apply in_map_iff in Hy as (u & <- & Hu). unfold g in Hsame.
    destruct (String.eqb_spec (Database.ticket_id u) (Database.ticket_id t)) as [Heq|Hne].
    + unfold Database.same_thread, moved in Hsame. cbn in Hsame.
      apply String.eqb_eq in Hsame. subst th'. by apply (Hfree t Hin).
    + unfold Database.same_thread in Hsame.
      destruct (Database.thread_id u) as [th|] eqn:Hu_th; [|discriminate].
      apply String.eqb_eq in Hsame. subst th.
      apply Hne. f_equal.
      by apply (NoDup_omap_inj Database.thread_id db u t thread).
Qed.

Definition moving_action : UpdateTicketAction :=
  {| ua_ticket_id := "TCK-20240101-0A1B2C";
     ua_passenger_phone := None;
     ua_passenger_email := None;
     ua_flight_number := None;
     ua_complaint_update := None;
     ua_corrections := Some [("Thread_ID", "thread_b")] |}.

Lemma correction_moves_ticket_witness :
  exists r t',
    outcome (process_message
               (correcting_env "TCK-20240101-0A1B2C" [("Thread_ID", "thread_b")])
               [sample_ticket] "Please file this under my other conversation"
               "thread_1" []) = Ret r
    /\ TrustCall.status r = "ticket_updated"
    /\ Database.get_ticket_by_thread working_backend
         (store (process_message
                   (correcting_env "TCK-20240101-0A1B2C" [("Thread_ID", "thread_b")])
                   [sample_ticket] "Please file this under my other conversation"
                   "thread_1" [])) "thread_b" = Some t'
    /\ Database.ticket_id t' = Database.ticket_id sample_ticket
    /\ (forall c, Database.column_value c t' = Database.column_value c sample_ticket)
    /\ Database.get_ticket_by_thread working_backend
         (store (process_message
                   (correcting_env "TCK-20240101-0A1B2C" [("Thread_ID", "thread_b")])
                   [sample_ticket] "Please file this under my other conversation"
                   "thread_1" [])) "thread_1" = None.
Proof.
  apply (correction_moves_ticket
           (correcting_env "TCK-20240101-0A1B2C" [("Thread_ID", "thread_b")])
           [sample_ticket] "Please file this under my other conversation" "thread_1" []
           {| situation_summary := "Passenger corrects a detail";
              has_complaint := true;
              is_trivial_response := false;
              extracted_info := john;
              action := update_ticket moving_action |}
           moving_action sample_ticket "Thread_ID" "thread_b" working_backend);
    try reflexivity.
  - split; cbn; apply NoDup_singleton.
  - intros u [<-|[]]. discriminate.
Defined.

(** Through the endpoint, from a start on an empty table: a ticket is
    created on conversation thread_a and then moved by such a correction to
    thread_c, a conversation that never sent a message.  Its first message,
    "OK", is answered "acknowledged". *)
Example ticket_without_history :
  let srv := serve fresh
               [creating_call "thread_a"
                  "I am John Doe, john@example.com. Flight AA123 lost my luggage!" sample_uuid;
                correcting_call "thread_a" "Please file this under my other conversation"
                  "TCK-20240102-0A1B2C" [("Thread_ID", "thread_c")]] in
  history_of srv "thread_c" = []
  /\ (Database.thread_id <$> db srv) = [Some "thread_c"]
  /\ (TrustCall.status
        <$> match outcome (process_message failing_env (db srv) "OK" "thread_c" []) with
            | Ret r => Some r
            | Raise _ => None
            end) = Some "acknowledged".
Proof. vm_compute. repeat split. Qed.

End Reachable.

(** ** Properties of the graph stages *)

Section Graph.
Import Py GraphProcessor.

(** X21.  The merge keeps an empty string as a value: when the new
    extraction carries an empty name, the merged PassengerInfo has the empty
    name whatever was known before, and Decide lists "name" as missing. *)
Theorem empty_extraction_hides_known_name (state : ComplaintState) (A B : PassengerInfo) :
  name B = Some "" ->
  passenger_info state = merge_passenger_info (Some A) (Some B) ->
  (exists M, passenger_info state = Some M /\ name M = Some "")
  /\ In "name" (missing_fields (_decide_action state)).
Proof.
  intros HB Hst. cbn in Hst. rewrite HB in Hst. cbn in Hst.
  split; [eexists; split; [exact Hst|reflexivity]|].
  assert (Hm : missing_fields (_decide_action state) = missing_of state).
  { unfold _decide_action.
    destruct (ticket_exists state); [|destruct (negb _); [|destruct (info_complete state)]];
      reflexivity. }
  rewrite Hm. unfold missing_of. rewrite Hst. cbn.
  destruct (_ && _), (negb _); cbn; tauto.
Qed.

Definition known_john : PassengerInfo :=
  {| name := Some "John Doe"; email := Some "john@example.com"; phone := None;
     flight_number := Some "AA123"; booking_reference := None |}.

Definition blank_name : PassengerInfo :=
  {| name := Some ""; email := None; phone := None;
     flight_number := None; booking_reference := None |}.

Definition merged_state : ComplaintState :=
  {| thread_id := Some "thread_1";
     passenger_info := merge_passenger_info (Some known_john) (Some blank_name);
     original_complaint := Some "Flight AA123 lost my luggage!";
     category := None; priority := None; ticket_id := None; assigned_team := None;
     info_complete := true; missing_fields := []; ticket_exists := false;
     next_action := None; action_type := None; action_result := None |}.

Lemma empty_extraction_hides_known_name_witness :
  (exists M, passenger_info merged_state = Some M /\ name M = Some "")
  /\ In "name" (missing_fields (_decide_action merged_state)).
Proof.
  apply (empty_extraction_hides_known_name merged_state known_john blank_name);
    reflexivity.
Defined.

(** X22.  Without an existing ticket Decide never routes to Execute, and
    it routes to Analyze, the only way to a new ticket, only when the name,
    a contact (email or phone) and the complaint text are all there and the
    extraction marked the information complete. *)
Theorem new_ticket_needs_complete_information (state : ComplaintState) :
  ticket_exists state = false ->
  route_after_decide (_decide_action state) <> Some Execute
  /\ (route_after_decide (_decide_action state) = Some Analyze ->
      info_complete state = true
      /\ truthy (original_complaint state) = true
      /\ exists info, passenger_info state = Some info
                      /\ truthy (name info) = true
                      /\ truthy (email info) || truthy (phone info) = true).
Proof.
  intros Hex.
  assert (Hn : next_action (_decide_action state)
               = Some (if negb (Nat.eqb (length (missing_of state)) 0) then "respond"
                       else if info_complete state then "analyze" else "respond")).
  { unfold _decide_action. rewrite Hex.
    destruct (negb _); [reflexivity|]. destruct (info_complete state); reflexivity. }
  unfold route_after_decide. rewrite Hn.
  destruct (negb (Nat.eqb (length (missing_of state)) 0)) eqn:Hm.
  { split; discriminate. }
  destruct (info_complete state) eqn:Hic; [|split; discriminate].
  split; [discriminate|]. intros _. split; [reflexivity|].
  unfold missing_of in Hm.
  destruct (passenger_info state) as [i|].
  - destruct (truthy (name i)) eqn:H1, (truthy (email i)) eqn:H2,
      (truthy (phone i)) eqn:H3, (truthy (original_complaint state)) eqn:H4;
      try discriminate Hm;
      (split; [reflexivity|]; exists i; rewrite H1, H2, H3; repeat split; reflexivity).
  - destruct (truthy (original_complaint state)); discriminate Hm.
Qed.

Definition complete_state : ComplaintState :=
  {| thread_id := Some "thread_1";
     passenger_info := Some known_john;
     original_complaint := Some "Flight AA123 lost my luggage!";
     category := None; priority := None; ticket_id := None; assigned_team := None;
     info_complete := true; missing_fields := []; ticket_exists := false;
     next_action := None; action_type := None; action_result := None |}.

Lemma new_ticket_needs_complete_information_witness :
  route_after_decide (_decide_action complete_state) <> Some Execute
  /\ (route_after_decide (_decide_action complete_state) = Some Analyze ->
      info_complete complete_state = true
      /\ truthy (original_complaint complete_state) = true
      /\ exists info, passenger_info complete_state = Some info
                      /\ truthy (name info) = true
                      /\ truthy (email info) || truthy (phone info) = true).
Proof.
  apply (new_ticket_needs_complete_information complete_state). reflexivity.
Defined.

(** X23.  On the create path of Execute, when the tag is "ticket_created"
    the table has one more row, the last one: it has the id that the stage
    put into the state, the conversation, complaint and passenger fields of
    the state, status OPEN, and is found by its id afterwards. *)
Theorem execute_create_stores_the_state be be' clock uuid db (state : ComplaintState) :
  ticket_exists state = false ->
  action_result (fst (_execute_action be clock uuid db state)) = Some "ticket_created" ->
  Database.connects be' = true -> Database.executes be' = true ->
  exists t,
    snd (_execute_action be clock uuid db state) = (db ++ [t])%list
    /\ ticket_id (fst (_execute_action be clock uuid db state)) = Some (Database.ticket_id t)
    /\ Database.ticket_id t = Runtime.new_ticket_id clock uuid
    /\ Database.thread_id t = thread_id state
    /\ Database.original_complaint t = original_complaint state
    /\ Database.passenger_name t = passenger_info state ≫= name
    /\ Database.passenger_email t = passenger_info state ≫= email
    /\ Database.passenger_phone t = passenger_info state ≫= phone
    /\ Database.status t = Some "OPEN"
    /\ DatabaseQueries.get_ticket_by_id be' (snd (_execute_action be clock uuid db state))
         (Database.ticket_id t) = Some t.
Proof.
  intros Hex Htag Hcon Hexe. unfold _execute_action in *. rewrite Hex in *.
  match goal with
  | |- context [Database.create_ticket ?be ?db ?d] =>
      destruct (create_ticket_cases be db d) as [(H & _ & _ & Hid & _)|(H & _)];
      rewrite H in *
  end; cbn in Htag; [|discriminate].
  cbn [fst snd]. eexists. split; [reflexivity|].
  repeat (split; [unfold execute_ticket_data; cbn; destruct (passenger_info state);
                  reflexivity|]).
  unfold DatabaseQueries.get_ticket_by_id, Database._get_connection.
  rewrite Hcon, Hexe. cbn.
  apply find_app_new; [exact Hid|]. unfold DatabaseQueries.has_id. cbn.
  apply String.eqb_refl.
Qed.

Lemma execute_create_stores_the_state_witness :
  exists t,
    snd (_execute_action working_backend late_evening sample_uuid [] complete_state)
    = ([] ++ [t])%list
    /\ ticket_id (fst (_execute_action working_backend late_evening sample_uuid []
                         complete_state)) = Some (Database.ticket_id t)
    /\ Database.ticket_id t = Runtime.new_ticket_id late_evening sample_uuid
    /\ Database.thread_id t = thread_id complete_state
    /\ Database.original_complaint t = original_complaint complete_state
    /\ Database.passenger_name t = passenger_info complete_state ≫= name
    /\ Database.passenger_email t = passenger_info complete_state ≫= email
    /\ Database.passenger_phone t = passenger_info complete_state ≫= phone
    /\ Database.status t = Some "OPEN"
    /\ DatabaseQueries.get_ticket_by_id working_backend
         (snd (_execute_action working_backend late_evening sample_uuid [] complete_state))
         (Database.ticket_id t) = Some t.
Proof.
  apply (execute_create_stores_the_state working_backend working_backend late_evening
           sample_uuid [] complete_state); reflexivity.
Defined.

End Graph.


(** ** The randomness in a ticket id *)

Section IdCollisions.
Import Py Runtime.

Lemma digit_of_low (x : N) (n j : nat) :
  j < n ->
  (((x mod 16 ^ N.of_nat n) / 16 ^ N.of_nat j) mod 16 = (x / 16 ^ N.of_nat j) mod 16)%N.
Proof.
  intros Hj.
  assert (Hpow : (16 ^ N.of_nat n = 16 ^ N.of_nat (n - j - 1) * 16 * 16 ^ N.of_nat j)%N).
  { replace n with ((n - j - 1) + 1 + j) at 1 by lia.
    rewrite !Nat2N.inj_add, !N.pow_add_r. reflexivity. }
  assert (Hnz : (16 ^ N.of_nat j <> 0)%N) by (apply N.pow_nonzero; lia).
  rewrite (N.div_mod x (16 ^ N.of_nat n)) at 2 by (apply N.pow_nonzero; lia).
  rewrite Hpow at 2.
  replace (16 ^ N.of_nat (n - j - 1) * 16 * 16 ^ N.of_nat j * (x / 16 ^ N.of_nat n))%N
    with ((x / 16 ^ N.of_nat n) * 16 ^ N.of_nat (n - j - 1) * 16 * 16 ^ N.of_nat j)%N by lia.
  rewrite N.div_add_l by exact Hnz.
  rewrite N.add_comm, N.Div0.mod_add. reflexivity.
Qed.

Lemma hex_digits_low (j n : nat) (x : N) :
  j <= n -> hex_digits j (x mod 16 ^ N.of_nat n) = hex_digits j x.
Proof.
  induction j as [|j IH]; intros Hj; [done|].
  cbn [hex_digits]. rewrite IH by lia. by rewrite digit_of_low by lia.
Qed.

Lemma hex_digits_high (j m : nat) (u : N) :
  prefix j (hex_digits (j + m) u) = hex_digits j (u / 16 ^ N.of_nat m).
Proof.
  unfold prefix. induction j as [|j IH].
  - cbn. by destruct (hex_digits m u).
  - cbn [Nat.add hex_digits String.substring]. rewrite IH. f_equal. f_equal.
    rewrite N.Div0.div_div, <- N.pow_add_r, <- Nat2N.inj_add.
    by replace (m + j) with (j + m) by lia.
Qed.

Lemma hex_prefix_top_bits u u' :
  (u / 16 ^ 26 mod 16 ^ 6 = u' / 16 ^ 26 mod 16 ^ 6)%N ->
  prefix 6 (uuid_hex u) = prefix 6 (uuid_hex u').
Proof.
  intros H. unfold uuid_hex. change 32 with (6 + 26).
  rewrite (hex_digits_high 6 26 u), (hex_digits_high 6 26 u').
  rewrite <- (hex_digits_low 6 6 (u / 16 ^ N.of_nat 26)) by lia.
  rewrite <- (hex_digits_low 6 6 (u' / 16 ^ N.of_nat 26)) by lia.
  change (N.of_nat 26) with 26%N. change (N.of_nat 6) with 6%N. by rewrite H.
Qed.

(** X24.  A ticket id carries the local date and the first 24 of the 128
    bits of the uuid, nothing else: two uuids that agree in those bits give
    the same id on the same clock, and the second of two such tickets is
    refused by the table. *)
Theorem ticket_id_uses_24_bits (c : Clock) (u u' : N) be db d t :
  (u / 16 ^ 26 mod 16 ^ 6 = u' / 16 ^ 26 mod 16 ^ 6)%N ->
  In t db -> Database.ticket_id t = new_ticket_id c u ->
  Database.td_ticket_id d = new_ticket_id c u' ->
  new_ticket_id c u = new_ticket_id c u'
  /\ Database.create_ticket be db d = (false, db).
Proof.
  intros Hbits Hin Ht Hd.
  assert (Heq : new_ticket_id c u = new_ticket_id c u').
  { unfold new_ticket_id. by rewrite (hex_prefix_top_bits u u' Hbits). }
  split; [exact Heq|].
  destruct (create_ticket_cases be db d) as [(_ & _ & _ & Hid & _)|(H & _)]; [|exact H].
  exfalso.
  assert (existsb (DatabaseQueries.has_id (Database.td_ticket_id d)) db = true);
    [|congruence].
  apply existsb_exists. exists t. split; [done|].
  unfold DatabaseQueries.has_id. rewrite Ht, Hd, Heq. apply String.eqb_refl.
Qed.

Definition bare_data (id thread complaint : string) : Database.TicketData :=
  {| Database.td_ticket_id := id;
     Database.td_thread_id := Some thread;
     Database.td_passenger_name := None; Database.td_passenger_email := None;
     Database.td_passenger_phone := None; Database.td_flight_number := None;
     Database.td_booking_reference := None;
     Database.td_original_complaint := Some complaint;
     Database.td_category := None; Database.td_priority := None;
     Database.td_assigned_team := None; Database.td_status := Some "OPEN" |}.

Definition first_row : Database.Ticket :=
  row_of working_backend
    (bare_data (new_ticket_id late_evening sample_uuid) "thread_a" "First").

Lemma ticket_id_uses_24_bits_witness :
  new_ticket_id late_evening sample_uuid = new_ticket_id late_evening (sample_uuid + 1)
  /\ Database.create_ticket working_backend [first_row]
       (bare_data (new_ticket_id late_evening (sample_uuid + 1)) "thread_b" "Second")
     = (false, [first_row]).
Proof.
  apply (ticket_id_uses_24_bits late_evening sample_uuid (sample_uuid + 1)
           working_backend [first_row]
           (bare_data (new_ticket_id late_evening (sample_uuid + 1)) "thread_b" "Second")
           first_row).
  - vm_compute. reflexivity.
  - left. reflexivity.
  - reflexivity.
  - reflexivity.
Defined.

End IdCollisions.

(** ** Lookups that fail, and writes with nothing to write *)

Section Edges.
Import Py.

(** X25.  [get_ticket_by_thread] answers [None] both when the table has no
    ticket for the conversation and when the server cannot be asked; a
    caller cannot tell the two apart.  When it answers with a ticket, the
    ticket is in the table and belongs to the conversation. *)
Theorem get_ticket_by_thread_none be db thread :
  (Database.get_ticket_by_thread be db thread = None
   <-> Database.connects be = false \/ Database.executes be = false
       \/ forall t, In t db -> Database.thread_id t <> Some thread)
  /\ (forall t, Database.get_ticket_by_thread be db thread = Some t ->
                In t db /\ Database.thread_id t = Some thread).
Proof.
  split; [|intros t; apply get_ticket_by_thread_found].
  unfold Database.get_ticket_by_thread, Database._get_connection.
  destruct (Database.connects be); cbn; [|split; auto].
  destruct (Database.executes be); cbn; [|split; auto].
  split.
  - intros Hf. do 2 right. intros t Hin Hth.
    apply (find_none _ _ Hf) in Hin. unfold Database.same_thread in Hin.
    rewrite Hth, String.eqb_refl in Hin. discriminate.
  - intros [H|[H|H]]; try discriminate.
    destruct (List.find _ db) as [t|] eqn:Hf; [|done].
    apply find_some in Hf as [Hin Hsame]. exfalso. apply (H t Hin).
    unfold Database.same_thread in Hsame.
    destruct (Database.thread_id t) as [th|]; [|discriminate].
    by apply String.eqb_eq in Hsame as ->.
Qed.

(** X26.  On the update path of Execute with nothing to write (no
    non-empty phone, email or complaint in the state) the table is left as
    it was, the time of last update included, and the tag is still
    "ticket_updated" whenever the connection opens. *)
Theorem execute_update_with_nothing_to_write be clock uuid db
    (state : GraphProcessor.ComplaintState) :
  GraphProcessor.ticket_exists state = true ->
  GraphProcessor.execute_updates state = [] ->
  snd (GraphProcessor._execute_action be clock uuid db state) = db
  /\ GraphProcessor.action_result (fst (GraphProcessor._execute_action be clock uuid db state))
     = Some (if Database.connects be then "ticket_updated" else "update_failed").
Proof.
  intros Hex Hup. unfold GraphProcessor._execute_action. rewrite Hex, Hup.
  unfold Database.update_ticket, Database.update_ticket_body, Database._get_connection.
  by destruct (Database.connects be).
Qed.

Definition nothing_new : GraphProcessor.ComplaintState :=
  {| GraphProcessor.thread_id := Some "thread_1";
     GraphProcessor.passenger_info := None;
     GraphProcessor.original_complaint := Some "";
     GraphProcessor.category := None;
     GraphProcessor.priority := None;
     GraphProcessor.ticket_id := Some "TCK-20240101-0A1B2C";
     GraphProcessor.assigned_team := None;
     GraphProcessor.info_complete := false;
     GraphProcessor.missing_fields := [];
     GraphProcessor.ticket_exists := true;
     GraphProcessor.next_action := Some "execute";
     GraphProcessor.action_type := Some "execute";
     GraphProcessor.action_result := None |}.

Lemma execute_update_with_nothing_to_write_witness :
  snd (GraphProcessor._execute_action working_backend late_evening sample_uuid
         [sample_ticket] nothing_new) = [sample_ticket]
  /\ GraphProcessor.action_result
       (fst (GraphProcessor._execute_action working_backend late_evening sample_uuid
               [sample_ticket] nothing_new))
     = Some (if Database.connects working_backend then "ticket_updated" else "update_failed").
Proof.
  apply (execute_update_with_nothing_to_write working_backend late_evening sample_uuid
           [sample_ticket] nothing_new); reflexivity.
Defined.

(** X27.  On the TrustCall processor an update with something to write is
    always reported as "ticket_updated", with the id the model named: the
    result does not depend on what the store's update returned. *)
Theorem trustcall_update_reported_regardless env db message thread history an a t :
  is_trivial message = false ->
  is_duplicate history message = false ->
  threshold_applies env db thread history = false ->
  Database.get_ticket_by_thread (TrustCall.backend env) db thread = Some t ->
  TrustCall.llm env (TrustCall.build_prompt (Some t) history message) = Ret an ->
  TrustCall.action an = TrustCall.update_ticket a ->
  TrustCall.update_dict a <> [] ->
  TrustCall.store (TrustCall.process_message env db message thread history)
  = snd (Database.update_ticket (TrustCall.backend_at_write env) db
           (Some (TrustCall.ua_ticket_id a)) (TrustCall.update_dict a))
  /\ exists r,
      TrustCall.outcome (TrustCall.process_message env db message thread history) = Ret r
      /\ TrustCall.status r = "ticket_updated"
      /\ TrustCall.ticket_id r = Some (TrustCall.ua_ticket_id a).
Proof.
  intros H1 H2 H3 Hget Hllm Hact Hne.
  rewrite (process_message_past_gate _ _ _ _ _ H1 H2 H3). rewrite Hget.
  unfold TrustCall.analyse_and_act. rewrite Hllm, Hact. unfold TrustCall._update_ticket.
  destruct (TrustCall.update_dict a) as [|fv u]; [done|].
  destruct (Database.update_ticket _ _ _ _) as [ok db']. cbn. eauto.
Qed.

Lemma trustcall_update_reported_regardless_witness :
  TrustCall.store (TrustCall.process_message (updating_env unreachable_backend)
                     [sample_ticket] "You can reach me at +1 555 0100" "thread_1" [])
  = snd (Database.update_ticket
           (TrustCall.backend_at_write (updating_env unreachable_backend)) [sample_ticket]
           (Some "TCK-20240101-0A1B2C") [("passenger_phone", Some "+1 555 0100")])
  /\ exists r,
      TrustCall.outcome (TrustCall.process_message (updating_env unreachable_backend)
                           [sample_ticket] "You can reach me at +1 555 0100" "thread_1" [])
      = Ret r
      /\ TrustCall.status r = "ticket_updated"
      /\ TrustCall.ticket_id r = Some "TCK-20240101-0A1B2C".
Proof.
  apply (trustcall_update_reported_regardless (updating_env unreachable_backend)
           [sample_ticket] "You can reach me at +1 555 0100" "thread_1" []
           {| TrustCall.situation_summary := "Passenger adds a phone number";
              TrustCall.has_complaint := true;
              TrustCall.is_trivial_response := false;
              TrustCall.extracted_info := john;
              TrustCall.action :=
                TrustCall.update_ticket
                  {| TrustCall.ua_ticket_id := "TCK-20240101-0A1B2C";
                     TrustCall.ua_passenger_phone := Some "+1 555 0100";
                     TrustCall.ua_passenger_email := None;
                     TrustCall.ua_flight_number := None;
                     TrustCall.ua_complaint_update := None;
                     TrustCall.ua_corrections := None |} |}
           {| TrustCall.ua_ticket_id := "TCK-20240101-0A1B2C";
              TrustCall.ua_passenger_phone := Some "+1 555 0100";
              TrustCall.ua_passenger_email := None;
              TrustCall.ua_flight_number := None;
              TrustCall.ua_complaint_update := None;
              TrustCall.ua_corrections := None |}
           sample_ticket); try reflexivity.
  discriminate.
Defined.

End Edges.
